(** * Mountain-bike prototypes: terrain, ground query, integrator, bonuses

    A shallow embedding of the two prototypes of the repository,
    [o3.py] (module [O3]) and [Deepseek.py] (module [Deepseek]).

    Numbers.  Python [int]s are [Z].  Python [float]s are modelled by exact
    rationals [Q]: every comparison, clamp and branch of the source is kept,
    rounding is not modelled.  [math.sin], [math.atan2] and [math.exp] are
    library routines and enter as the fields of the class [PyMath]; the
    pseudo-random generator enters as the stream of the values it returns.

    Failure.  A Python exception ([IndexError], [ZeroDivisionError]) is
    [None]; a [while] loop is run on fuel and yields [None] when the fuel
    is spent before the loop condition fails. *)

From Stdlib Require Import ZArith QArith Qround Qabs Qminmax List Bool Lia Lqa.
Import ListNotations.

Local Open Scope Z_scope.
Local Open Scope Q_scope.

(* ================================================================== *)
(** ** Python primitives *)

Module Py.

(** [a < b] on floats, as a boolean. *)
Definition ltb (a b : Q) : bool := negb (Qle_bool b a).

(** [a <= b] on floats, as a boolean. *)
Definition leb (a b : Q) : bool := Qle_bool a b.

(** [int(q)]: truncation toward zero. *)
Definition int (q : Q) : Z := Z.quot (Qnum q) (Z.pos (Qden q)).

(** [l[i]], negative indices counting from the end; [None] is
    [IndexError]. *)
Definition index {A : Type} (l : list A) (i : Z) : option A :=
  let n := Z.of_nat (length l) in
  if (0 <=? i)%Z then nth_error l (Z.to_nat i)
  else if (- n <=? i)%Z then nth_error l (Z.to_nat (n + i))
  else None.

(** [a / b] (true division); [None] is [ZeroDivisionError]. *)
Definition div (a b : Q) : option Q :=
  if Qeq_bool b 0 then None else Some (a / b).

(** The option monad threads exceptions through a method body. *)
Definition bind {A B : Type} (m : option A) (k : A -> option B)
  : option B :=
  match m with
  | Some a => k a
  | None => None
  end.

End Py.

Notation "x <- m ;; k" := (Py.bind m (fun x => k))
  (at level 61, m at next level, right associativity).
Notation "' p <- m ;; k" := (Py.bind m (fun x => let 'p := x in k))
  (at level 61, p pattern, m at next level, right associativity).

(** The float routines of Python's [math] module used by the prototypes. *)
Class PyMath : Type := {
  math_sin : Q -> Q;
  math_atan2 : Q -> Q -> Q;
  math_exp : Q -> Q
}.

(** The four keys read from [pygame.key.get_pressed()]. *)
Record Keys : Type := {
  K_UP : bool;
  K_DOWN : bool;
  K_LEFT : bool;
  K_RIGHT : bool
}.

(* ================================================================== *)
(** ** o3.py *)

Module O3.

Definition WIDTH : Z := 1000.
Definition HEIGHT : Z := 600.

(** A terrain point [(x, y)]: [x] is an [int], [y] a [float]. *)
Definition sample : Type := (Z * Q)%type.

Definition terrain_length : Z := 5000.
Definition terrain_step : Z := 10.
Definition BONUS_COUNT : nat := 20.

Section Terrain.
Context {M : PyMath}.

(** [uniform k] is the value of the [k]-th call of
    [random.uniform(-20, 20)]. *)
Variable uniform : nat -> Q.

Definition amplitude : Q := 80.
Definition frequency : Q := 0.005.

(** The body of the [while x < length] loop of [generate_terrain];
    [k] counts the draws made so far. *)
Fixpoint generate_terrain_loop (fuel : nat) (length step : Z)
  (x : Z) (k : nat) (terrain : list sample) : option (list sample) :=
  match fuel with
  | O => None
  | S fuel' =>
      if (x <? length)%Z then
        let y := inject_Z HEIGHT
                 - (amplitude * math_sin (frequency * inject_Z x)
                    + amplitude + uniform k) in
        generate_terrain_loop fuel' length step (x + step)%Z (S k)
          (terrain ++ [(x, y)])
      else Some terrain
  end.

Definition generate_terrain (fuel : nat) (length step : Z)
  : option (list sample) :=
  generate_terrain_loop fuel length step 0%Z 0%nat [].

End Terrain.

(** [generate_bonus_points]: [indices] is the value of
    [random.sample(range(len(terrain)), count)]. *)
Fixpoint generate_bonus_points (terrain : list sample)
  (indices : list Z) : option (list sample) :=
  match indices with
  | [] => Some []
  | i :: rest =>
      '(x, ground_y) <- Py.index terrain i ;;
      bonus_points <- generate_bonus_points terrain rest ;;
      Some ((x, ground_y - 50) :: bonus_points)
  end.

Record Bike : Type := {
  x : Q;
  y : Q;
  vx : Q;
  ax : Q;
  angle : Q;
  angular_velocity : Q;
  width : Z;
  height : Z;
  score : Z;
  distance : Q
}.

Section Physics.
Context {M : PyMath}.

(** The module-level list [terrain]. *)
Variable terrain : list sample.

Definition get_ground_y (x : Q) : option Q :=
  if Py.ltb x 0 then
    first <- Py.index terrain 0 ;; Some (snd first)
  else
    last <- Py.index terrain (-1) ;;
    if Py.ltb (inject_Z (fst last)) x then Some (snd last)
    else
      let index := Py.int (x / inject_Z terrain_step) in
      let index := Z.min index (Z.of_nat (length terrain) - 2) in
      '(x1, y1) <- Py.index terrain index ;;
      '(x2, y2) <- Py.index terrain (index + 1) ;;
      t <- Py.div (x - inject_Z x1) (inject_Z (x2 - x1)) ;;
      Some (y1 * (1 - t) + y2 * t).

Definition get_ground_slope (x : Q) : option Q :=
  let delta : Q := 1 in
  y1 <- get_ground_y (x - delta) ;;
  y2 <- get_ground_y (x + delta) ;;
  Some (math_atan2 (y2 - y1) (2 * delta)).

(** [Bike.__init__]. *)
Definition init : option Bike :=
  y0 <- get_ground_y 100 ;;
  Some {| x := 100; y := y0; vx := 0; ax := 0; angle := 0;
          angular_velocity := 0; width := 50; height := 20;
          score := 0; distance := 0 |}.

Definition suspension_offset : Q := -5.
Definition spring_k : Q := 10.
Definition damping : Q := 3.
Definition angular_damping : Q := 3.
Definition error_threshold : Q := 50.

(** [Bike.update]. *)
Definition update (dt : Q) (keys : Keys) (b : Bike) : option Bike :=
  let acceleration : Q :=
    if K_UP keys then 100 else if K_DOWN keys then -80 else 0 in
  let ax' := acceleration - 0.5 * vx b in
  let vx1 := vx b + ax' * dt in
  let vx' := if Py.ltb vx1 0 then 0 else vx1 in
  let x' := x b + vx' * dt in
  let distance' := x' in
  ground_y <- get_ground_y x' ;;
  ground_slope <- get_ground_slope x' ;;
  let error := (ground_y + suspension_offset) - y b in
  let ay := spring_k * error - damping * 0 in
  let y1 := y b + ay * dt in
  let tilt_input : Q :=
    if K_LEFT keys then 1 else if K_RIGHT keys then -1 else 0 in
  let desired_angle := - ground_slope in
  let torque := 5 * tilt_input + 2 * (desired_angle - angle b) in
  let av1 := angular_velocity b + torque * dt in
  let av' := av1 * math_exp (- angular_damping * dt) in
  let angle' := angle b + av' * dt in
  let y' := if Py.ltb error_threshold (Qabs error)
            then ground_y + suspension_offset else y1 in
  Some {| x := x'; y := y'; vx := vx'; ax := ax'; angle := angle';
          angular_velocity := av'; width := width b;
          height := height b; score := score b;
          distance := distance' |}.

(** Successive frames: one [update] per [(dt, keys)] pair. *)
Fixpoint run (frames : list (Q * Keys)) (b : Bike) : option Bike :=
  match frames with
  | [] => Some b
  | (dt, keys) :: rest => b' <- update dt keys b ;; run rest b'
  end.

End Physics.

(** [bp] is close enough to the bike to be collected. *)
Definition near (b : Bike) (bp : sample) : bool :=
  let '(bx, by_) := bp in
  Py.ltb (Qabs (x b - inject_Z bx)) 20
  && Py.ltb (Qabs (y b - by_)) 30.

(** [Bike.check_bonus]: the list of collected points and the bike. *)
Fixpoint check_bonus (bonus_points : list sample) (b : Bike)
  : list sample * Bike :=
  match bonus_points with
  | [] => ([], b)
  | bp :: rest =>
      if near b bp then
        let b1 := {| x := x b; y := y b; vx := vx b; ax := ax b;
                     angle := angle b;
                     angular_velocity := angular_velocity b;
                     width := width b; height := height b;
                     score := (score b + 1)%Z;
                     distance := distance b |} in
        let '(collected, b') := check_bonus rest b1 in
        (bp :: collected, b')
      else check_bonus rest b
  end.

(** [==] on two [(int, float)] tuples. *)
Definition sample_eqb (p q : sample) : bool :=
  (fst p =? fst q)%Z && Qeq_bool (snd p) (snd q).

(** [list.remove(c)]: drops the first element equal to [c]; [None] is
    [ValueError]. *)
Fixpoint remove (c : sample) (l : list sample) : option (list sample) :=
  match l with
  | [] => None
  | p :: rest =>
      if sample_eqb p c then Some rest
      else rest' <- remove c rest ;; Some (p :: rest')
  end.

(** [for c in collected: bonus_points.remove(c)]. *)
Fixpoint remove_all (collected bonus_points : list sample)
  : option (list sample) :=
  match collected with
  | [] => Some bonus_points
  | c :: rest =>
      bonus_points' <- remove c bonus_points ;;
      remove_all rest bonus_points'
  end.

(** The collection step of the frame loop of [main]:
    [collected = bike.check_bonus(bonus_points)] followed by the removal
    of every collected point from the global [bonus_points]. *)
Definition collect (st : Bike * list sample)
  : option (Bike * list sample) :=
  let '(b, bonus_points) := st in
  let '(collected, b') := check_bonus bonus_points b in
  bonus_points' <- remove_all collected bonus_points ;;
  Some (b', bonus_points').

(** The camera of [main]: the value of [scroll_x] for the bike at
    [bike_x], after the two clamping tests. *)
Definition scroll (bike_x : Q) : Q :=
  let scroll_x := bike_x - inject_Z WIDTH * 0.3 in
  let scroll_x := if Py.ltb scroll_x 0 then 0 else scroll_x in
  if Py.ltb (inject_Z (terrain_length - WIDTH)) scroll_x
  then inject_Z (terrain_length - WIDTH)
  else scroll_x.

(** One turn of the loop of [main], without the drawing: the physics,
    the collection of bonuses and the camera. *)
Definition frame {M : PyMath} (terrain : list sample) (dt : Q)
  (keys : Keys) (st : Bike * list sample)
  : option (Bike * list sample * Q) :=
  b' <- update terrain dt keys (fst st) ;;
  st' <- collect (b', snd st) ;;
  Some (st', scroll (x (fst st'))).

(** Successive turns of the loop of [main]. *)
Fixpoint play {M : PyMath} (terrain : list sample)
  (frames : list (Q * Keys)) (st : Bike * list sample)
  : option (Bike * list sample) :=
  match frames with
  | [] => Some st
  | (dt, keys) :: rest =>
      r <- frame terrain dt keys st ;;
      play terrain rest (fst r)
  end.

(** The loop of [draw_terrain]: the terrain points within 50 of the
    window, in screen coordinates. *)
Fixpoint visible_points (terrain : list sample) (scroll_x : Q)
  : list (Q * Q) :=
  match terrain with
  | [] => []
  | (px, py) :: rest =>
      let screen_x := inject_Z px - scroll_x in
      if Py.leb (-50) screen_x && Py.leb screen_x (inject_Z WIDTH + 50)
      then (screen_x, py) :: visible_points rest scroll_x
      else visible_points rest scroll_x
  end.

(** [draw_terrain]: the vertex list handed to [pygame.draw.polygon], or
    [None] when no polygon is drawn. *)
Definition draw_terrain (terrain : list sample) (scroll_x : Q)
  : option (list (Q * Q)) :=
  let points := visible_points terrain scroll_x in
  match points with
  | [] => None
  | first :: _ =>
      Some (points ++ [(fst (List.last points first), inject_Z HEIGHT);
                       (fst first, inject_Z HEIGHT)])
  end.

End O3.

(* ================================================================== *)
(** ** Deepseek.py *)

Module Deepseek.

Definition WIDTH : Z := 1200.
Definition HEIGHT : Z := 600.
Definition TERRAIN_SEGMENT_LENGTH : Z := 50.
Definition GRAVITY : Q := 0.5.
Definition FRICTION : Q := 0.96.
Definition BIKE_ACCEL : Q := 0.3.
Definition TILT_SPEED : Q := 1.5.
Definition CAMERA_SMOOTHNESS : Q := 0.1.

(** A terrain point [(x, y)]; both coordinates are [int]s. *)
Definition point : Type := (Z * Z)%type.

Record Terrain : Type := {
  points : list point;
  current_x : Z
}.

Record Bike : Type := {
  x : Q;
  y : Q;
  speed : Q;
  tilt : Q;
  balance : Q;
  score : Z
}.

Record Bonus : Type := {
  bonus_x : Z;
  bonus_y : Z;
  collected : bool
}.

(** The fields of [Game] that the simulation uses, and [rng], the number
    of calls made to [random.randint] so far. *)
Record Game : Type := {
  terrain : Terrain;
  bike : Bike;
  camera_x : Q;
  bonuses : list Bonus;
  rng : nat
}.

(** [max(200, min(HEIGHT - 100, y))]. *)
Definition clamp (y : Z) : Z := Z.max 200 (Z.min (HEIGHT - 100) y).

Section Random.

(** [randint k a b] is the value of the [k]-th call of
    [random.randint], made with the arguments [a] and [b]. *)
Variable randint : nat -> Z -> Z -> Z.

(** The [for _ in range(...)] loop of [generate_initial_terrain];
    [n] iterations are left. *)
Fixpoint generate_initial_loop (n : nat) (t : Terrain) (y : Z)
  (k : nat) : Terrain * nat :=
  match n with
  | O => (t, k)
  | S n' =>
      let t1 := {| points := points t ++ [(current_x t, y)];
                   current_x := (current_x t
                                 + TERRAIN_SEGMENT_LENGTH)%Z |} in
      let y1 := (y + randint k (-50) 50)%Z in
      let y2 := clamp y1 in
      generate_initial_loop n' t1 y2 (S k)
  end.

Definition generate_initial_terrain (t : Terrain) (k : nat)
  : Terrain * nat :=
  let y := (HEIGHT / 2)%Z in
  generate_initial_loop
    (Z.to_nat (WIDTH / TERRAIN_SEGMENT_LENGTH + 2)) t y k.

(** [Terrain.__init__]. *)
Definition Terrain_init (k : nat) : Terrain * nat :=
  generate_initial_terrain {| points := []; current_x := 0 |} k.

(** [Terrain.update_terrain]: the [while] loop, on fuel. *)
Fixpoint update_terrain (fuel : nat) (bike_x : Q) (t : Terrain)
  (k : nat) : option (Terrain * nat) :=
  match fuel with
  | O => None
  | S fuel' =>
      last <- Py.index (points t) (-1) ;;
      if Py.ltb (inject_Z (fst last)) (bike_x + inject_Z WIDTH) then
        let '(last_x, last_y) := last in
        let new_y := (last_y + randint k (-50) 50)%Z in
        let new_y := clamp new_y in
        update_terrain fuel' bike_x
          {| points := points t
                       ++ [((last_x + TERRAIN_SEGMENT_LENGTH)%Z, new_y)];
             current_x := current_x t |} (S k)
      else Some (t, k)
  end.

(** The [for _ in range(20)] loop of [generate_bonuses]. *)
Fixpoint generate_bonuses_loop (n : nat) (acc : list Bonus) (k : nat)
  : list Bonus * nat :=
  match n with
  | O => (acc, k)
  | S n' =>
      let bx := randint k 500 5000 in
      let by_ := randint (S k) 200 (HEIGHT - 200) in
      generate_bonuses_loop n'
        (acc ++ [{| bonus_x := bx; bonus_y := by_;
                    collected := false |}])
        (S (S k))
  end.

Definition generate_bonuses (k : nat) : list Bonus * nat :=
  generate_bonuses_loop 20 [] k.

End Random.

(** The loop of [get_current_segment]: the first pair of neighbours
    with [points[i][0] <= x <= points[i+1][0]]. *)
Fixpoint find_segment (pts : list point) (bike_x : Q)
  : option (point * point) :=
  match pts with
  | p :: ((q :: _) as rest) =>
      if Py.leb (inject_Z (fst p)) bike_x
         && Py.leb bike_x (inject_Z (fst q))
      then Some (p, q)
      else find_segment rest bike_x
  | _ => None
  end.

(** [Bike.get_current_segment], with its fallback
    [(points[0], points[1])]. *)
Definition get_current_segment (pts : list point) (bike_x : Q)
  : option (point * point) :=
  match find_segment pts bike_x with
  | Some seg => Some seg
  | None =>
      p0 <- Py.index pts 0 ;;
      p1 <- Py.index pts 1 ;;
      Some (p0, p1)
  end.

(** [Bike.get_terrain_height]. *)
Definition get_terrain_height (segment : point * point) (bike_x : Q)
  : option Q :=
  let '(x1, y1) := fst segment in
  let '(x2, y2) := snd segment in
  t <- Py.div (bike_x - inject_Z x1) (inject_Z (x2 - x1)) ;;
  Some (inject_Z y1 * (1 - t) + inject_Z y2 * t).

(** [Bike(x, y)]. *)
Definition Bike_init (x0 y0 : Q) : Bike :=
  {| x := x0; y := y0; speed := 0; tilt := 0; balance := 0;
     score := 0 |}.

(** [Bike.update]; the argument [dt] is not used by the source. *)
Definition update (terrain_points : list point) (dt : Q) (b : Bike)
  : option Bike :=
  let speed' := speed b * FRICTION in
  let y1 := y b + GRAVITY in
  let x' := x b + speed' in
  current_segment <- get_current_segment terrain_points x' ;;
  terrain_height <- get_terrain_height current_segment x' ;;
  let y' := terrain_height - 20 in
  let balance' :=
    inject_Z (snd (snd current_segment) - snd (fst current_segment)) in
  let tilt' := tilt b + (- balance' * 0.1 - tilt b) * 0.1 in
  Some {| x := x'; y := y'; speed := speed'; tilt := tilt';
          balance := balance'; score := score b |}.

(** [Game.handle_input], on the bike. *)
Definition handle_input (keys : Keys) (b : Bike) : Bike :=
  let s1 := if K_UP keys then speed b + BIKE_ACCEL else speed b in
  let s2 := if K_DOWN keys then s1 - BIKE_ACCEL else s1 in
  let t1 := if K_LEFT keys then tilt b - TILT_SPEED else tilt b in
  let t2 := if K_RIGHT keys then t1 + TILT_SPEED else t1 in
  {| x := x b; y := y b; speed := s2; tilt := t2;
     balance := balance b; score := score b |}.

(** [Game.update_camera]. *)
Definition update_camera (bike_x camera : Q) : Q :=
  let target_x := bike_x - inject_Z (WIDTH / 2) in
  camera + (target_x - camera) * CAMERA_SMOOTHNESS.

(** The test of [check_bonus_collection] on one bonus. *)
Definition hit (bike_x : Q) (bonus : Bonus) : bool :=
  negb (collected bonus)
  && Py.ltb (Qabs (bike_x - inject_Z (bonus_x bonus))) 30.

(** The [for bonus in self.bonuses] loop of [check_bonus_collection]:
    the bonus list and the score after it. *)
Fixpoint check_bonus_loop (bike_x : Q) (bs : list Bonus)
  (sc : Z) : list Bonus * Z :=
  match bs with
  | [] => ([], sc)
  | bonus :: rest =>
      if hit bike_x bonus then
        let '(rest', sc') :=
          check_bonus_loop bike_x rest (sc + 10)%Z in
        ({| bonus_x := bonus_x bonus; bonus_y := bonus_y bonus;
            collected := true |} :: rest', sc')
      else
        let '(rest', sc') := check_bonus_loop bike_x rest sc in
        (bonus :: rest', sc')
  end.

Definition set_score (sc : Z) (b : Bike) : Bike :=
  {| x := x b; y := y b; speed := speed b; tilt := tilt b;
     balance := balance b; score := sc |}.

(** [Game.check_bonus_collection]. *)
Definition check_bonus_collection (g : Game) : Game :=
  let '(bs, sc) :=
    check_bonus_loop (x (bike g)) (bonuses g) (score (bike g)) in
  {| terrain := terrain g; bike := set_score sc (bike g);
     camera_x := camera_x g; bonuses := bs; rng := rng g |}.

Section Frames.
Variable randint : nat -> Z -> Z -> Z.

(** [Game.__init__]. *)
Definition Game_init : Game :=
  let '(t, k1) := Terrain_init randint 0%nat in
  let b := Bike_init 100 (inject_Z (HEIGHT / 2)) in
  let '(bs, k2) := generate_bonuses randint k1 in
  {| terrain := t; bike := b; camera_x := 0; bonuses := bs;
     rng := k2 |}.

(** One turn of the loop of [Game.run], without the drawing; [fuel]
    bounds the loop of [update_terrain]. *)
Definition frame (fuel : nat) (dt : Q) (keys : Keys) (g : Game)
  : option Game :=
  let b1 := handle_input keys (bike g) in
  '(t, k) <- update_terrain randint fuel (x b1) (terrain g) (rng g) ;;
  b2 <- update (points t) dt b1 ;;
  let cam := update_camera (x b2) (camera_x g) in
  Some (check_bonus_collection
          {| terrain := t; bike := b2; camera_x := cam;
             bonuses := bonuses g; rng := k |}).

End Frames.

(** [Game.draw_bonuses]: the centres of the circles drawn. *)
Fixpoint draw_bonuses (camera : Q) (bs : list Bonus) : list (Q * Z) :=
  match bs with
  | [] => []
  | bonus :: rest =>
      if negb (collected bonus) then
        let bx := inject_Z (bonus_x bonus) - camera in
        if Py.ltb 0 bx && Py.ltb bx (inject_Z WIDTH)
        then (bx, bonus_y bonus) :: draw_bonuses camera rest
        else draw_bonuses camera rest
      else draw_bonuses camera rest
  end.

End Deepseek.

(* ================================================================== *)
(** ** Stand-ins used to run the model on concrete inputs *)

(** Truncated series for the float routines.  [math_sin 0] is exactly [0],
    as for the float routine; nothing proved below depends on the other
    values. *)
Definition series_math : PyMath := {|
  math_sin := fun t => Qmax (-1) (Qmin 1 (t - t * t * t / 6));
  math_atan2 := fun a b => if Qeq_bool b 0 then 0 else a / b;
  math_exp := fun t => 1 + t + t * t / 2
|}.

(** A generator whose draws alternate between the two ends of the
    interval asked for. *)
Definition zigzag (k : nat) (a b : Z) : Z := if Nat.even k then a else b.

(** No key pressed, and single keys held. *)
Definition no_keys : Keys :=
  {| K_UP := false; K_DOWN := false; K_LEFT := false; K_RIGHT := false |}.
Definition up_keys : Keys :=
  {| K_UP := true; K_DOWN := false; K_LEFT := false; K_RIGHT := false |}.
Definition down_keys : Keys :=
  {| K_UP := false; K_DOWN := true; K_LEFT := false; K_RIGHT := false |}.

(** A stream of draws of [random.uniform(-20, 20)] that are all [0]. *)
Definition calm : nat -> Q := fun _ => 0.

(** The module-level [terrain] of [o3.py],
    [generate_terrain(terrain_length, terrain_step)], for the draws
    [calm]: 500 samples. *)
Definition course : list O3.sample :=
  match O3.generate_terrain (M := series_math) calm 501
          O3.terrain_length O3.terrain_step with
  | Some terrain => terrain
  | None => []
  end.

(** A bike at rest at [(100, 500)]. *)
Definition rest_bike : O3.Bike :=
  {| O3.x := 100; O3.y := 500; O3.vx := 0; O3.ax := 0; O3.angle := 0;
     O3.angular_velocity := 0; O3.width := 50; O3.height := 20;
     O3.score := 0; O3.distance := 0 |}.

(** A stream of draws of [random.uniform(-20, 20)] that are all [20]. *)
Definition gusty : nat -> Q := fun _ => 20.

(** A game of [Deepseek.py] with the bike at [(500, 480)] and one
    uncollected bonus at [(500, 200)], 280 above it. *)
Definition far_game : Deepseek.Game :=
  {| Deepseek.terrain := fst (Deepseek.Terrain_init zigzag 0);
     Deepseek.bike :=
       {| Deepseek.x := 500; Deepseek.y := 480; Deepseek.speed := 0;
          Deepseek.tilt := 0; Deepseek.balance := 0; Deepseek.score := 0 |};
     Deepseek.camera_x := 0;
     Deepseek.bonuses :=
       [{| Deepseek.bonus_x := 500; Deepseek.bonus_y := 200;
           Deepseek.collected := false |}];
     Deepseek.rng := 0 |}.

(** A game of [Deepseek.py] with the bike at [(500, 280)], the camera at
    [0] and two uncollected bonuses, one at the bike's abscissa and one
    200 further. *)
Definition two_bonus_game : Deepseek.Game :=
  {| Deepseek.terrain := fst (Deepseek.Terrain_init zigzag 0);
     Deepseek.bike :=
       {| Deepseek.x := 500; Deepseek.y := 280; Deepseek.speed := 0;
          Deepseek.tilt := 0; Deepseek.balance := 0; Deepseek.score := 0 |};
     Deepseek.camera_x := 0;
     Deepseek.bonuses :=
       [{| Deepseek.bonus_x := 500; Deepseek.bonus_y := 200;
           Deepseek.collected := false |};
        {| Deepseek.bonus_x := 700; Deepseek.bonus_y := 300;
           Deepseek.collected := false |}];
     Deepseek.rng := 0 |}.

(** The band of the only clamp of the repository,
    [max(200, min(HEIGHT - 100, y))]. *)
Definition in_band (y : Q) : Prop :=
  200 <= y /\ y <= inject_Z (Deepseek.HEIGHT - 100).

(** Points whose abscissas are [0, step, 2 * step, ...]. *)
Definition spaced {A : Type} (step : Z) (l : list (Z * A)) : Prop :=
  forall i p, nth_error l i = Some p -> fst p = (Z.of_nat i * step)%Z.

(** The height that [generate_terrain] gives to the sample at [x] when
    the draw is [u]. *)
Definition o3_height {M : PyMath} (x : Z) (u : Q) : Q :=
  inject_Z O3.HEIGHT
  - (O3.amplitude * math_sin (O3.frequency * inject_Z x)
     + O3.amplitude + u).

(** The pedal or brake term of [Bike.update]. *)
Definition o3_acceleration (keys : Keys) : Q :=
  if K_UP keys then 100 else if K_DOWN keys then -80 else 0.

(** The velocity after the Euler step and the clamp of [Bike.update]. *)
Definition o3_next_vx (dt : Q) (keys : Keys) (v : Q) : Q :=
  let v1 := v + (o3_acceleration keys - 0.5 * v) * dt in
  if Py.ltb v1 0 then 0 else v1.

(** The bike placed at [(px, py)], every other field kept. *)
Definition o3_place (pos : Q * Q) (b : O3.Bike) : O3.Bike :=
  {| O3.x := fst pos; O3.y := snd pos; O3.vx := O3.vx b; O3.ax := O3.ax b;
     O3.angle := O3.angle b;
     O3.angular_velocity := O3.angular_velocity b;
     O3.width := O3.width b; O3.height := O3.height b;
     O3.score := O3.score b; O3.distance := O3.distance b |}.

(** A sequence of collection steps of [o3.py], the bike being at the
    given position at each of them. *)
Fixpoint o3_collect_seq (positions : list (Q * Q))
  (st : O3.Bike * list O3.sample) : option (O3.Bike * list O3.sample) :=
  match positions with
  | [] => Some st
  | pos :: rest =>
      st' <- O3.collect (o3_place pos (fst st), snd st) ;;
      o3_collect_seq rest st'
  end.

(** The number of bonuses of [Deepseek.py] flagged as collected. *)
Definition collected_count (bs : list Deepseek.Bonus) : Z :=
  Z.of_nat (length (filter Deepseek.collected bs)).

(** The game with its bike placed at [(px, py)]. *)
Definition deepseek_place (pos : Q * Q) (g : Deepseek.Game)
  : Deepseek.Game :=
  {| Deepseek.terrain := Deepseek.terrain g;
     Deepseek.bike :=
       {| Deepseek.x := fst pos; Deepseek.y := snd pos;
          Deepseek.speed := Deepseek.speed (Deepseek.bike g);
          Deepseek.tilt := Deepseek.tilt (Deepseek.bike g);
          Deepseek.balance := Deepseek.balance (Deepseek.bike g);
          Deepseek.score := Deepseek.score (Deepseek.bike g) |};
     Deepseek.camera_x := Deepseek.camera_x g;
     Deepseek.bonuses := Deepseek.bonuses g;
     Deepseek.rng := Deepseek.rng g |}.

(** A sequence of calls of [check_bonus_collection], the bike being at
    the given position at each of them. *)
Fixpoint deepseek_collect_seq (positions : list (Q * Q))
  (g : Deepseek.Game) : Deepseek.Game :=
  match positions with
  | [] => g
  | pos :: rest =>
      deepseek_collect_seq rest
        (Deepseek.check_bonus_collection (deepseek_place pos g))
  end.

(** The terrains a game of [Deepseek.py] can hold: the one built by
    [Terrain()] and its extensions by [update_terrain]. *)
Inductive deepseek_generated (randint : nat -> Z -> Z -> Z)
  : Deepseek.Terrain -> Prop :=
| generated_init (k : nat) :
    deepseek_generated randint (fst (Deepseek.Terrain_init randint k))
| generated_extend (fuel : nat) (bike_x : Q) (t : Deepseek.Terrain)
    (k : nat) (t' : Deepseek.Terrain) (k' : nat) :
    deepseek_generated randint t ->
    Deepseek.update_terrain randint fuel bike_x t k = Some (t', k') ->
    deepseek_generated randint t'.

(** What [check_bonus_collection] does to one bonus. *)
Definition deepseek_mark (bike_x : Q) (bonus : Deepseek.Bonus)
  : Deepseek.Bonus :=
  if Deepseek.hit bike_x bonus
  then {| Deepseek.bonus_x := Deepseek.bonus_x bonus;
          Deepseek.bonus_y := Deepseek.bonus_y bonus;
          Deepseek.collected := true |}
  else bonus.

(** The invariant of the point list of [Terrain]: abscissas
    [0, 50, 100, ...] and every height inside the clamp band. *)
Definition terrain_inv (pts : list Deepseek.point) : Prop :=
  spaced Deepseek.TERRAIN_SEGMENT_LENGTH pts /\
  Forall (fun p => in_band (inject_Z (snd p))) pts.

(** The games [Deepseek.py] can reach: the one built by [Game()] and
    those that a turn of the loop of [run] yields from them. *)
Inductive deepseek_reachable (randint : nat -> Z -> Z -> Z)
  : Deepseek.Game -> Prop :=
| reachable_init : deepseek_reachable randint (Deepseek.Game_init randint)
| reachable_frame (fuel : nat) (dt : Q) (keys : Keys)
    (g g' : Deepseek.Game) :
    deepseek_reachable randint g ->
    Deepseek.frame randint fuel dt keys g = Some g' ->
    deepseek_reachable randint g'.

(** Neighbouring points differ in height by at most 50. *)
Definition gentle (pts : list Deepseek.point) : Prop :=
  forall i p q,
    nth_error pts i = Some p -> nth_error pts (S i) = Some q ->
    (-50 <= snd q - snd p <= 50)%Z.

(** A random source whose draws respect the interval asked for. *)
Definition in_range (randint : nat -> Z -> Z -> Z) : Prop :=
  forall k a b, (a <= b)%Z -> (a <= randint k a b <= b)%Z.

(** The invariant of the loop of [Deepseek.py], on the exact values of
    the model: the terrain is a generated one and reaches at least 1000
    beyond the bike, the speed is at most 7.2 either way, there are 20
    bonuses, the score is 10 per collected bonus, and a bike right of the
    origin rides with [180 <= y <= 480]. *)
Definition game_inv (randint : nat -> Z -> Z -> Z) (g : Deepseek.Game)
  : Prop :=
  deepseek_generated randint (Deepseek.terrain g) /\
  (- (36 # 5) <= Deepseek.speed (Deepseek.bike g) /\
   Deepseek.speed (Deepseek.bike g) <= 36 # 5) /\
  length (Deepseek.bonuses g) = 20%nat /\
  Deepseek.score (Deepseek.bike g)
  = (10 * collected_count (Deepseek.bonuses g))%Z /\
  (exists last,
      Py.index (Deepseek.points (Deepseek.terrain g)) (-1) = Some last /\
      Deepseek.x (Deepseek.bike g) + 1000 <= inject_Z (fst last)) /\
  (0 <= Deepseek.x (Deepseek.bike g) ->
   180 <= Deepseek.y (Deepseek.bike g) /\
   Deepseek.y (Deepseek.bike g) <= 480).

(* ================================================================== *)
(** ** Facts on the Python primitives *)

Lemma ltb_true (a b : Q) : Py.ltb a b = true <-> a < b.
Proof.
  unfold Py.ltb. rewrite negb_true_iff.
  split; intro H.
  - apply Qnot_le_lt. intro L. apply Qle_bool_iff in L. congruence.
  - destruct (Qle_bool b a) eqn:E; trivial.
    apply Qle_bool_iff in E. apply Qle_not_lt in E. contradiction.
Qed.

Lemma ltb_false (a b : Q) : Py.ltb a b = false <-> b <= a.
Proof.
  unfold Py.ltb. rewrite negb_false_iff. apply Qle_bool_iff.
Qed.

Lemma leb_true (a b : Q) : Py.leb a b = true <-> a <= b.
Proof. apply Qle_bool_iff. Qed.

Lemma div_Some (a b : Q) : ~ b == 0 -> Py.div a b = Some (a / b).
Proof.
  intro H. unfold Py.div.
  destruct (Qeq_bool b 0) eqn:E; trivial.
  apply Qeq_bool_iff in E. contradiction.
Qed.

Lemma index_nonneg {A : Type} (l : list A) (i : Z) :
  (0 <= i)%Z -> Py.index l i = nth_error l (Z.to_nat i).
Proof.
  intro H. unfold Py.index.
  destruct (0 <=? i)%Z eqn:E; trivial. apply Z.leb_gt in E. lia.
Qed.

Lemma index_last {A : Type} (l : list A) :
  l <> [] -> Py.index l (-1) = nth_error l (length l - 1).
Proof.
  intro H. unfold Py.index.
  assert (L : (1 <= length l)%nat)
    by (destruct l; [congruence | simpl; lia]).
  destruct (0 <=? -1)%Z eqn:E0; [apply Z.leb_le in E0; lia |].
  destruct (- Z.of_nat (length l) <=? -1)%Z eqn:E1.
  - f_equal. lia.
  - apply Z.leb_gt in E1. lia.
Qed.

Lemma nth_error_in_range {A : Type} (l : list A) (i : nat) :
  (i < length l)%nat -> exists a, nth_error l i = Some a.
Proof.
  intro H. destruct (nth_error l i) eqn:E; eauto.
  apply nth_error_None in E. lia.
Qed.

Lemma int_nonneg (q : Q) : 0 <= q -> (0 <= Py.int q)%Z.
Proof.
  intro H. unfold Py.int. apply Z.quot_pos; [| lia].
  unfold Qle in H. simpl in H. lia.
Qed.

(* ================================================================== *)
(** ** o3.py: the terrain generator *)

Section O3_terrain.
Context {M : PyMath}.
Variable uniform : nat -> Q.

(** What the loop appends: sample [i] of the tail is at [x + i * step]
    and uses draw [k + i]. *)
Lemma generate_terrain_loop_tail (fuel : nat) :
  forall length step x k acc t,
    O3.generate_terrain_loop uniform fuel length step x k acc = Some t ->
    exists tail,
      t = acc ++ tail /\
      forall i s, nth_error tail i = Some s ->
        fst s = (x + Z.of_nat i * step)%Z /\
        snd s = o3_height (fst s) (uniform (k + i)%nat).
Proof.
  induction fuel as [| fuel IH]; intros length step x k acc t H;
    simpl in H; [discriminate |].
  destruct (x <? length)%Z.
  - apply IH in H. destruct H as (tail & -> & Htail).
    exists ((x, o3_height x (uniform k)) :: tail). split.
    + rewrite <- app_assoc. reflexivity.
    + intros [| i] s Hs; simpl in Hs.
      * injection Hs as <-. simpl. rewrite Nat.add_0_r. split; [lia | reflexivity].
      * apply Htail in Hs. destruct Hs as [Hx Hy]. split.
        -- rewrite Hx. lia.
        -- rewrite Hy. f_equal. f_equal. lia.
  - injection H as <-. exists []. split.
    + symmetry. apply app_nil_r.
    + intros [| i] s Hs; discriminate.
Qed.

Lemma generate_terrain_samples fuel length step t :
  O3.generate_terrain uniform fuel length step = Some t ->
  forall i s, nth_error t i = Some s ->
    fst s = (Z.of_nat i * step)%Z /\
    snd s = o3_height (fst s) (uniform i).
Proof.
  intros H i s Hs. unfold O3.generate_terrain in H.
  apply generate_terrain_loop_tail in H. destruct H as (tail & -> & Htail).
  simpl in Hs. apply Htail in Hs. exact Hs.
Qed.

Lemma generate_terrain_spaced fuel length step t :
  O3.generate_terrain uniform fuel length step = Some t -> spaced step t.
Proof.
  intros H i s Hs. eapply generate_terrain_samples in H; eauto. tauto.
Qed.

(** The loop stops: with a positive step, [length - x] bounds the number
    of turns. *)
Lemma generate_terrain_loop_stops (n : nat) :
  forall length step x k acc,
    (0 < step)%Z -> (length - x <= Z.of_nat n)%Z ->
    exists t,
      O3.generate_terrain_loop uniform (S n) length step x k acc = Some t.
Proof.
  induction n as [| n IH]; intros length step x k acc Hstep Hn.
  - simpl. destruct (x <? length)%Z eqn:E; [| eauto].
    apply Z.ltb_lt in E. lia.
  - cbn [O3.generate_terrain_loop].
    destruct (x <? length)%Z eqn:E; [| eauto].
    apply IH; lia.
Qed.

Lemma generate_terrain_stops length step :
  (0 < step)%Z ->
  exists t,
    O3.generate_terrain uniform (S (Z.to_nat length)) length step = Some t.
Proof.
  intro Hstep. apply generate_terrain_loop_stops; lia.
Qed.

End O3_terrain.

(* ================================================================== *)
(** ** o3.py: the ground query *)

Section O3_ground.
Variable terrain : list O3.sample.
Hypothesis Hspaced : spaced O3.terrain_step terrain.

Lemma ground_left first x :
  nth_error terrain 0 = Some first ->
  x < 0 -> O3.get_ground_y terrain x = Some (snd first).
Proof.
  intros Hf Hx. unfold O3.get_ground_y.
  apply ltb_true in Hx. rewrite Hx.
  rewrite index_nonneg by lia. simpl Z.to_nat. rewrite Hf. reflexivity.
Qed.

Lemma last_sample last :
  nth_error terrain (length terrain - 1) = Some last ->
  terrain <> [] /\ Py.index terrain (-1) = Some last /\
  fst last = (Z.of_nat (length terrain - 1) * O3.terrain_step)%Z.
Proof.
  intro Hl.
  assert (Hne : terrain <> []).
  { intro E. rewrite E in Hl. discriminate. }
  repeat split; trivial.
  - rewrite index_last by trivial. exact Hl.
  - apply Hspaced. exact Hl.
Qed.

Lemma ground_right last x :
  nth_error terrain (length terrain - 1) = Some last ->
  inject_Z (fst last) < x -> O3.get_ground_y terrain x = Some (snd last).
Proof.
  intros Hl Hx. destruct (last_sample _ Hl) as (Hne & Hi & Hfx).
  unfold O3.get_ground_y.
  assert (H0 : 0 <= inject_Z (fst last)).
  { rewrite Hfx. unfold O3.terrain_step, Qle. simpl. lia. }
  assert (Hn : Py.ltb x 0 = false) by (apply ltb_false; lra).
  rewrite Hn, Hi. cbn [Py.bind].
  apply ltb_true in Hx. rewrite Hx. reflexivity.
Qed.

(** Inside the sampled range the index computed by the source stays
    within [0, len(terrain) - 2]. *)
Lemma index_in_range last x :
  (2 <= length terrain)%nat ->
  nth_error terrain (length terrain - 1) = Some last ->
  0 <= x -> x <= inject_Z (fst last) ->
  let index :=
    Z.min (Py.int (x / inject_Z O3.terrain_step))
          (Z.of_nat (length terrain) - 2) in
  (0 <= index <= Z.of_nat (length terrain) - 2)%Z.
Proof.
  intros Hlen Hl H0 Hx index. subst index.
  assert (Hq : 0 <= x / inject_Z O3.terrain_step).
  { apply Qle_shift_div_l; [reflexivity | lra]. }
  apply int_nonneg in Hq. lia.
Qed.

Lemma ground_inside last x :
  (2 <= length terrain)%nat ->
  nth_error terrain (length terrain - 1) = Some last ->
  0 <= x -> x <= inject_Z (fst last) ->
  exists i y1 y2,
    (0 <= i <= Z.of_nat (length terrain) - 2)%Z /\
    nth_error terrain (Z.to_nat i)
      = Some ((i * O3.terrain_step)%Z, y1) /\
    nth_error terrain (Z.to_nat (i + 1))
      = Some (((i + 1) * O3.terrain_step)%Z, y2) /\
    let t := (x - inject_Z (i * O3.terrain_step))
             / inject_Z O3.terrain_step in
    O3.get_ground_y terrain x = Some (y1 * (1 - t) + y2 * t).
Proof.
  intros Hlen Hl H0 Hx. destruct (last_sample _ Hl) as (Hne & Hi & Hfx).
  pose proof (index_in_range _ _ Hlen Hl H0 Hx) as Hr. cbv zeta in Hr.
  set (i := Z.min (Py.int (x / inject_Z O3.terrain_step))
                  (Z.of_nat (length terrain) - 2)) in *.
  destruct (nth_error_in_range terrain (Z.to_nat i)) as [[x1 y1] H1];
    [lia |].
  destruct (nth_error_in_range terrain (Z.to_nat (i + 1))) as [[x2 y2] H2];
    [lia |].
  pose proof (Hspaced _ _ H1) as E1. pose proof (Hspaced _ _ H2) as E2.
  simpl in E1, E2. rewrite Z2Nat.id in E1, E2 by lia. subst x1 x2.
  exists i, y1, y2. repeat split; trivial; try lia.
  unfold O3.get_ground_y.
  assert (Hn : Py.ltb x 0 = false) by (apply ltb_false; lra).
  assert (Hm : Py.ltb (inject_Z (fst last)) x = false)
    by (apply ltb_false; lra).
  rewrite Hn, Hi. cbn [Py.bind]. rewrite Hm. fold i.
  rewrite !index_nonneg by lia. rewrite H1, H2. cbn [Py.bind].
  replace ((i + 1) * O3.terrain_step - i * O3.terrain_step)%Z
    with O3.terrain_step by (unfold O3.terrain_step; lia).
  rewrite div_Some by (intro E; discriminate E).
  reflexivity.
Qed.

(** The query returns on every abscissa. *)
Lemma ground_total x :
  (2 <= length terrain)%nat -> exists g, O3.get_ground_y terrain x = Some g.
Proof.
  intro Hlen.
  destruct (nth_error_in_range terrain 0) as [first Hf]; [lia |].
  destruct (nth_error_in_range terrain (length terrain - 1))
    as [last Hl]; [lia |].
  destruct (Qlt_le_dec x 0) as [Hx | Hx].
  - eexists. eapply ground_left; eauto.
  - destruct (Qlt_le_dec (inject_Z (fst last)) x) as [Hr | Hr].
    + eexists. eapply ground_right; eauto.
    + destruct (ground_inside last x Hlen Hl Hx Hr)
        as (i & y1 & y2 & _ & _ & _ & Hg).
      eexists. exact Hg.
Qed.

End O3_ground.

(* ================================================================== *)
(** ** o3.py: one frame of the integrator *)

Section O3_update.
Context {M : PyMath}.
Variable terrain : list O3.sample.

(** The fields written by a frame that returns. *)
Lemma update_fields dt keys b b' :
  O3.update terrain dt keys b = Some b' ->
  exists ground_y,
    O3.get_ground_y terrain (O3.x b') = Some ground_y /\
    O3.vx b' = o3_next_vx dt keys (O3.vx b) /\
    O3.x b' = O3.x b + O3.vx b' * dt /\
    O3.distance b' = O3.x b' /\
    O3.y b' =
      let error := ground_y + O3.suspension_offset - O3.y b in
      if Py.ltb O3.error_threshold (Qabs error)
      then ground_y + O3.suspension_offset
      else O3.y b + (O3.spring_k * error - O3.damping * 0) * dt.
Proof.
  unfold O3.update. intro H.
  match type of H with
  | Py.bind (O3.get_ground_y _ ?p) _ = _ =>
      destruct (O3.get_ground_y terrain p) as [g |] eqn:Eg;
      [| discriminate]
  end.
  cbn [Py.bind] in H.
  match type of H with
  | Py.bind ?s _ = _ => destruct s as [sl |]; [| discriminate]
  end.
  cbn [Py.bind] in H. injection H as <-. cbn [O3.x O3.y O3.vx O3.distance].
  exists g. repeat split; trivial.
Qed.

Lemma next_vx_nonneg dt keys v : 0 <= o3_next_vx dt keys v.
Proof.
  unfold o3_next_vx. cbv zeta.
  destruct (Py.ltb _ 0) eqn:E; [lra |].
  apply ltb_false in E. exact E.
Qed.

Hypothesis Hspaced : spaced O3.terrain_step terrain.
Hypothesis Hlen : (2 <= length terrain)%nat.

Lemma slope_total p : exists s, O3.get_ground_slope terrain p = Some s.
Proof.
  unfold O3.get_ground_slope.
  destruct (ground_total terrain Hspaced (p - 1) Hlen) as [g1 ->].
  destruct (ground_total terrain Hspaced (p + 1) Hlen) as [g2 ->].
  cbn [Py.bind]. eauto.
Qed.

Lemma init_total : exists b0, O3.init terrain = Some b0 /\ O3.vx b0 = 0
  /\ O3.x b0 = 100 /\ O3.distance b0 = 0
  /\ O3.get_ground_y terrain 100 = Some (O3.y b0).
Proof.
  unfold O3.init.
  destruct (ground_total terrain Hspaced 100 Hlen) as [g ->].
  cbn [Py.bind]. eexists. repeat split.
Qed.

Lemma update_total dt keys b :
  exists b', O3.update terrain dt keys b = Some b'.
Proof.
  unfold O3.update.
  match goal with
  | |- exists _, Py.bind (O3.get_ground_y _ ?p) _ = _ =>
      destruct (ground_total terrain Hspaced p Hlen) as [g ->];
      destruct (slope_total p) as [s ->]
  end.
  cbn [Py.bind]. eauto.
Qed.

Lemma run_total frames : forall b, exists b', O3.run terrain frames b = Some b'.
Proof.
  induction frames as [| [dt keys] rest IH]; intro b; simpl; [eauto |].
  destruct (update_total dt keys b) as [b1 ->]. cbn [Py.bind]. apply IH.
Qed.

End O3_update.

(* ================================================================== *)
(** ** Deepseek.py: the terrain generator *)

Lemma clamp_in_band (y : Z) : in_band (inject_Z (Deepseek.clamp y)).
Proof.
  unfold in_band, Deepseek.clamp, Deepseek.HEIGHT.
  split.
  - change 200 with (inject_Z 200). rewrite <- Zle_Qle. lia.
  - rewrite <- Zle_Qle. lia.
Qed.

Lemma spaced_snoc {A : Type} (step : Z) (l : list (Z * A)) (p : Z * A) :
  spaced step l -> fst p = (Z.of_nat (length l) * step)%Z ->
  spaced step (l ++ [p]).
Proof.
  intros Hl Hp i q Hq.
  destruct (Nat.lt_ge_cases i (length l)) as [Hi | Hi].
  - rewrite nth_error_app1 in Hq by trivial. apply Hl. exact Hq.
  - rewrite nth_error_app2 in Hq by trivial.
    destruct (i - length l)%nat as [| j] eqn:E; simpl in Hq.
    + injection Hq as <-. rewrite Hp. f_equal. lia.
    + destruct j; discriminate.
Qed.

Lemma terrain_inv_snoc pts x y :
  terrain_inv pts ->
  x = (Z.of_nat (length pts) * Deepseek.TERRAIN_SEGMENT_LENGTH)%Z ->
  in_band (inject_Z y) ->
  terrain_inv (pts ++ [(x, y)]).
Proof.
  intros [Hs Hb] Hx Hy. split.
  - apply spaced_snoc; trivial.
  - apply Forall_app. split; trivial. constructor; trivial.
Qed.

Section Deepseek_terrain.
Variable randint : nat -> Z -> Z -> Z.

Lemma generate_initial_loop_inv (n : nat) :
  forall t y k,
    terrain_inv (Deepseek.points t) ->
    Deepseek.current_x t
      = (Z.of_nat (length (Deepseek.points t))
         * Deepseek.TERRAIN_SEGMENT_LENGTH)%Z ->
    in_band (inject_Z y) ->
    let t' := fst (Deepseek.generate_initial_loop randint n t y k) in
    terrain_inv (Deepseek.points t') /\
    length (Deepseek.points t') = (length (Deepseek.points t) + n)%nat /\
    exists tail,
      Deepseek.points t' = Deepseek.points t ++ tail /\
      (n <> 0%nat -> exists tl, tail = (Deepseek.current_x t, y) :: tl).
Proof.
  induction n as [| n IH]; intros t y k Hinv Hx Hy; cbn zeta.
  - simpl. split; [exact Hinv |]. split; [lia |].
    exists []. rewrite app_nil_r. split; [reflexivity | congruence].
  - cbn [Deepseek.generate_initial_loop].
    set (t1 := {| Deepseek.points := Deepseek.points t
                                     ++ [(Deepseek.current_x t, y)];
                  Deepseek.current_x := _ |}).
    assert (H1 : terrain_inv (Deepseek.points t1)).
    { subst t1. cbn [Deepseek.points]. apply terrain_inv_snoc; trivial. }
    assert (H2 : Deepseek.current_x t1
                 = (Z.of_nat (length (Deepseek.points t1))
                    * Deepseek.TERRAIN_SEGMENT_LENGTH)%Z).
    { subst t1. cbn [Deepseek.points Deepseek.current_x].
      rewrite Hx, length_app. simpl. lia. }
    pose proof (IH t1 (Deepseek.clamp (y + randint k (-50) 50)) (S k)
                  H1 H2 (clamp_in_band _)) as IH'.
    cbn zeta in IH'. destruct IH' as (Hinv' & Hlen' & tail & Htail & _).
    split; [exact Hinv' |]. split.
    + rewrite Hlen'. subst t1. cbn [Deepseek.points].
      rewrite length_app. simpl. lia.
    + rewrite Htail. subst t1. cbn [Deepseek.points].
      rewrite <- app_assoc. simpl. eexists. split; [reflexivity |].
      intros _. eexists. reflexivity.
Qed.

(** [Terrain()]: 26 points, the first one at [(0, HEIGHT // 2)]. *)
Lemma Terrain_init_inv k :
  let t := fst (Deepseek.Terrain_init randint k) in
  terrain_inv (Deepseek.points t) /\
  length (Deepseek.points t) = 26%nat /\
  exists tail, Deepseek.points t = (0, 300)%Z :: tail.
Proof.
  unfold Deepseek.Terrain_init, Deepseek.generate_initial_terrain.
  change (Z.to_nat _) with 26%nat.
  change (Deepseek.HEIGHT / 2)%Z with 300%Z.
  destruct (generate_initial_loop_inv 26
              {| Deepseek.points := []; Deepseek.current_x := 0 |}
              300%Z k) as (Hinv & Hlen & tail & Htail & Hhd).
  - split; [intros [| i] p Hp; discriminate | constructor].
  - reflexivity.
  - split; unfold Qle; simpl; lia.
  - cbn zeta. split; [exact Hinv |]. split; [exact Hlen |].
    destruct Hhd as [tl ->]; [discriminate |].
    rewrite Htail. simpl. eauto.
Qed.

(** An extension appends clamped points and ends with the last point at
    or beyond [bike_x + WIDTH]. *)
Lemma update_terrain_inv (fuel : nat) :
  forall bike_x t k t' k',
    terrain_inv (Deepseek.points t) ->
    Deepseek.update_terrain randint fuel bike_x t k = Some (t', k') ->
    terrain_inv (Deepseek.points t') /\
    exists tail,
      Deepseek.points t' = Deepseek.points t ++ tail /\
      Forall (fun p => exists y, snd p = Deepseek.clamp y) tail.
Proof.
  induction fuel as [| fuel IH]; intros bike_x t k t' k' Hinv H;
    simpl in H; [discriminate |].
  destruct (Py.index (Deepseek.points t) (-1)) as [[last_x last_y] |] eqn:El;
    [| discriminate].
  cbn [Py.bind fst] in H.
  destruct (Py.ltb _ _).
  - apply IH in H.
    + destruct H as (Hinv' & tail & Htail & Hcl). split; trivial.
      cbn [Deepseek.points] in Htail. rewrite <- app_assoc in Htail.
      eexists. split; [exact Htail |].
      constructor; [simpl; eauto | exact Hcl].
    + cbn [Deepseek.points]. apply terrain_inv_snoc; trivial.
      * assert (Hne : Deepseek.points t <> []).
        { intro E. rewrite E in El. discriminate. }
        rewrite index_last in El by trivial.
        destruct Hinv as [Hs _]. apply Hs in El. simpl in El.
        rewrite El.
        assert (1 <= length (Deepseek.points t))%nat
          by (destruct (Deepseek.points t); [congruence | simpl; lia]).
        unfold Deepseek.TERRAIN_SEGMENT_LENGTH. lia.
      * apply clamp_in_band.
  - injection H as <- <-. split; trivial.
    exists []. rewrite app_nil_r. split; trivial.
Qed.

(** The extension loop stops: every turn moves the last point 50 to the
    right. *)
Lemma update_terrain_stops (n : nat) :
  forall bike_x t k,
    terrain_inv (Deepseek.points t) -> Deepseek.points t <> [] ->
    (forall last, Py.index (Deepseek.points t) (-1) = Some last ->
       bike_x + inject_Z Deepseek.WIDTH - inject_Z (fst last)
       <= inject_Z (Z.of_nat n)) ->
    exists t' k',
      Deepseek.update_terrain randint (S n) bike_x t k = Some (t', k').
Proof.
  induction n as [| n IH]; intros bike_x t k Hinv Hne Hb.
  - cbn [Deepseek.update_terrain].
    rewrite index_last in * by trivial.
    destruct (nth_error_in_range (Deepseek.points t)
                (length (Deepseek.points t) - 1)) as [last Hl].
    { destruct (Deepseek.points t); [congruence | simpl; lia]. }
    rewrite Hl. cbn [Py.bind]. specialize (Hb _ Hl).
    destruct (Py.ltb _ _) eqn:E; [| eauto].
    apply ltb_true in E. change (inject_Z (Z.of_nat 0)) with 0 in Hb. lra.
  - cbn [Deepseek.update_terrain].
    pose proof (index_last _ Hne) as Hli.
    destruct (nth_error_in_range (Deepseek.points t)
                (length (Deepseek.points t) - 1)) as [[last_x last_y] Hl].
    { destruct (Deepseek.points t); [congruence | simpl; lia]. }
    rewrite Hli, Hl. cbn [Py.bind fst].
    destruct (Py.ltb _ _) eqn:E; [| eauto].
    apply IH; cbn [Deepseek.points].
    + apply terrain_inv_snoc; trivial; [| apply clamp_in_band].
      destruct Hinv as [Hs _]. apply Hs in Hl. simpl in Hl. rewrite Hl.
      assert (1 <= length (Deepseek.points t))%nat
        by (destruct (Deepseek.points t); [congruence | simpl; lia]).
      unfold Deepseek.TERRAIN_SEGMENT_LENGTH. lia.
    + intro E'. apply app_eq_nil in E'. destruct E'. discriminate.
    + intros last Hlast. rewrite index_last in Hlast
        by (intro E'; apply app_eq_nil in E'; destruct E'; discriminate).
      rewrite length_app in Hlast. simpl in Hlast.
      rewrite nth_error_app2 in Hlast by lia.
      replace (length (Deepseek.points t) + 1 - 1
               - length (Deepseek.points t))%nat with 0%nat in Hlast by lia.
      simpl in Hlast. injection Hlast as <-. cbn [fst].
      rewrite Hli in Hb. specialize (Hb _ Hl). cbn [fst] in Hb.
      unfold Deepseek.TERRAIN_SEGMENT_LENGTH.
      rewrite inject_Z_plus. rewrite Nat2Z.inj_succ in Hb.
      unfold Z.succ in Hb. rewrite inject_Z_plus in Hb.
      change (inject_Z 50) with 50. change (inject_Z 1) with 1 in Hb. lra.
Qed.

Lemma generated_inv t :
  deepseek_generated randint t ->
  terrain_inv (Deepseek.points t) /\
  (26 <= length (Deepseek.points t))%nat /\
  exists tail, Deepseek.points t = (0, 300)%Z :: tail.
Proof.
  induction 1 as [k | fuel bike_x t k t' k' _ IH H].
  - destruct (Terrain_init_inv k) as (H1 & H2 & H3).
    split; [exact H1 |]. split; [lia | exact H3].
  - destruct IH as (H1 & H2 & tl & H3).
    apply update_terrain_inv in H; trivial.
    destruct H as (H1' & tail & Htail & _).
    split; [exact H1' |]. rewrite Htail. split.
    + rewrite length_app. lia.
    + rewrite H3. simpl. eauto.
Qed.

End Deepseek_terrain.

(* ================================================================== *)
(** ** Deepseek.py: segment lookup and the bike update *)

Lemma find_segment_Some (pts : list Deepseek.point) (bx : Q) :
  forall p q, Deepseek.find_segment pts bx = Some (p, q) ->
    exists i, nth_error pts i = Some p /\ nth_error pts (S i) = Some q /\
              inject_Z (fst p) <= bx /\ bx <= inject_Z (fst q).
Proof.
  induction pts as [| a rest IH]; intros p q H; [discriminate |].
  destruct rest as [| c rest']; [discriminate |].
  cbn [Deepseek.find_segment] in H.
  destruct (Py.leb (inject_Z (fst a)) bx && Py.leb bx (inject_Z (fst c)))
    eqn:E.
  - injection H as <- <-. apply andb_true_iff in E. destruct E as [E1 E2].
    apply leb_true in E1, E2. exists 0%nat. auto.
  - apply IH in H. destruct H as (i & H1 & H2 & H3).
    exists (S i). auto.
Qed.

Lemma find_segment_left (pts : list Deepseek.point) (bx : Q) :
  (forall p, In p pts -> bx < inject_Z (fst p)) ->
  Deepseek.find_segment pts bx = None.
Proof.
  induction pts as [| a rest IH]; intro H; [reflexivity |].
  destruct rest as [| c rest']; [reflexivity |].
  cbn [Deepseek.find_segment].
  assert (E : Py.leb (inject_Z (fst a)) bx = false).
  { destruct (Py.leb (inject_Z (fst a)) bx) eqn:E; trivial.
    apply leb_true in E. specialize (H a (or_introl eq_refl)). lra. }
  rewrite E. cbn [andb]. apply IH. intros p Hp. apply H. right. exact Hp.
Qed.

Lemma find_segment_right (pts : list Deepseek.point) (bx : Q) :
  (forall p, In p pts -> inject_Z (fst p) < bx) ->
  Deepseek.find_segment pts bx = None.
Proof.
  induction pts as [| a rest IH]; intro H; [reflexivity |].
  destruct rest as [| c rest']; [reflexivity |].
  cbn [Deepseek.find_segment].
  assert (E : Py.leb bx (inject_Z (fst c)) = false).
  { destruct (Py.leb bx (inject_Z (fst c))) eqn:E; trivial.
    apply leb_true in E. specialize (H c (or_intror (or_introl eq_refl))).
    lra. }
  rewrite E, andb_false_r. apply IH. intros p Hp. apply H. right. exact Hp.
Qed.

(** The segment used by the bike is always a pair of neighbours. *)
Lemma get_current_segment_neighbours (pts : list Deepseek.point) (bx : Q) :
  (2 <= length pts)%nat ->
  exists i p q,
    Deepseek.get_current_segment pts bx = Some (p, q) /\
    nth_error pts i = Some p /\ nth_error pts (S i) = Some q.
Proof.
  intro Hlen. unfold Deepseek.get_current_segment.
  destruct (Deepseek.find_segment pts bx) as [[p q] |] eqn:E.
  - apply find_segment_Some in E. destruct E as (i & H1 & H2 & _).
    exists i, p, q. auto.
  - destruct pts as [| p [| q rest]]; simpl in Hlen; try lia.
    exists 0%nat, p, q. auto.
Qed.

(** On neighbours of a generated profile the divisor is the segment
    length, so the interpolation returns. *)
Lemma get_terrain_height_neighbours (pts : list Deepseek.point) i p q bx :
  spaced Deepseek.TERRAIN_SEGMENT_LENGTH pts ->
  nth_error pts i = Some p -> nth_error pts (S i) = Some q ->
  let t := (bx - inject_Z (fst p))
           / inject_Z Deepseek.TERRAIN_SEGMENT_LENGTH in
  Deepseek.get_terrain_height (p, q) bx
  = Some (inject_Z (snd p) * (1 - t) + inject_Z (snd q) * t).
Proof.
  intros Hs Hp Hq t. subst t.
  pose proof (Hs _ _ Hp) as Ep. pose proof (Hs _ _ Hq) as Eq.
  destruct p as [x1 y1], q as [x2 y2]. simpl in Ep, Eq |- *.
  unfold Deepseek.get_terrain_height. cbn [fst snd].
  replace (x2 - x1)%Z with Deepseek.TERRAIN_SEGMENT_LENGTH
    by (unfold Deepseek.TERRAIN_SEGMENT_LENGTH in *; lia).
  rewrite div_Some by (intro E; discriminate E).
  reflexivity.
Qed.

(** [Bike.update] returns on a generated profile and leaves the bike 20
    above the interpolated height of the segment it used. *)
Lemma deepseek_update_total (pts : list Deepseek.point) dt b :
  spaced Deepseek.TERRAIN_SEGMENT_LENGTH pts -> (2 <= length pts)%nat ->
  exists b' segment terrain_height,
    Deepseek.update pts dt b = Some b' /\
    Deepseek.x b' = Deepseek.x b + Deepseek.speed b * Deepseek.FRICTION /\
    Deepseek.speed b' = Deepseek.speed b * Deepseek.FRICTION /\
    Deepseek.score b' = Deepseek.score b /\
    Deepseek.get_current_segment pts (Deepseek.x b') = Some segment /\
    Deepseek.get_terrain_height segment (Deepseek.x b')
      = Some terrain_height /\
    Deepseek.y b' = terrain_height - 20.
Proof.
  intros Hs Hlen. unfold Deepseek.update.
  set (x' := Deepseek.x b + Deepseek.speed b * Deepseek.FRICTION).
  destruct (get_current_segment_neighbours pts x' Hlen)
    as (i & p & q & Hseg & Hp & Hq).
  pose proof (get_terrain_height_neighbours pts i p q x' Hs Hp Hq) as Hh.
  cbv zeta in Hh. rewrite Hseg. cbn [Py.bind]. rewrite Hh. cbn [Py.bind].
  eexists _, (p, q), _. cbn [Deepseek.x Deepseek.y Deepseek.speed Deepseek.score].
  repeat split; trivial.
Qed.

(* ================================================================== *)
(** ** o3.py: bonus collection *)

Lemma sample_eqb_refl (p : O3.sample) : O3.sample_eqb p p = true.
Proof.
  unfold O3.sample_eqb. rewrite Z.eqb_refl. simpl.
  apply Qeq_bool_iff. reflexivity.
Qed.

(** Points that compare equal are collected or left together. *)
Lemma near_eqb (b : O3.Bike) (p c : O3.sample) :
  O3.sample_eqb p c = true -> O3.near b p = O3.near b c.
Proof.
  unfold O3.sample_eqb. intro H. apply andb_true_iff in H.
  destruct H as [Hx Hy]. apply Z.eqb_eq in Hx. apply Qeq_bool_iff in Hy.
  destruct p as [px py], c as [cx cy]. simpl in Hx, Hy. subst cx.
  unfold O3.near. f_equal. unfold Py.ltb. f_equal.
  destruct (Qle_bool 30 (Qabs (O3.y b - py))) eqn:E1,
           (Qle_bool 30 (Qabs (O3.y b - cy))) eqn:E2; trivial.
  - apply Qle_bool_iff in E1. rewrite Hy in E1.
    apply Qle_bool_iff in E1. congruence.
  - apply Qle_bool_iff in E2. rewrite <- Hy in E2.
    apply Qle_bool_iff in E2. congruence.
Qed.

(** [check_bonus] returns the near points in list order and adds one to
    the score for each of them; no other field changes. *)
Lemma check_bonus_spec (pts : list O3.sample) :
  forall b,
    let r := O3.check_bonus pts b in
    fst r = filter (O3.near b) pts /\
    O3.score (snd r)
      = (O3.score b + Z.of_nat (length (filter (O3.near b) pts)))%Z /\
    O3.x (snd r) = O3.x b /\ O3.y (snd r) = O3.y b /\
    O3.vx (snd r) = O3.vx b /\ O3.distance (snd r) = O3.distance b.
Proof.
  induction pts as [| p rest IH]; intro b; cbn zeta.
  - simpl. repeat split. lia.
  - cbn [O3.check_bonus filter].
    destruct (O3.near b p) eqn:E.
    + match goal with
      | |- context [O3.check_bonus rest ?b1] =>
          specialize (IH b1); set (bb := b1) in *
      end.
      cbn zeta in IH.
      assert (Hn : O3.near bb = O3.near b) by reflexivity.
      destruct (O3.check_bonus rest bb) as [collected b'].
      cbn [fst snd] in *. rewrite Hn in IH.
      destruct IH as (H1 & H2 & H3 & H4 & H5 & H6).
      subst bb. cbn [O3.score O3.x O3.y O3.vx O3.distance] in *.
      repeat split; try congruence.
      rewrite H2. cbn [length]. lia.
    + apply IH.
Qed.

Lemma check_bonus_none (pts : list O3.sample) (b : O3.Bike) :
  Forall (fun p => O3.near b p = false) pts ->
  O3.check_bonus pts b = ([], b).
Proof.
  induction 1 as [| p rest Hp _ IH]; [reflexivity |].
  cbn [O3.check_bonus]. rewrite Hp. exact IH.
Qed.

Lemma remove_first (b : O3.Bike) (c : O3.sample) :
  forall pre rest,
    O3.near b c = true ->
    Forall (fun p => O3.near b p = false) pre ->
    O3.remove c (pre ++ c :: rest) = Some (pre ++ rest).
Proof.
  induction pre as [| p pre IH]; intros rest Hc Hpre.
  - simpl. rewrite sample_eqb_refl. reflexivity.
  - inversion Hpre as [| ? ? Hp Hpre']; subst.
    cbn [app O3.remove].
    destruct (O3.sample_eqb p c) eqn:E.
    + apply (near_eqb b) in E. congruence.
    + rewrite IH by trivial. reflexivity.
Qed.

(** The removal loop of [main] never raises and leaves exactly the points
    that were not near. *)
Lemma remove_all_near (b : O3.Bike) (pts : list O3.sample) :
  forall pre,
    Forall (fun p => O3.near b p = false) pre ->
    O3.remove_all (filter (O3.near b) pts) (pre ++ pts)
    = Some (pre ++ filter (fun p => negb (O3.near b p)) pts).
Proof.
  induction pts as [| p rest IH]; intros pre Hpre.
  - reflexivity.
  - cbn [filter]. destruct (O3.near b p) eqn:E; cbn [negb].
    + cbn [O3.remove_all]. rewrite (remove_first b) by trivial.
      cbn [Py.bind]. apply IH. exact Hpre.
    + replace (pre ++ p :: rest) with ((pre ++ [p]) ++ rest)
        by (rewrite <- app_assoc; reflexivity).
      rewrite IH.
      * rewrite <- app_assoc. reflexivity.
      * apply Forall_app. split; trivial. constructor; trivial.
Qed.

Lemma filter_split_length {A : Type} (f : A -> bool) (l : list A) :
  (length (filter f l) + length (filter (fun a => negb (f a)) l))%nat
  = length l.
Proof.
  induction l as [| a l IH]; [reflexivity |].
  simpl. destruct (f a); simpl; lia.
Qed.

(** One collection step: it returns, keeps the points that are not near,
    and pays one point of score per point removed. *)
Lemma collect_spec (b : O3.Bike) (pts : list O3.sample) :
  exists b',
    O3.collect (b, pts)
      = Some (b', filter (fun p => negb (O3.near b p)) pts) /\
    O3.near b' = O3.near b /\
    O3.score b'
      = (O3.score b + Z.of_nat (length (filter (O3.near b) pts)))%Z.
Proof.
  unfold O3.collect.
  pose proof (check_bonus_spec pts b) as H. cbn zeta in H.
  destruct (O3.check_bonus pts b) as [collected b']. cbn [fst snd] in H.
  destruct H as (H1 & H2 & H3 & H4 & _). subst collected.
  pose proof (remove_all_near b pts [] (Forall_nil _)) as Hr.
  cbn [app] in Hr. rewrite Hr. cbn [Py.bind].
  exists b'. repeat split; trivial.
  unfold O3.near. rewrite H3, H4. reflexivity.
Qed.

(* ================================================================== *)
(** ** Deepseek.py: bonus collection *)

Lemma hit_collected (bx : Q) (bonus : Deepseek.Bonus) :
  Deepseek.collected bonus = true -> Deepseek.hit bx bonus = false.
Proof. intro H. unfold Deepseek.hit. rewrite H. reflexivity. Qed.

(** The score paid by the loop is ten times the number of flags it sets. *)
Lemma check_bonus_loop_score (bx : Q) (bs : list Deepseek.Bonus) :
  forall sc,
    let r := Deepseek.check_bonus_loop bx bs sc in
    (snd r - 10 * collected_count (fst r)
     = sc - 10 * collected_count bs)%Z.
Proof.
  unfold collected_count.
  induction bs as [| bonus rest IH]; intro sc; cbn zeta.
  - reflexivity.
  - cbn [Deepseek.check_bonus_loop].
    destruct (Deepseek.hit bx bonus) eqn:E.
    + specialize (IH (sc + 10)%Z). cbn zeta in IH.
      destruct (Deepseek.check_bonus_loop bx rest (sc + 10)) as [rest' sc'].
      cbn [fst snd filter Deepseek.collected] in *.
      unfold Deepseek.hit in E. apply andb_true_iff in E.
      destruct E as [E _]. apply negb_true_iff in E. rewrite E.
      cbn [length]. lia.
    + specialize (IH sc). cbn zeta in IH.
      destruct (Deepseek.check_bonus_loop bx rest sc) as [rest' sc'].
      cbn [fst snd filter] in *.
      destruct (Deepseek.collected bonus); cbn [length]; lia.
Qed.

(** A second pass at the same abscissa changes nothing. *)
Lemma check_bonus_loop_again (bx : Q) (bs : list Deepseek.Bonus) :
  forall sc,
    let r := Deepseek.check_bonus_loop bx bs sc in
    Deepseek.check_bonus_loop bx (fst r) (snd r) = r.
Proof.
  induction bs as [| bonus rest IH]; intro sc; cbn zeta.
  - reflexivity.
  - cbn [Deepseek.check_bonus_loop].
    destruct (Deepseek.hit bx bonus) eqn:E.
    + specialize (IH (sc + 10)%Z). cbn zeta in IH.
      destruct (Deepseek.check_bonus_loop bx rest (sc + 10)) as [rest' sc'].
      cbn [fst snd] in *. cbn [Deepseek.check_bonus_loop].
      rewrite hit_collected by reflexivity. rewrite IH. reflexivity.
    + specialize (IH sc). cbn zeta in IH.
      destruct (Deepseek.check_bonus_loop bx rest sc) as [rest' sc'].
      cbn [fst snd] in *. cbn [Deepseek.check_bonus_loop].
      rewrite E, IH. reflexivity.
Qed.

Lemma check_bonus_collection_score (g : Deepseek.Game) :
  let g' := Deepseek.check_bonus_collection g in
  (Deepseek.score (Deepseek.bike g')
   - 10 * collected_count (Deepseek.bonuses g')
   = Deepseek.score (Deepseek.bike g)
     - 10 * collected_count (Deepseek.bonuses g))%Z.
Proof.
  cbn zeta. unfold Deepseek.check_bonus_collection.
  pose proof (check_bonus_loop_score (Deepseek.x (Deepseek.bike g))
                (Deepseek.bonuses g) (Deepseek.score (Deepseek.bike g)))
    as H.
  cbn zeta in H.
  destruct (Deepseek.check_bonus_loop _ _ _) as [bs sc].
  exact H.
Qed.

Lemma check_bonus_collection_again (g : Deepseek.Game) :
  let g' := Deepseek.check_bonus_collection g in
  Deepseek.check_bonus_collection g' = g'.
Proof.
  cbn zeta. unfold Deepseek.check_bonus_collection.
  pose proof (check_bonus_loop_again (Deepseek.x (Deepseek.bike g))
                (Deepseek.bonuses g) (Deepseek.score (Deepseek.bike g)))
    as H.
  cbn zeta in H.
  set (r := Deepseek.check_bonus_loop (Deepseek.x (Deepseek.bike g))
              (Deepseek.bonuses g) (Deepseek.score (Deepseek.bike g))) in *.
  destruct r as [bs sc]. cbn [fst snd] in H.
  cbn [Deepseek.bike Deepseek.bonuses Deepseek.set_score Deepseek.x
       Deepseek.score Deepseek.terrain Deepseek.camera_x Deepseek.rng
       Deepseek.y Deepseek.speed Deepseek.tilt Deepseek.balance].
  rewrite H. reflexivity.
Qed.

Lemma check_bonus_loop_marks (bx : Q) (bs : list Deepseek.Bonus) :
  forall sc,
    fst (Deepseek.check_bonus_loop bx bs sc) = map (deepseek_mark bx) bs.
Proof.
  induction bs as [| bonus rest IH]; intro sc; [reflexivity |].
  cbn [Deepseek.check_bonus_loop map]. unfold deepseek_mark at 1.
  destruct (Deepseek.hit bx bonus).
  - specialize (IH (sc + 10)%Z).
    destruct (Deepseek.check_bonus_loop bx rest (sc + 10)) as [rest' sc'].
    cbn [fst] in *. rewrite IH. reflexivity.
  - specialize (IH sc).
    destruct (Deepseek.check_bonus_loop bx rest sc) as [rest' sc'].
    cbn [fst] in *. rewrite IH. reflexivity.
Qed.

(* ================================================================== *)
(** ** o3.py: invariants of a run *)

Section O3_run.
Context {M : PyMath}.
Variable terrain : list O3.sample.

(** A property kept by every admissible frame holds after the run. *)
Lemma run_invariant (P : O3.Bike -> Prop) (F : Q * Keys -> Prop) :
  (forall dt keys b b',
      F (dt, keys) -> P b -> O3.update terrain dt keys b = Some b' ->
      P b') ->
  forall frames b b',
    Forall F frames -> P b -> O3.run terrain frames b = Some b' -> P b'.
Proof.
  intros Hstep frames.
  induction frames as [| [dt keys] rest IH]; intros b b' HF HP Hrun.
  - injection Hrun as <-. exact HP.
  - inversion HF as [| ? ? Hf HF']; subst. simpl in Hrun.
    destruct (O3.update terrain dt keys b) as [b1 |] eqn:E;
      [| discriminate].
    cbn [Py.bind] in Hrun.
    exact (IH b1 b' HF' (Hstep dt keys b b1 Hf HP E) Hrun).
Qed.

(** With the pedal held for a frame of 1/60 s the velocity grows and
    stays below 200. *)
Lemma next_vx_pedal keys v :
  K_UP keys = true -> 0 <= v -> v < 200 ->
  v < o3_next_vx (1 # 60) keys v /\ o3_next_vx (1 # 60) keys v < 200.
Proof.
  intros Hk H0 H200. unfold o3_next_vx, o3_acceleration. rewrite Hk.
  cbv zeta.
  destruct (Py.ltb _ 0) eqn:E.
  - apply ltb_true in E. lra.
  - split; lra.
Qed.

End O3_run.

(* ================================================================== *)
(** ** The course used in the concrete runs *)

Lemma course_generated :
  O3.generate_terrain (M := series_math) calm 501
    O3.terrain_length O3.terrain_step = Some course.
Proof. vm_compute. reflexivity. Defined.

Lemma course_length : (2 <= length course)%nat.
Proof. vm_compute. lia. Defined.

(* ================================================================== *)
(** ** Properties of the prototypes *)

(** C9.  On every terrain produced by [generate_terrain] with the spacing
    [terrain_step] and holding at least two samples, [get_ground_y]
    returns a height for every abscissa [x]; inside the sampled range the
    index [min(int(x / terrain_step), len(terrain) - 2)] used for the two
    list accesses lies in [0, len(terrain) - 2].  A list access out of
    range or a zero divisor would make the model return [None]. *)
Theorem C9_get_ground_y_total
  (M : PyMath) (uniform : nat -> Q) (fuel : nat) (len : Z)
  (terrain : list O3.sample) (x : Q) :
  O3.generate_terrain uniform fuel len O3.terrain_step = Some terrain ->
  (2 <= length terrain)%nat ->
  (exists ground_y, O3.get_ground_y terrain x = Some ground_y) /\
  (forall last,
      Py.index terrain (-1) = Some last ->
      0 <= x -> x <= inject_Z (fst last) ->
      (0 <= Z.min (Py.int (x / inject_Z O3.terrain_step))
                  (Z.of_nat (length terrain) - 2)
       <= Z.of_nat (length terrain) - 2)%Z).
Proof.
  intros Hgen Hlen. apply generate_terrain_spaced in Hgen. split.
  - apply ground_total; trivial.
  - intros last Hl H0 Hx.
    rewrite index_last in Hl by (destruct terrain; [simpl in Hlen; lia | congruence]).
    exact (index_in_range terrain last x Hlen Hl H0 Hx).
Qed.

Lemma C9_get_ground_y_total_witness :
  O3.generate_terrain (M := series_math) calm 501
    O3.terrain_length O3.terrain_step = Some course /\
  (2 <= length course)%nat /\
  exists ground_y, O3.get_ground_y course (1234 # 10) = Some ground_y.
Proof.
  split; [exact course_generated |]. split; [exact course_length |].
  exact (proj1 (C9_get_ground_y_total series_math calm 501 O3.terrain_length
                  course (1234 # 10) course_generated course_length)).
Defined.

(** C10.  On a generated terrain, every frame of [Bike.update] with
    [dt > 0] returns and does not decrease [x], whatever the keys; and
    along every run from the initial bike, [distance], which each frame
    sets to [x], does not decrease either. *)
Theorem C10_x_never_decreases
  (M : PyMath) (uniform : nat -> Q) (fuel : nat) (len : Z)
  (terrain : list O3.sample) :
  O3.generate_terrain uniform fuel len O3.terrain_step = Some terrain ->
  (2 <= length terrain)%nat ->
  (forall b dt keys,
      0 < dt ->
      exists b',
        O3.update terrain dt keys b = Some b' /\
        0 <= O3.vx b' /\ O3.x b <= O3.x b' /\
        O3.distance b' = O3.x b') /\
  (exists b0,
      O3.init terrain = Some b0 /\
      forall frames,
        Forall (fun f => 0 < fst f) frames ->
        exists b,
          O3.run terrain frames b0 = Some b /\
          forall dt keys,
            0 < dt ->
            exists b',
              O3.update terrain dt keys b = Some b' /\
              O3.x b <= O3.x b' /\ O3.distance b <= O3.distance b').
Proof.
  intros Hgen Hlen. apply generate_terrain_spaced in Hgen.
  assert (Hstep : forall b dt keys,
             0 < dt ->
             exists b',
               O3.update terrain dt keys b = Some b' /\
               0 <= O3.vx b' /\ O3.x b <= O3.x b' /\
               O3.distance b' = O3.x b').
  { intros b dt keys Hdt.
    destruct (update_total terrain Hgen Hlen dt keys b) as [b' Hb'].
    exists b'. split; [exact Hb' |].
    destruct (update_fields terrain dt keys b b' Hb')
      as (g & _ & Hvx & Hx & Hd & _).
    assert (Hv : 0 <= O3.vx b') by (rewrite Hvx; apply next_vx_nonneg).
    split; [exact Hv |]. split; [| exact Hd].
    rewrite Hx.
    assert (0 <= O3.vx b' * dt) by (apply Qmult_le_0_compat; lra).
    lra. }
  split; [exact Hstep |].
  destruct (init_total terrain Hgen Hlen) as (b0 & Hb0 & _ & Hx0 & Hd0 & _).
  exists b0. split; [exact Hb0 |].
  intros frames HF.
  destruct (run_total terrain Hgen Hlen frames b0) as [b Hb].
  exists b. split; [exact Hb |].
  assert (Hinv : O3.distance b <= O3.x b).
  { refine (run_invariant terrain (fun b => O3.distance b <= O3.x b)
              (fun f => 0 < fst f) _ frames b0 b HF _ Hb).
    - intros dt keys c c' _ _ Hc.
      destruct (update_fields terrain dt keys c c' Hc)
        as (g & _ & _ & _ & Hd & _).
      rewrite Hd. apply Qle_refl.
    - rewrite Hx0, Hd0. lra. }
  intros dt keys Hdt.
  destruct (Hstep b dt keys Hdt) as (b' & Hb' & _ & Hx & Hd).
  exists b'. split; [exact Hb' |]. split; [exact Hx |].
  rewrite Hd. lra.
Qed.

Lemma C10_x_never_decreases_witness :
  O3.generate_terrain (M := series_math) calm 501
    O3.terrain_length O3.terrain_step = Some course /\
  (2 <= length course)%nat /\
  exists b',
    O3.update (M := series_math) course (1 # 60) down_keys rest_bike
      = Some b' /\
    0 <= O3.vx b' /\ O3.x rest_bike <= O3.x b' /\
    O3.distance b' = O3.x b'.
Proof.
  split; [exact course_generated |]. split; [exact course_length |].
  refine (proj1 (C10_x_never_decreases series_math calm 501
                   O3.terrain_length course course_generated course_length)
                rest_bike (1 # 60) down_keys _).
  reflexivity.
Defined.

(** C7.  On a generated terrain, start from a bike with [vx = 0] and hold
    the pedal ([K_UP]) for any number of frames of [dt = 1/60]: every
    frame returns, and at each frame [vx] does not decrease and stays
    below the fixed point [100 / 0.5 = 200].  During the first 120 frames
    (the two seconds of the scenario) the growth is strict.  Strict growth
    is not stated beyond them: the increment [(100 - vx / 2) / 60] tends to
    0 as [vx] approaches 200, and in [float] arithmetic it is eventually
    rounded away, so that [vx] stays where it is, just below 200. *)
Theorem C7_pedal_velocity_monotone
  (M : PyMath) (uniform : nat -> Q) (fuel : nat) (len : Z)
  (terrain : list O3.sample) (b0 : O3.Bike) (frames : list (Q * Keys)) :
  O3.generate_terrain uniform fuel len O3.terrain_step = Some terrain ->
  (2 <= length terrain)%nat ->
  O3.vx b0 == 0 ->
  Forall (fun f => fst f = 1 # 60 /\ K_UP (snd f) = true) frames ->
  exists b,
    O3.run terrain frames b0 = Some b /\
    0 <= O3.vx b /\ O3.vx b < 200 /\
    forall keys,
      K_UP keys = true ->
      exists b',
        O3.update terrain (1 # 60) keys b = Some b' /\
        O3.vx b <= O3.vx b' /\ O3.vx b' < 200 /\
        ((length frames < 120)%nat -> O3.vx b < O3.vx b').
Proof.
  intros Hgen Hlen Hv0 HF. apply generate_terrain_spaced in Hgen.
  destruct (run_total terrain Hgen Hlen frames b0) as [b Hb].
  exists b. split; [exact Hb |].
  assert (Hinv : 0 <= O3.vx b /\ O3.vx b < 200).
  { refine (run_invariant terrain
              (fun b => 0 <= O3.vx b /\ O3.vx b < 200)
              (fun f => fst f = 1 # 60 /\ K_UP (snd f) = true)
              _ frames b0 b HF _ Hb).
    - intros dt keys c c' [Hdt Hk] [Hc0 Hc200] Hc.
      simpl in Hdt, Hk. subst dt.
      destruct (update_fields terrain _ keys c c' Hc)
        as (g & _ & Hvx & _).
      rewrite Hvx.
      destruct (next_vx_pedal keys (O3.vx c) Hk Hc0 Hc200). split; lra.
    - rewrite Hv0. split; lra. }
  destruct Hinv as [H0 H200]. split; [exact H0 |]. split; [exact H200 |].
  intros keys Hk.
  destruct (update_total terrain Hgen Hlen (1 # 60) keys b) as [b' Hb'].
  exists b'. split; [exact Hb' |].
  destruct (update_fields terrain _ keys b b' Hb') as (g & _ & Hvx & _).
  rewrite Hvx.
  destruct (next_vx_pedal keys (O3.vx b) Hk H0 H200) as [Hup Hbelow].
  split; [apply Qlt_le_weak; exact Hup |].
  split; [exact Hbelow |]. intros _. exact Hup.
Qed.

Lemma C7_pedal_velocity_monotone_witness :
  O3.generate_terrain (M := series_math) calm 501
    O3.terrain_length O3.terrain_step = Some course /\
  (2 <= length course)%nat /\
  O3.vx rest_bike == 0 /\
  Forall (fun f => fst f = 1 # 60 /\ K_UP (snd f) = true)
    [(1 # 60, up_keys); (1 # 60, up_keys)] /\
  exists b,
    O3.run (M := series_math) course
      [(1 # 60, up_keys); (1 # 60, up_keys)] rest_bike = Some b /\
    0 <= O3.vx b /\ O3.vx b < 200 /\
    forall keys,
      K_UP keys = true ->
      exists b',
        O3.update (M := series_math) course (1 # 60) keys b = Some b' /\
        O3.vx b <= O3.vx b' /\ O3.vx b' < 200 /\
        ((length [(1 # 60, up_keys); (1 # 60, up_keys)] < 120)%nat ->
         O3.vx b < O3.vx b').
Proof.
  assert (H0 : O3.vx rest_bike == 0) by reflexivity.
  assert (HF : Forall (fun f => fst f = 1 # 60 /\ K_UP (snd f) = true)
                 [(1 # 60, up_keys); (1 # 60, up_keys)])
    by (repeat constructor).
  split; [exact course_generated |]. split; [exact course_length |].
  split; [exact H0 |]. split; [exact HF |].
  exact (C7_pedal_velocity_monotone series_math calm 501 O3.terrain_length
           course rest_bike _ course_generated course_length H0 HF).
Defined.

(** C2.  In [o3.py], on a generated terrain, the initial bike exists and
    after any finite sequence of frames of [Bike.update], whatever the
    keys and the time steps, every frame has returned and [vx >= 0].
    ([Deepseek.py] has no such clamp: see the counterexample.) *)
Theorem C2_o3_velocity_never_negative
  (M : PyMath) (uniform : nat -> Q) (fuel : nat) (len : Z)
  (terrain : list O3.sample) :
  O3.generate_terrain uniform fuel len O3.terrain_step = Some terrain ->
  (2 <= length terrain)%nat ->
  exists b0,
    O3.init terrain = Some b0 /\
    forall frames,
      exists b, O3.run terrain frames b0 = Some b /\ 0 <= O3.vx b.
Proof.
  intros Hgen Hlen. apply generate_terrain_spaced in Hgen.
  destruct (init_total terrain Hgen Hlen) as (b0 & Hb0 & Hv0 & _).
  exists b0. split; [exact Hb0 |].
  intro frames.
  destruct (run_total terrain Hgen Hlen frames b0) as [b Hb].
  exists b. split; [exact Hb |].
  refine (run_invariant terrain (fun b => 0 <= O3.vx b) (fun _ => True)
            _ frames b0 b _ _ Hb).
  - intros dt keys c c' _ _ Hc.
    destruct (update_fields terrain dt keys c c' Hc) as (g & _ & Hvx & _).
    rewrite Hvx. apply next_vx_nonneg.
  - apply Forall_forall. trivial.
  - rewrite Hv0. apply Qle_refl.
Qed.

Lemma C2_o3_velocity_never_negative_witness :
  O3.generate_terrain (M := series_math) calm 501
    O3.terrain_length O3.terrain_step = Some course /\
  (2 <= length course)%nat /\
  exists b0,
    O3.init course = Some b0 /\
    forall frames,
      exists b,
        O3.run (M := series_math) course frames b0 = Some b /\
        0 <= O3.vx b.
Proof.
  split; [exact course_generated |]. split; [exact course_length |].
  exact (C2_o3_velocity_never_negative series_math calm 501
           O3.terrain_length course course_generated course_length).
Defined.

(** C2, counterexample.  In [Deepseek.py] the first frame of a new game
    with the brake key held leaves the bike with a negative speed:
    [handle_input] subtracts [BIKE_ACCEL] from [0] and nothing clamps. *)
Lemma C2_deepseek_speed_goes_negative :
  exists g,
    Deepseek.frame zigzag 2 (1 # 60) down_keys (Deepseek.Game_init zigzag)
      = Some g /\
    Deepseek.speed (Deepseek.bike g) < 0 /\
    Deepseek.x (Deepseek.bike g) < 100.
Proof.
  eexists. split; [vm_compute; reflexivity |].
  split; vm_compute; reflexivity.
Qed.

(** The spring step shrinks an error within the threshold when
    [spring_k * dt <= 2]. *)
Lemma spring_step_bound (e dt : Q) :
  0 < dt -> dt <= 1 # 5 -> Qabs e <= 50 ->
  Qabs (e - (10 * e - 3 * 0) * dt) <= 50.
Proof.
  intros Hdt Hdt' He.
  apply Qabs_Qle_condition in He. apply Qabs_Qle_condition.
  destruct He as [Hlo Hhi].
  destruct (Qlt_le_dec e 0) as [Hneg | Hpos].
  - assert (H1 : 0 <= (- e) * dt) by (apply Qmult_le_0_compat; lra).
    assert (H2 : 0 <= (- e) * ((1 # 5) - dt))
      by (apply Qmult_le_0_compat; lra).
    split; lra.
  - assert (H1 : 0 <= e * dt) by (apply Qmult_le_0_compat; lra).
    assert (H2 : 0 <= e * ((1 # 5) - dt))
      by (apply Qmult_le_0_compat; lra).
    split; lra.
Qed.

(** C1, as amended.  In [o3.py], on a generated terrain, for every bike,
    every key state and every [dt] with [0 < dt <= 1/5], the frame
    returns and leaves [|ground_y(x) + suspension_offset - y|] at most
    [error_threshold = 50].  In [Deepseek.py], on every terrain the game
    can hold, the frame returns and leaves the bike exactly at its target,
    20 above the interpolated height. *)
Theorem C1_tracking_error_bounded_for_short_frames :
  (forall (M : PyMath) (uniform : nat -> Q) (fuel : nat) (len : Z)
          (terrain : list O3.sample) (dt : Q) (keys : Keys) (b : O3.Bike),
      O3.generate_terrain uniform fuel len O3.terrain_step = Some terrain ->
      (2 <= length terrain)%nat ->
      0 < dt -> dt <= 1 # 5 ->
      exists b' ground_y,
        O3.update terrain dt keys b = Some b' /\
        O3.get_ground_y terrain (O3.x b') = Some ground_y /\
        Qabs (ground_y + O3.suspension_offset - O3.y b')
        <= O3.error_threshold) /\
  (forall (randint : nat -> Z -> Z -> Z) (t : Deepseek.Terrain)
          (dt : Q) (b : Deepseek.Bike),
      deepseek_generated randint t ->
      exists b' segment terrain_height,
        Deepseek.update (Deepseek.points t) dt b = Some b' /\
        Deepseek.get_current_segment (Deepseek.points t) (Deepseek.x b')
          = Some segment /\
        Deepseek.get_terrain_height segment (Deepseek.x b')
          = Some terrain_height /\
        Qabs (terrain_height - 20 - Deepseek.y b') == 0).
Proof.
  split.
  - intros M uniform fuel len terrain dt keys b Hgen Hlen Hdt Hdt'.
    apply generate_terrain_spaced in Hgen.
    destruct (update_total terrain Hgen Hlen dt keys b) as [b' Hb'].
    destruct (update_fields terrain dt keys b b' Hb')
      as (g & Hg & _ & _ & _ & Hy).
    exists b', g. split; [exact Hb' |]. split; [exact Hg |].
    cbv zeta in Hy. rewrite Hy.
    unfold O3.error_threshold, O3.spring_k, O3.damping.
    destruct (Py.ltb 50 _) eqn:E.
    + setoid_replace (g + O3.suspension_offset - (g + O3.suspension_offset))
        with 0 by ring.
      simpl. lra.
    + apply ltb_false in E.
      set (e := g + O3.suspension_offset - O3.y b) in *.
      setoid_replace (g + O3.suspension_offset
                      - (O3.y b + (10 * e - 3 * 0) * dt))
        with (e - (10 * e - 3 * 0) * dt) by (subst e; ring).
      apply spring_step_bound; trivial.
  - intros randint t dt b Hgen.
    destruct (generated_inv randint t Hgen) as ([Hs _] & Hlen & _).
    destruct (deepseek_update_total (Deepseek.points t) dt b Hs)
      as (b' & seg & h & Hb' & _ & _ & _ & Hseg & Hh & Hy); [lia |].
    exists b', seg, h. repeat split; trivial.
    rewrite Hy. setoid_replace (h - 20 - (h - 20)) with 0 by ring.
    reflexivity.
Qed.

Lemma C1_tracking_error_bounded_for_short_frames_witness :
  O3.generate_terrain (M := series_math) calm 501
    O3.terrain_length O3.terrain_step = Some course /\
  (2 <= length course)%nat /\
  0 < 1 # 60 /\ 1 # 60 <= 1 # 5 /\
  exists b' ground_y,
    O3.update (M := series_math) course (1 # 60) up_keys rest_bike
      = Some b' /\
    O3.get_ground_y course (O3.x b') = Some ground_y /\
    Qabs (ground_y + O3.suspension_offset - O3.y b') <= O3.error_threshold.
Proof.
  assert (H1 : 0 < 1 # 60) by reflexivity.
  assert (H2 : 1 # 60 <= 1 # 5) by (vm_compute; discriminate).
  split; [exact course_generated |]. split; [exact course_length |].
  split; [exact H1 |]. split; [exact H2 |].
  exact (proj1 C1_tracking_error_bounded_for_short_frames
           series_math calm 501%nat O3.terrain_length course (1 # 60) up_keys
           rest_bike course_generated course_length H1 H2).
Defined.

(** C1, counterexample.  On the course, the bike built by [Bike()] and one
    frame of [dt = 2] with no key pressed: the error seen by the snap test
    is [-5], the spring moves [y] by [10 * (-5) * 2 = -100], and the bike
    ends 95 away from its target, beyond the threshold of 50. *)
Lemma C1_long_frame_exceeds_threshold :
  exists b0 b1 ground_y,
    O3.init course = Some b0 /\
    O3.update (M := series_math) course 2 no_keys b0 = Some b1 /\
    O3.get_ground_y course (O3.x b1) = Some ground_y /\
    Qabs (ground_y + O3.suspension_offset - O3.y b1) == 95 /\
    O3.error_threshold
    < Qabs (ground_y + O3.suspension_offset - O3.y b1).
Proof.
  eexists. eexists. eexists.
  split; [vm_compute; reflexivity |].
  split; [vm_compute; reflexivity |].
  split; [vm_compute; reflexivity |].
  split; vm_compute; reflexivity.
Qed.

Lemma series_sin_bounded (a : Q) :
  -1 <= math_sin (PyMath := series_math) a /\
  math_sin (PyMath := series_math) a <= 1.
Proof.
  simpl. split.
  - apply Q.le_max_l.
  - apply Q.max_lub; [discriminate |]. apply Q.le_min_l.
Qed.

Lemma calm_bounded (k : nat) : -20 <= calm k /\ calm k <= 20.
Proof. unfold calm. split; discriminate. Qed.

(** Without a clamp, the height of an [o3.py] sample is bounded by the
    amplitude and the jitter only. *)
Lemma o3_height_bounds (M : PyMath) (x : Z) (u : Q) :
  -1 <= math_sin (O3.frequency * inject_Z x) ->
  math_sin (O3.frequency * inject_Z x) <= 1 ->
  -20 <= u -> u <= 20 ->
  inject_Z O3.HEIGHT - 180 <= o3_height x u /\
  o3_height x u <= inject_Z O3.HEIGHT + 20.
Proof.
  intros H1 H2 H3 H4. unfold o3_height, O3.amplitude. split; lra.
Qed.

(** C3, as amended.  In [Deepseek.py] (random walk) every point of every
    terrain the game can hold, seeded or extended, has its height in
    [200, HEIGHT - 100]; an extension returns when given enough fuel,
    keeps the points it found and appends only clamped heights.  In
    [o3.py] (sine plus noise) no clamp is applied: with a sine in
    [-1, 1] and draws in [-20, 20] every sample has its height in
    [HEIGHT - 180, HEIGHT + 20]. *)
Theorem C3_terrain_heights_bounded :
  (forall (randint : nat -> Z -> Z -> Z) (t : Deepseek.Terrain),
      deepseek_generated randint t ->
      Forall (fun p => in_band (inject_Z (snd p))) (Deepseek.points t)) /\
  (forall (randint : nat -> Z -> Z -> Z) (t : Deepseek.Terrain)
          (bike_x : Q) (k : nat),
      deepseek_generated randint t ->
      exists fuel t' k' tail,
        Deepseek.update_terrain randint fuel bike_x t k = Some (t', k') /\
        Deepseek.points t' = Deepseek.points t ++ tail /\
        Forall (fun p => exists y, snd p = Deepseek.clamp y) tail) /\
  (forall (M : PyMath) (uniform : nat -> Q) (fuel : nat) (len step : Z)
          (terrain : list O3.sample),
      (forall a, -1 <= math_sin a /\ math_sin a <= 1) ->
      (forall k, -20 <= uniform k /\ uniform k <= 20) ->
      O3.generate_terrain uniform fuel len step = Some terrain ->
      Forall (fun s => inject_Z O3.HEIGHT - 180 <= snd s /\
                       snd s <= inject_Z O3.HEIGHT + 20) terrain).
Proof.
  split; [| split].
  - intros randint t H. apply generated_inv in H. destruct H as [[_ H] _].
    exact H.
  - intros randint t bike_x k H.
    destruct (generated_inv randint t H) as (Hinv & Hlen & _).
    assert (Hne : Deepseek.points t <> []).
    { intro E. rewrite E in Hlen. simpl in Hlen. lia. }
    destruct (nth_error_in_range (Deepseek.points t)
                (length (Deepseek.points t) - 1)) as [last Hl]; [lia |].
    set (q := bike_x + inject_Z Deepseek.WIDTH - inject_Z (fst last)).
    destruct (update_terrain_stops randint (Z.to_nat (Qceiling q))
                bike_x t k Hinv Hne) as (t' & k' & Hrun).
    { intros last' Hl'. rewrite index_last in Hl' by trivial.
      rewrite Hl in Hl'. injection Hl' as <-. fold q.
      apply Qle_trans with (inject_Z (Qceiling q)); [apply Qle_ceiling |].
      rewrite <- Zle_Qle. lia. }
    destruct (update_terrain_inv randint _ bike_x t k t' k' Hinv Hrun)
      as (_ & tail & Htail & Hcl).
    exists (S (Z.to_nat (Qceiling q))), t', k', tail. auto.
  - intros M uniform fuel len step terrain Hsin Hu Hgen.
    apply Forall_forall. intros s Hs.
    apply In_nth_error in Hs. destruct Hs as [i Hi].
    destruct (generate_terrain_samples uniform fuel len step terrain Hgen
                i s Hi) as [_ Hy].
    rewrite Hy.
    apply o3_height_bounds; try apply Hsin; apply Hu.
Qed.

Lemma C3_terrain_heights_bounded_witness :
  (forall a, -1 <= math_sin (PyMath := series_math) a /\
             math_sin (PyMath := series_math) a <= 1) /\
  (forall k, -20 <= calm k /\ calm k <= 20) /\
  O3.generate_terrain (M := series_math) calm 501
    O3.terrain_length O3.terrain_step = Some course /\
  Forall (fun s => inject_Z O3.HEIGHT - 180 <= snd s /\
                   snd s <= inject_Z O3.HEIGHT + 20) course.
Proof.
  split; [exact series_sin_bounded |]. split; [exact calm_bounded |].
  split; [exact course_generated |].
  exact (proj2 (proj2 C3_terrain_heights_bounded) series_math calm 501%nat
           O3.terrain_length O3.terrain_step course series_sin_bounded
           calm_bounded course_generated).
Defined.

(** C3, counterexample.  The first sample of the course of [o3.py] (sine
    [0] at [x = 0], draw [0]) has height [600 - 80 = 520]: it is above
    [HEIGHT - 100 = 500], the upper end of the clamp band; no clamp was
    applied to it. *)
Lemma C3_o3_sample_outside_band :
  exists s,
    O3.generate_terrain (M := series_math) calm 501
      O3.terrain_length O3.terrain_step = Some course /\
    nth_error course 0 = Some s /\
    snd s == 520 /\
    inject_Z (Deepseek.HEIGHT - 100) < snd s.
Proof.
  eexists. split; [exact course_generated |].
  split; [vm_compute; reflexivity |].
  split; vm_compute; reflexivity.
Qed.

(** C8, as amended.  In [Deepseek.py] the terrain built by [Terrain()]
    starts with the point [(0, HEIGHT // 2) = (0, 300)] for every random
    source.  In [o3.py] the first sample is at [x = 0] and its height is
    [HEIGHT - (amplitude * sin(0) + amplitude + u0)], where [u0] is the
    first draw of [random.uniform(-20, 20)]: it depends on the random
    source. *)
Theorem C8_first_sample_height :
  (forall (randint : nat -> Z -> Z -> Z) (k : nat),
      exists tail,
        Deepseek.points (fst (Deepseek.Terrain_init randint k))
        = (0%Z, (Deepseek.HEIGHT / 2)%Z) :: tail) /\
  (forall (M : PyMath) (uniform : nat -> Q) (fuel : nat) (len step : Z)
          (terrain : list O3.sample) (first : O3.sample),
      O3.generate_terrain uniform fuel len step = Some terrain ->
      nth_error terrain 0 = Some first ->
      fst first = 0%Z /\
      snd first
      = inject_Z O3.HEIGHT
        - (O3.amplitude * math_sin (O3.frequency * inject_Z 0)
           + O3.amplitude + uniform 0%nat)).
Proof.
  split.
  - intros randint k.
    destruct (Terrain_init_inv randint k) as (_ & _ & H). exact H.
  - intros M uniform fuel len step terrain first Hgen Hf.
    destruct (generate_terrain_samples uniform fuel len step terrain Hgen
                0%nat first Hf) as [Hx Hy].
    simpl in Hx. split; [exact Hx |].
    rewrite Hy, Hx. reflexivity.
Qed.

Lemma C8_first_sample_height_witness :
  exists first,
    O3.generate_terrain (M := series_math) calm 501
      O3.terrain_length O3.terrain_step = Some course /\
    nth_error course 0 = Some first /\
    fst first = 0%Z /\
    snd first
    = inject_Z O3.HEIGHT
      - (O3.amplitude
         * math_sin (PyMath := series_math) (O3.frequency * inject_Z 0)
         + O3.amplitude + calm 0%nat).
Proof.
  eexists. split; [exact course_generated |].
  split; [vm_compute; reflexivity |].
  refine (proj2 C8_first_sample_height series_math calm 501%nat
            O3.terrain_length O3.terrain_step course _ course_generated _).
  vm_compute. reflexivity.
Defined.

(** C8, counterexample.  Two runs of [generate_terrain(5000, 10)] of
    [o3.py] that differ only by the draws of [random.uniform] ([0] in one,
    [20] in the other) start at the heights 520 and 500. *)
Lemma C8_o3_first_sample_depends_on_draw :
  exists t1 t2 s1 s2,
    O3.generate_terrain (M := series_math) calm 501
      O3.terrain_length O3.terrain_step = Some t1 /\
    O3.generate_terrain (M := series_math) gusty 501
      O3.terrain_length O3.terrain_step = Some t2 /\
    nth_error t1 0 = Some s1 /\ nth_error t2 0 = Some s2 /\
    snd s1 == 520 /\ snd s2 == 500 /\ snd s2 < snd s1.
Proof.
  do 4 eexists.
  split; [vm_compute; reflexivity |].
  split; [vm_compute; reflexivity |].
  split; [vm_compute; reflexivity |].
  split; [vm_compute; reflexivity |].
  split; [vm_compute; reflexivity |].
  split; vm_compute; reflexivity.
Qed.

(** Outside the sampled range the scan of [get_current_segment] finds
    nothing and the fallback, the first segment, is returned. *)
Lemma deepseek_segment_out_of_range (pts : list Deepseek.point) p0 p1 rest
  last (bx : Q) :
  spaced Deepseek.TERRAIN_SEGMENT_LENGTH pts ->
  pts = p0 :: p1 :: rest ->
  Py.index pts (-1) = Some last ->
  bx < inject_Z (fst p0) \/ inject_Z (fst last) < bx ->
  Deepseek.get_current_segment pts bx = Some (p0, p1).
Proof.
  intros Hs Hpts Hl Hout.
  assert (Hne : pts <> []) by (rewrite Hpts; discriminate).
  rewrite index_last in Hl by trivial.
  pose proof (Hs _ _ Hl) as Hlx.
  assert (H0 : fst p0 = 0%Z).
  { apply (Hs 0%nat). rewrite Hpts. reflexivity. }
  assert (Hall : forall p, In p pts ->
             (fst p0 <= fst p)%Z /\ (fst p <= fst last)%Z).
  { intros p Hp. apply In_nth_error in Hp. destruct Hp as [i Hi].
    pose proof (Hs _ _ Hi) as Hx.
    assert (i < length pts)%nat by (apply nth_error_Some; congruence).
    rewrite H0, Hx, Hlx. unfold Deepseek.TERRAIN_SEGMENT_LENGTH. lia. }
  unfold Deepseek.get_current_segment.
  assert (Hnone : Deepseek.find_segment pts bx = None).
  { destruct Hout as [Hleft | Hright].
    - apply find_segment_left. intros p Hp.
      destruct (Hall p Hp) as [Hlo _]. rewrite Zle_Qle in Hlo. lra.
    - apply find_segment_right. intros p Hp.
      destruct (Hall p Hp) as [_ Hhi]. rewrite Zle_Qle in Hhi. lra. }
  rewrite Hnone, Hpts. reflexivity.
Qed.

(** C4, as amended.  In [o3.py], on a generated terrain, whose first
    sample is at [x = 0], [get_ground_y(x)] is the height of the last
    sample for every [x] beyond it and the height of the first sample for
    every [x] before it.  In [Deepseek.py], for [x] before the first point
    or beyond the last one, the segment used is the first one and the
    height is the linear extrapolation of that segment, not the height of
    the nearest end point. *)
Theorem C4_heights_outside_the_samples :
  (forall (M : PyMath) (uniform : nat -> Q) (fuel : nat) (len : Z)
          (terrain : list O3.sample) (first last : O3.sample) (x : Q),
      O3.generate_terrain uniform fuel len O3.terrain_step = Some terrain ->
      nth_error terrain 0 = Some first ->
      Py.index terrain (-1) = Some last ->
      fst first = 0%Z /\
      (inject_Z (fst last) < x ->
       O3.get_ground_y terrain x = Some (snd last)) /\
      (x < inject_Z (fst first) ->
       O3.get_ground_y terrain x = Some (snd first))) /\
  (forall (randint : nat -> Z -> Z -> Z) (t : Deepseek.Terrain) (x : Q),
      deepseek_generated randint t ->
      exists p0 p1 rest last,
        Deepseek.points t = p0 :: p1 :: rest /\
        Py.index (Deepseek.points t) (-1) = Some last /\
        (x < inject_Z (fst p0) \/ inject_Z (fst last) < x ->
         Deepseek.get_current_segment (Deepseek.points t) x
           = Some (p0, p1) /\
         Deepseek.get_terrain_height (p0, p1) x
           = Some (inject_Z (snd p0)
                   * (1 - (x - inject_Z (fst p0))
                          / inject_Z Deepseek.TERRAIN_SEGMENT_LENGTH)
                   + inject_Z (snd p1)
                     * ((x - inject_Z (fst p0))
                        / inject_Z Deepseek.TERRAIN_SEGMENT_LENGTH)))).
Proof.
  split.
  - intros M uniform fuel len terrain first last x Hgen Hf Hl.
    apply generate_terrain_spaced in Hgen.
    assert (Hne : terrain <> []) by (intro E; rewrite E in Hf; discriminate).
    rewrite index_last in Hl by trivial.
    assert (H0 : fst first = 0%Z) by (apply (Hgen 0%nat); exact Hf).
    split; [exact H0 |]. split.
    + intro Hx. apply ground_right; trivial.
    + intro Hx. rewrite H0 in Hx. apply ground_left; trivial.
  - intros randint t x Hgen.
    destruct (generated_inv randint t Hgen) as ([Hs _] & Hlen & _).
    destruct (Deepseek.points t) as [| p0 [| p1 rest]] eqn:Hpts;
      simpl in Hlen; try lia.
    destruct (nth_error_in_range (p0 :: p1 :: rest)
                (length (p0 :: p1 :: rest) - 1)) as [last Hl];
      [simpl; lia |].
    assert (Hi : Py.index (p0 :: p1 :: rest) (-1) = Some last)
      by (rewrite index_last by discriminate; exact Hl).
    exists p0, p1, rest, last. split; [reflexivity |]. split; [exact Hi |].
    intro Hout. split.
    + eapply deepseek_segment_out_of_range; eauto.
    + apply (get_terrain_height_neighbours (p0 :: p1 :: rest) 0%nat);
        trivial.
Qed.

Lemma C4_heights_outside_the_samples_witness :
  exists first last,
    O3.generate_terrain (M := series_math) calm 501
      O3.terrain_length O3.terrain_step = Some course /\
    nth_error course 0 = Some first /\
    Py.index course (-1) = Some last /\
    fst last = 4990%Z /\
    fst first = 0%Z /\
    (inject_Z (fst last) < 6000 ->
     O3.get_ground_y course 6000 = Some (snd last)) /\
    (6000 < inject_Z (fst first) ->
     O3.get_ground_y course 6000 = Some (snd first)).
Proof.
  do 2 eexists. split; [exact course_generated |].
  split; [vm_compute; reflexivity |].
  split; [vm_compute; reflexivity |].
  split; [reflexivity |].
  refine (proj1 C4_heights_outside_the_samples series_math calm 501%nat
            O3.terrain_length course _ _ 6000 course_generated _ _);
    vm_compute; reflexivity.
Defined.

(** C4, counterexample.  In [Deepseek.py], on the terrain built by
    [Terrain()] when the draws alternate between -50 and 50, the first
    point is [(0, 300)] and the second [(50, 250)]; for the bike at
    [x = -50], left of the first point, the height used is 350, not the
    300 of the first point. *)
Lemma C4_deepseek_extrapolates_linearly :
  exists first segment terrain_height,
    nth_error (Deepseek.points (fst (Deepseek.Terrain_init zigzag 0))) 0
      = Some first /\
    first = (0%Z, 300%Z) /\
    -50 < inject_Z (fst first) /\
    Deepseek.get_current_segment
      (Deepseek.points (fst (Deepseek.Terrain_init zigzag 0))) (-50)
      = Some segment /\
    segment = ((0%Z, 300%Z), (50%Z, 250%Z)) /\
    Deepseek.get_terrain_height segment (-50) = Some terrain_height /\
    terrain_height == 350 /\
    inject_Z (snd first) < terrain_height.
Proof.
  do 3 eexists.
  split; [vm_compute; reflexivity |].
  split; [reflexivity |].
  split; [reflexivity |].
  split; [vm_compute; reflexivity |].
  split; [reflexivity |].
  split; [vm_compute; reflexivity |].
  split; vm_compute; reflexivity.
Qed.

Lemma generate_bonuses_loop_fresh (randint : nat -> Z -> Z -> Z) (n : nat) :
  forall acc k,
    Forall (fun bonus => Deepseek.collected bonus = false) acc ->
    Forall (fun bonus => Deepseek.collected bonus = false)
      (fst (Deepseek.generate_bonuses_loop randint n acc k)).
Proof.
  induction n as [| n IH]; intros acc k H; [exact H |].
  cbn [Deepseek.generate_bonuses_loop]. apply IH.
  apply Forall_app. split; [exact H |]. constructor; [reflexivity | constructor].
Qed.

Lemma fresh_count (bs : list Deepseek.Bonus) :
  Forall (fun bonus => Deepseek.collected bonus = false) bs ->
  collected_count bs = 0%Z.
Proof.
  unfold collected_count. induction 1 as [| bonus rest Hb _ IH];
    [reflexivity |].
  cbn [filter]. rewrite Hb. exact IH.
Qed.

(** A new game has score [0] and no bonus flagged. *)
Lemma Game_init_fresh (randint : nat -> Z -> Z -> Z) :
  Deepseek.score (Deepseek.bike (Deepseek.Game_init randint)) = 0%Z /\
  collected_count (Deepseek.bonuses (Deepseek.Game_init randint)) = 0%Z.
Proof.
  unfold Deepseek.Game_init.
  destruct (Deepseek.Terrain_init randint 0) as [t k1].
  pose proof (generate_bonuses_loop_fresh randint 20 [] k1 (Forall_nil _))
    as H.
  unfold Deepseek.generate_bonuses.
  destruct (Deepseek.generate_bonuses_loop randint 20 [] k1) as [bs k2].
  cbn [fst] in H. cbn [Deepseek.bike Deepseek.bonuses]. split.
  - reflexivity.
  - apply fresh_count. exact H.
Qed.

Lemma deepseek_collect_seq_score (positions : list (Q * Q)) :
  forall g,
    let g' := deepseek_collect_seq positions g in
    (Deepseek.score (Deepseek.bike g')
     - 10 * collected_count (Deepseek.bonuses g')
     = Deepseek.score (Deepseek.bike g)
       - 10 * collected_count (Deepseek.bonuses g))%Z.
Proof.
  induction positions as [| pos rest IH]; intro g; cbn zeta.
  - reflexivity.
  - cbn [deepseek_collect_seq]. specialize (IH (Deepseek.check_bonus_collection (deepseek_place pos g))).
    cbn zeta in IH. rewrite IH.
    pose proof (check_bonus_collection_score (deepseek_place pos g)) as H.
    cbn zeta in H. rewrite H. reflexivity.
Qed.

Lemma o3_collect_seq_score (positions : list (Q * Q)) :
  forall b pts,
    exists b' pts',
      o3_collect_seq positions (b, pts) = Some (b', pts') /\
      O3.score b'
      = (O3.score b
         + 1 * (Z.of_nat (length pts) - Z.of_nat (length pts')))%Z.
Proof.
  induction positions as [| pos rest IH]; intros b pts.
  - exists b, pts. split; [reflexivity | lia].
  - cbn [o3_collect_seq fst snd].
    destruct (collect_spec (o3_place pos b) pts) as (b1 & Hc & _ & Hs).
    rewrite Hc. cbn [Py.bind].
    destruct (IH b1 (filter (fun p => negb (O3.near (o3_place pos b) p)) pts))
      as (b' & pts' & Hrun & Hs').
    exists b', pts'. split; [exact Hrun |].
    rewrite Hs', Hs. cbn [o3_place O3.score].
    pose proof (filter_split_length (O3.near (o3_place pos b)) pts). lia.
Qed.

(** C5.  [Deepseek.py]: a second [check_bonus_collection] at the same bike
    position changes neither the bonuses nor the score, and after any
    sequence of calls in a new game the score is 10 times the number of
    bonuses flagged as collected.  [o3.py]: the collection step of the
    frame loop ([check_bonus], then the removal of what it returned)
    always returns, a second step at the same position changes nothing,
    and after any sequence of steps the score has grown by 1 for each
    bonus removed from the list. *)
Theorem C5_collection_idempotent_and_score_counts :
  (forall g : Deepseek.Game,
      Deepseek.check_bonus_collection (Deepseek.check_bonus_collection g)
      = Deepseek.check_bonus_collection g) /\
  (forall (randint : nat -> Z -> Z -> Z) (positions : list (Q * Q)),
      Deepseek.score
        (Deepseek.bike
           (deepseek_collect_seq positions (Deepseek.Game_init randint)))
      = (10 * collected_count
                (Deepseek.bonuses
                   (deepseek_collect_seq positions
                      (Deepseek.Game_init randint))))%Z) /\
  (forall (b : O3.Bike) (bonus_points : list O3.sample),
      exists b' bonus_points',
        O3.collect (b, bonus_points) = Some (b', bonus_points') /\
        O3.collect (b', bonus_points') = Some (b', bonus_points')) /\
  (forall (positions : list (Q * Q)) (b : O3.Bike)
          (bonus_points : list O3.sample),
      exists b' bonus_points',
        o3_collect_seq positions (b, bonus_points)
          = Some (b', bonus_points') /\
        O3.score b'
        = (O3.score b
           + 1 * (Z.of_nat (length bonus_points)
                  - Z.of_nat (length bonus_points')))%Z).
Proof.
  split; [| split; [| split]].
  - intro g. apply (check_bonus_collection_again g).
  - intros randint positions.
    pose proof (deepseek_collect_seq_score positions
                  (Deepseek.Game_init randint)) as H.
    cbn zeta in H. destruct (Game_init_fresh randint) as [H0 H1].
    rewrite H0, H1 in H. lia.
  - intros b pts.
    destruct (collect_spec b pts) as (b' & Hc & Hn & Hs).
    exists b', (filter (fun p => negb (O3.near b p)) pts).
    split; [exact Hc |].
    unfold O3.collect.
    rewrite check_bonus_none.
    + reflexivity.
    + rewrite Hn. apply Forall_forall. intros p Hp.
      apply filter_In in Hp. destruct Hp as [_ Hp].
      apply negb_true_iff in Hp. exact Hp.
  - intros positions b pts. apply o3_collect_seq_score.
Qed.

(** Without the removal done by the frame loop, [check_bonus] of [o3.py]
    pays again for the same point. *)
Remark check_bonus_alone_pays_twice :
  let bonus_points := [(100%Z, 500 # 1)] in
  let '(_, b1) := O3.check_bonus bonus_points rest_bike in
  let '(_, b2) := O3.check_bonus bonus_points b1 in
  O3.score b1 = 1%Z /\ O3.score b2 = 2%Z.
Proof. vm_compute. split; reflexivity. Qed.

(** C6, as amended.  [o3.py]: a bonus point is near exactly when
    [|x - bx| < 20] and [|y - by| < 30], and [check_bonus] returns exactly
    the near points of the list.  [Deepseek.py]: a bonus is hit exactly
    when it is not yet collected and [|x - bonus.x| < 30], whatever the
    heights of the bike and of the bonus, and [check_bonus_collection]
    flags exactly the bonuses hit. *)
Theorem C6_collection_test :
  (forall (b : O3.Bike) (bp : O3.sample),
      O3.near b bp = true <->
      Qabs (O3.x b - inject_Z (fst bp)) < 20 /\
      Qabs (O3.y b - snd bp) < 30) /\
  (forall (b : O3.Bike) (bonus_points : list O3.sample) (bp : O3.sample),
      In bp (fst (O3.check_bonus bonus_points b)) <->
      In bp bonus_points /\ O3.near b bp = true) /\
  (forall (bike_x : Q) (bonus : Deepseek.Bonus),
      Deepseek.hit bike_x bonus = true <->
      Deepseek.collected bonus = false /\
      Qabs (bike_x - inject_Z (Deepseek.bonus_x bonus)) < 30) /\
  (forall g : Deepseek.Game,
      Deepseek.bonuses (Deepseek.check_bonus_collection g)
      = map (deepseek_mark (Deepseek.x (Deepseek.bike g)))
          (Deepseek.bonuses g)).
Proof.
  split; [| split; [| split]].
  - intros b [bx by_]. unfold O3.near. cbn [fst snd].
    rewrite andb_true_iff, !ltb_true. reflexivity.
  - intros b pts bp.
    pose proof (check_bonus_spec pts b) as H. cbn zeta in H.
    destruct H as [H _]. rewrite H. apply filter_In.
  - intros bike_x bonus. unfold Deepseek.hit.
    rewrite andb_true_iff, negb_true_iff, ltb_true. reflexivity.
  - intro g. unfold Deepseek.check_bonus_collection.
    pose proof (check_bonus_loop_marks (Deepseek.x (Deepseek.bike g))
                  (Deepseek.bonuses g) (Deepseek.score (Deepseek.bike g)))
      as H.
    destruct (Deepseek.check_bonus_loop _ _ _) as [bs sc].
    exact H.
Qed.

(** C6, counterexample.  [Deepseek.py]: with the bike at [(500, 480)] and
    an uncollected bonus at [(500, 200)], [check_bonus_collection] flags
    the bonus and pays 10, although the two are 280 apart vertically,
    far beyond the vertical tolerance 30 of the other prototype (the test
    never reads a height). *)
Lemma C6_deepseek_hit_ignores_height :
  Deepseek.bonuses (Deepseek.check_bonus_collection far_game)
  = [{| Deepseek.bonus_x := 500; Deepseek.bonus_y := 200;
        Deepseek.collected := true |}] /\
  Deepseek.score (Deepseek.bike (Deepseek.check_bonus_collection far_game))
  = 10%Z /\
  Qabs (Deepseek.y (Deepseek.bike far_game) - inject_Z 200) == 280 /\
  30 <= Qabs (Deepseek.y (Deepseek.bike far_game) - inject_Z 200).
Proof.
  split; [vm_compute; reflexivity |].
  split; [vm_compute; reflexivity |].
  split; [vm_compute; reflexivity |].
  vm_compute. discriminate.
Qed.

(* ================================================================== *)
(** ** Further properties: arithmetic used below *)

(** On a non-negative float [int] is the floor. *)
Lemma int_floor (q : Q) :
  0 <= q -> inject_Z (Py.int q) <= q /\ q < inject_Z (Py.int q + 1).
Proof.
  intro H.
  assert (E : Py.int q = Qfloor q).
  { destruct q as [n d]. unfold Py.int, Qfloor. cbn [Qnum Qden].
    apply Z.quot_div_nonneg; [| lia].
    unfold Qle in H. simpl in H. lia. }
  rewrite E. split; [apply Qfloor_le | apply Qlt_floor].
Qed.

(** A point of a segment lies between the heights of its two ends. *)
Lemma interpolation_between (y1 y2 t lo hi : Q) :
  0 <= t -> t <= 1 -> lo <= y1 -> y1 <= hi -> lo <= y2 -> y2 <= hi ->
  lo <= y1 * (1 - t) + y2 * t /\ y1 * (1 - t) + y2 * t <= hi.
Proof.
  intros Ht0 Ht1 H1 H1' H2 H2'.
  assert (A : 0 <= (y1 - lo) * (1 - t)) by (apply Qmult_le_0_compat; lra).
  assert (B : 0 <= (y2 - lo) * t) by (apply Qmult_le_0_compat; lra).
  assert (C : 0 <= (hi - y1) * (1 - t)) by (apply Qmult_le_0_compat; lra).
  assert (D : 0 <= (hi - y2) * t) by (apply Qmult_le_0_compat; lra).
  split; lra.
Qed.

(* ================================================================== *)
(** ** Further properties of o3.py: the terrain generator *)

Section O3_count.
Context {M : PyMath}.
Variable uniform : nat -> Q.

(** The number of turns of the loop from [x], and the range of the
    abscissas it appends. *)
Lemma generate_terrain_loop_count (fuel : nat) :
  forall len step x k acc t,
    (0 < step)%Z ->
    O3.generate_terrain_loop uniform fuel len step x k acc = Some t ->
    exists tail,
      t = acc ++ tail /\
      Z.of_nat (length tail) = Z.max 0 ((len - x + step - 1) / step) /\
      Forall (fun s => (x <= fst s < len)%Z) tail.
Proof.
  induction fuel as [| fuel IH]; intros len step x k acc t Hstep H;
    simpl in H; [discriminate |].
  destruct (x <? len)%Z eqn:E.
  - apply Z.ltb_lt in E. apply IH in H; trivial.
    destruct H as (tail & -> & Hlen & Hall).
    eexists (_ :: tail). split; [rewrite <- app_assoc; reflexivity |].
    split.
    + cbn [length]. rewrite Nat2Z.inj_succ, Hlen.
      replace (len - x + step - 1)%Z
        with ((len - (x + step) + step - 1) + 1 * step)%Z by lia.
      rewrite Z.div_add by lia.
      assert (0 <= (len - (x + step) + step - 1) / step)%Z
        by (apply Z.div_pos; lia).
      lia.
    + constructor; [simpl; lia |].
      eapply Forall_impl; [| exact Hall]. simpl. intros s Hs. lia.
  - apply Z.ltb_ge in E. injection H as <-. exists [].
    split; [symmetry; apply app_nil_r |]. split; [| constructor].
    simpl.
    assert ((len - x + step - 1) / step < 1)%Z
      by (apply Z.div_lt_upper_bound; lia).
    lia.
Qed.

End O3_count.

(** X1.  [generate_terrain(length, step)] with a positive step returns
    (the loop stops), and whenever it returns the terrain has
    [max(0, ceil(length / step))] samples, the sample of index [i] is at
    [x = i * step], and every abscissa lies in [[0, length)]: the
    abscissas increase strictly by the constant step and an empty course
    gives an empty terrain. *)
Theorem X1_generate_terrain_samples_count
  (M : PyMath) (uniform : nat -> Q) (len step : Z) :
  (0 < step)%Z ->
  (exists terrain,
      O3.generate_terrain uniform (S (Z.to_nat len)) len step
      = Some terrain) /\
  (forall fuel terrain,
      O3.generate_terrain uniform fuel len step = Some terrain ->
      Z.of_nat (length terrain) = Z.max 0 ((len + step - 1) / step) /\
      forall i s,
        nth_error terrain i = Some s ->
        fst s = (Z.of_nat i * step)%Z /\ (0 <= fst s < len)%Z).
Proof.
  intro Hstep. split; [apply generate_terrain_stops; exact Hstep |].
  intros fuel terrain Hgen.
  pose proof (generate_terrain_spaced uniform fuel len step terrain Hgen)
    as Hs.
  unfold O3.generate_terrain in Hgen.
  apply generate_terrain_loop_count in Hgen; trivial.
  destruct Hgen as (tail & -> & Hlen & Hall). cbn [app] in *.
  split.
  - rewrite Hlen. f_equal. f_equal. lia.
  - intros i s Hi. split; [apply Hs; exact Hi |].
    rewrite Forall_forall in Hall. apply Hall.
    eapply nth_error_In. exact Hi.
Qed.

Lemma X1_generate_terrain_samples_count_witness :
  (0 < O3.terrain_step)%Z /\
  Z.of_nat (length course) = 500%Z /\
  forall i s,
    nth_error course i = Some s ->
    fst s = (Z.of_nat i * O3.terrain_step)%Z /\
    (0 <= fst s < O3.terrain_length)%Z.
Proof.
  assert (H : (0 < O3.terrain_step)%Z) by reflexivity.
  split; [exact H |].
  exact (proj2 (X1_generate_terrain_samples_count series_math calm
                  O3.terrain_length O3.terrain_step H)
               501%nat course course_generated).
Defined.

(* ================================================================== *)
(** ** Further properties of o3.py: the ground query *)

Section O3_bracket.
Variable terrain : list O3.sample.
Hypothesis Hspaced : spaced O3.terrain_step terrain.
Hypothesis Hlen : (2 <= length terrain)%nat.

(** Inside the sampled range the two samples read by [get_ground_y]
    bracket [x], and the result is their interpolation. *)
Lemma ground_bracket last x :
  nth_error terrain (length terrain - 1) = Some last ->
  0 <= x -> x <= inject_Z (fst last) ->
  exists i y1 y2,
    nth_error terrain i = Some ((Z.of_nat i * O3.terrain_step)%Z, y1) /\
    nth_error terrain (S i)
      = Some ((Z.of_nat (S i) * O3.terrain_step)%Z, y2) /\
    inject_Z (Z.of_nat i * O3.terrain_step) <= x /\
    x <= inject_Z (Z.of_nat (S i) * O3.terrain_step) /\
    O3.get_ground_y terrain x
    = Some (y1 * (1 - (x - inject_Z (Z.of_nat i * O3.terrain_step))
                     / inject_Z O3.terrain_step)
            + y2 * ((x - inject_Z (Z.of_nat i * O3.terrain_step))
                    / inject_Z O3.terrain_step)).
Proof.
  intros Hl H0 Hx. destruct (last_sample terrain Hspaced _ Hl) as (Hne & Hi & Hfx).
  pose proof (index_in_range terrain last x Hlen Hl H0 Hx) as Hr.
  cbv zeta in Hr.
  assert (Hq : 0 <= x / inject_Z O3.terrain_step)
    by (apply Qle_shift_div_l; [reflexivity | lra]).
  destruct (int_floor _ Hq) as [Hf1 Hf2].
  set (f := Py.int (x / inject_Z O3.terrain_step)) in *.
  set (j := Z.min f (Z.of_nat (length terrain) - 2)) in *.
  assert (Hx10 : x == (x / inject_Z O3.terrain_step) * 10).
  { unfold O3.terrain_step. change (inject_Z 10) with 10. field. }
  assert (Hb : inject_Z (j * O3.terrain_step) <= x /\
               x <= inject_Z ((j + 1) * O3.terrain_step)).
  { unfold O3.terrain_step in *. rewrite !inject_Z_mult.
    change (inject_Z 10) with 10 in *.
    destruct (Z.le_gt_cases f (Z.of_nat (length terrain) - 2)) as [Hle | Hgt].
    - replace j with f by (subst j; lia). rewrite inject_Z_plus in *.
      change (inject_Z 1) with 1 in *. split; lra.
    - replace j with (Z.of_nat (length terrain) - 2)%Z by (subst j; lia).
      rewrite Hfx in Hx. rewrite inject_Z_mult in Hx.
      change (inject_Z 10) with 10 in Hx.
      assert (Hjf : inject_Z (Z.of_nat (length terrain) - 2 + 1)
                    <= inject_Z f) by (rewrite <- Zle_Qle; lia).
      assert (Hn1 : inject_Z (Z.of_nat (length terrain - 1))
                    == inject_Z (Z.of_nat (length terrain) - 2 + 1)).
      { apply inject_Z_injective. lia. }
      assert (Hjj : inject_Z (Z.of_nat (length terrain) - 2)
                    <= inject_Z (Z.of_nat (length terrain) - 2 + 1))
        by (rewrite <- Zle_Qle; lia).
      split; lra. }
  destruct Hb as [Hb1 Hb2].
  destruct (nth_error_in_range terrain (Z.to_nat j)) as [[x1 y1] H1];
    [lia |].
  destruct (nth_error_in_range terrain (S (Z.to_nat j))) as [[x2 y2] H2];
    [lia |].
  pose proof (Hspaced _ _ H1) as E1. pose proof (Hspaced _ _ H2) as E2.
  simpl fst in E1, E2. subst x1 x2.
  assert (Ej : Z.of_nat (Z.to_nat j) = j) by lia.
  assert (Ej' : Z.of_nat (S (Z.to_nat j)) = (j + 1)%Z) by lia.
  exists (Z.to_nat j), y1, y2. rewrite Ej', Ej.
  rewrite Ej in H1. rewrite Ej' in H2.
  split; [exact H1 |]. split; [exact H2 |].
  split; [exact Hb1 |]. split; [exact Hb2 |].
  unfold O3.get_ground_y.
  assert (Hn : Py.ltb x 0 = false) by (apply ltb_false; lra).
  assert (Hm : Py.ltb (inject_Z (fst last)) x = false)
    by (apply ltb_false; lra).
  rewrite Hn, Hi. cbn [Py.bind]. rewrite Hm. fold f. fold j.
  rewrite !index_nonneg by lia.
  replace (Z.to_nat (j + 1)) with (S (Z.to_nat j)) by lia.
  rewrite H1, H2. cbn [Py.bind].
  replace ((j + 1) * O3.terrain_step - j * O3.terrain_step)%Z
    with O3.terrain_step by (unfold O3.terrain_step; lia).
  rewrite div_Some by (intro E; discriminate E).
  reflexivity.
Qed.

End O3_bracket.

(** The query is exact at the abscissa of every sample. *)
Lemma ground_at_sample (terrain : list O3.sample) (i : nat)
  (s : O3.sample) :
  spaced O3.terrain_step terrain ->
  (2 <= length terrain)%nat ->
  nth_error terrain i = Some s ->
  exists ground_y,
    O3.get_ground_y terrain (inject_Z (fst s)) = Some ground_y /\
    ground_y == snd s.
Proof.
  intros Hgen Hlen Hi.
  destruct (nth_error_in_range terrain (length terrain - 1))
    as [last Hl]; [lia |].
  pose proof (Hgen _ _ Hi) as Hx. pose proof (Hgen _ _ Hl) as Hlx.
  assert (Hil : (i < length terrain)%nat)
    by (apply nth_error_Some; congruence).
  destruct (ground_bracket terrain Hgen Hlen last (inject_Z (fst s)) Hl)
    as (j & y1 & y2 & H1 & H2 & Hb1 & Hb2 & Hg).
  { change 0 with (inject_Z 0). rewrite <- Zle_Qle.
    rewrite Hx. unfold O3.terrain_step. lia. }
  { rewrite <- Zle_Qle. rewrite Hx, Hlx. unfold O3.terrain_step. lia. }
  rewrite <- Zle_Qle in Hb1, Hb2. rewrite Hx in Hb1, Hb2.
  unfold O3.terrain_step in Hb1, Hb2.
  eexists. split; [exact Hg |].
  assert (Hcase : i = j \/ i = S j) by lia.
  destruct Hcase as [-> | ->].
  - rewrite Hi in H1. injection H1 as Hs. rewrite Hs. cbn [fst snd].
    setoid_replace ((inject_Z (Z.of_nat j * O3.terrain_step)
                     - inject_Z (Z.of_nat j * O3.terrain_step))
                    / inject_Z O3.terrain_step) with 0
      by (unfold O3.terrain_step; field).
    ring.
  - rewrite Hi in H2. injection H2 as Hs. rewrite Hs. cbn [fst snd].
    setoid_replace ((inject_Z (Z.of_nat (S j) * O3.terrain_step)
                     - inject_Z (Z.of_nat j * O3.terrain_step))
                    / inject_Z O3.terrain_step) with 1.
    + ring.
    + unfold O3.terrain_step. rewrite Nat2Z.inj_succ. unfold Z.succ.
      rewrite !inject_Z_mult, inject_Z_plus.
      change (inject_Z 10) with 10. change (inject_Z 1) with 1. field.
Qed.


(** X2.  On a generated terrain with at least two samples,
    [get_ground_y] is exact at every sample: queried at a sample's own
    abscissa it returns that sample's height (up to the equality of
    rationals), the last sample included. *)
Theorem X2_ground_exact_at_samples
  (M : PyMath) (uniform : nat -> Q) (fuel : nat) (len : Z)
  (terrain : list O3.sample) (i : nat) (s : O3.sample) :
  O3.generate_terrain uniform fuel len O3.terrain_step = Some terrain ->
  (2 <= length terrain)%nat ->
  nth_error terrain i = Some s ->
  exists ground_y,
    O3.get_ground_y terrain (inject_Z (fst s)) = Some ground_y /\
    ground_y == snd s.
Proof.
  intros Hgen Hlen Hi. apply generate_terrain_spaced in Hgen.
  exact (ground_at_sample terrain i s Hgen Hlen Hi).
Qed.

Lemma X2_ground_exact_at_samples_witness :
  exists s ground_y,
    O3.generate_terrain (M := series_math) calm 501
      O3.terrain_length O3.terrain_step = Some course /\
    (2 <= length course)%nat /\
    nth_error course 499 = Some s /\
    fst s = 4990%Z /\
    O3.get_ground_y course (inject_Z (fst s)) = Some ground_y /\
    ground_y == snd s.
Proof.
  assert (Hex : exists s, nth_error course 499 = Some s /\ fst s = 4990%Z).
  { eexists. split; vm_compute; reflexivity. }
  destruct Hex as (s & Hs & Hx).
  destruct (X2_ground_exact_at_samples series_math calm 501
              O3.terrain_length course 499 s course_generated
              course_length Hs) as (g & Hg & Hy).
  exists s, g. auto 10 using course_generated, course_length.
Defined.

(** X3.  On a generated terrain with at least two samples, with a sine in
    [-1, 1] and draws in [-20, 20], the ground height returned at any
    abscissa lies in [HEIGHT - 180, HEIGHT + 20]: between two samples it
    is a point of the segment joining them, outside it is the height of
    an end sample. *)
Theorem X3_ground_height_within_sample_bounds
  (M : PyMath) (uniform : nat -> Q) (fuel : nat) (len : Z)
  (terrain : list O3.sample) (x : Q) :
  (forall a, -1 <= math_sin a /\ math_sin a <= 1) ->
  (forall k, -20 <= uniform k /\ uniform k <= 20) ->
  O3.generate_terrain uniform fuel len O3.terrain_step = Some terrain ->
  (2 <= length terrain)%nat ->
  exists ground_y,
    O3.get_ground_y terrain x = Some ground_y /\
    inject_Z O3.HEIGHT - 180 <= ground_y /\
    ground_y <= inject_Z O3.HEIGHT + 20.
Proof.
  intros Hsin Hu Hgen Hlen.
  assert (Hnth : forall i s, nth_error terrain i = Some s ->
             inject_Z O3.HEIGHT - 180 <= snd s /\
             snd s <= inject_Z O3.HEIGHT + 20).
  { intros i s Hi.
    destruct (generate_terrain_samples uniform fuel len O3.terrain_step
                terrain Hgen i s Hi) as [_ Hy].
    rewrite Hy. apply o3_height_bounds; try apply Hsin; apply Hu. }
  apply generate_terrain_spaced in Hgen.
  destruct (nth_error_in_range terrain 0) as [first Hf]; [lia |].
  destruct (nth_error_in_range terrain (length terrain - 1))
    as [last Hl]; [lia |].
  destruct (Qlt_le_dec x 0) as [Hx | Hx].
  - exists (snd first). split; [eapply ground_left; eauto |].
    exact (Hnth _ _ Hf).
  - destruct (Qlt_le_dec (inject_Z (fst last)) x) as [Hr | Hr].
    + exists (snd last). split; [eapply ground_right; eauto |].
      exact (Hnth _ _ Hl).
    + destruct (ground_bracket terrain Hgen Hlen last x Hl Hx Hr)
        as (j & y1 & y2 & H1 & H2 & Hb1 & Hb2 & Hg).
      eexists. split; [exact Hg |].
      pose proof (Hnth _ _ H1) as [B1 B1'].
      pose proof (Hnth _ _ H2) as [B2 B2'].
      cbn [snd] in B1, B1', B2, B2'.
      assert (Hw : inject_Z (Z.of_nat (S j) * O3.terrain_step)
                   == inject_Z (Z.of_nat j * O3.terrain_step) + 10).
      { unfold O3.terrain_step. rewrite Nat2Z.inj_succ. unfold Z.succ.
        rewrite !inject_Z_mult, inject_Z_plus.
        change (inject_Z 10) with 10. change (inject_Z 1) with 1. ring. }
      apply interpolation_between; trivial.
      * apply Qle_shift_div_l; [reflexivity | lra].
      * apply Qle_shift_div_r; [reflexivity |].
        unfold O3.terrain_step at 2. change (inject_Z 10) with 10. lra.
Qed.

Lemma X3_ground_height_within_sample_bounds_witness :
  (forall a, -1 <= math_sin (PyMath := series_math) a /\
             math_sin (PyMath := series_math) a <= 1) /\
  (forall k, -20 <= calm k /\ calm k <= 20) /\
  O3.generate_terrain (M := series_math) calm 501
    O3.terrain_length O3.terrain_step = Some course /\
  (2 <= length course)%nat /\
  exists ground_y,
    O3.get_ground_y course (12345 # 10) = Some ground_y /\
    inject_Z O3.HEIGHT - 180 <= ground_y /\
    ground_y <= inject_Z O3.HEIGHT + 20.
Proof.
  split; [exact series_sin_bounded |]. split; [exact calm_bounded |].
  split; [exact course_generated |]. split; [exact course_length |].
  exact (X3_ground_height_within_sample_bounds series_math calm 501
           O3.terrain_length course (12345 # 10) series_sin_bounded
           calm_bounded course_generated course_length).
Defined.

(* ================================================================== *)
(** ** Further properties of o3.py: the integrator *)

(** Without the pedal the Euler step and the clamp never raise the
    velocity. *)
Lemma next_vx_no_pedal dt keys v :
  K_UP keys = false -> 0 <= dt -> 0 <= v ->
  o3_next_vx dt keys v <= v /\ (v == 0 -> o3_next_vx dt keys v == 0).
Proof.
  intros Hk Hdt Hv. unfold o3_next_vx, o3_acceleration. rewrite Hk.
  cbv zeta.
  assert (Hvd : 0 <= v * dt) by (apply Qmult_le_0_compat; trivial).
  destruct (K_DOWN keys).
  - destruct (Py.ltb _ 0) eqn:E.
    + split; [exact Hv | reflexivity].
    + apply ltb_false in E. split; [lra |]. intro H0. lra.
  - destruct (Py.ltb _ 0) eqn:E.
    + split; [exact Hv | reflexivity].
    + apply ltb_false in E. split; [lra |].
      intro H0. rewrite H0. ring.
Qed.

(** X4.  On a generated terrain, a frame of [Bike.update] in which the
    pedal key is not pressed, with [dt >= 0] and a bike that is not
    moving backwards, returns with [0 <= vx' <= vx]: drag and brake never
    speed the bike up and never reverse it.  A bike at rest stays at
    rest at the same [x]. *)
Theorem X4_no_pedal_never_speeds_up
  (M : PyMath) (uniform : nat -> Q) (fuel : nat) (len : Z)
  (terrain : list O3.sample) (dt : Q) (keys : Keys) (b : O3.Bike) :
  O3.generate_terrain uniform fuel len O3.terrain_step = Some terrain ->
  (2 <= length terrain)%nat ->
  K_UP keys = false -> 0 <= dt -> 0 <= O3.vx b ->
  exists b',
    O3.update terrain dt keys b = Some b' /\
    0 <= O3.vx b' /\ O3.vx b' <= O3.vx b /\
    (O3.vx b == 0 -> O3.vx b' == 0 /\ O3.x b' == O3.x b).
Proof.
  intros Hgen Hlen Hk Hdt Hv. apply generate_terrain_spaced in Hgen.
  destruct (update_total terrain Hgen Hlen dt keys b) as [b' Hb'].
  exists b'. split; [exact Hb' |].
  destruct (update_fields terrain dt keys b b' Hb')
    as (g & _ & Hvx & Hx & _).
  destruct (next_vx_no_pedal dt keys (O3.vx b) Hk Hdt Hv) as [Hle H0].
  rewrite Hx, Hvx. split; [apply next_vx_nonneg |]. split; [exact Hle |].
  intro Hz. specialize (H0 Hz). split; [exact H0 |].
  rewrite H0. ring.
Qed.

Lemma X4_no_pedal_never_speeds_up_witness :
  O3.generate_terrain (M := series_math) calm 501
    O3.terrain_length O3.terrain_step = Some course /\
  (2 <= length course)%nat /\
  K_UP down_keys = false /\ 0 <= 1 # 60 /\ 0 <= O3.vx rest_bike /\
  exists b',
    O3.update (M := series_math) course (1 # 60) down_keys rest_bike
      = Some b' /\
    0 <= O3.vx b' /\ O3.vx b' <= O3.vx rest_bike /\
    (O3.vx rest_bike == 0 -> O3.vx b' == 0 /\ O3.x b' == O3.x rest_bike).
Proof.
  assert (H1 : K_UP down_keys = false) by reflexivity.
  assert (H2 : 0 <= 1 # 60) by (vm_compute; discriminate).
  assert (H3 : 0 <= O3.vx rest_bike) by (vm_compute; discriminate).
  split; [exact course_generated |]. split; [exact course_length |].
  split; [exact H1 |]. split; [exact H2 |]. split; [exact H3 |].
  exact (X4_no_pedal_never_speeds_up series_math calm 501
           O3.terrain_length course (1 # 60) down_keys rest_bike
           course_generated course_length H1 H2 H3).
Defined.




(** X6.  The camera of [main] keeps [scroll_x] within
    [0, terrain_length - WIDTH] for every bike position; while the bike
    is between 300 and 4300 it is drawn 300 from the left edge, and the
    camera rests at 0 left of that range and at 4000 right of it. *)
Theorem X6_scroll_clamped (bike_x : Q) :
  (0 <= O3.scroll bike_x /\
   O3.scroll bike_x <= inject_Z (O3.terrain_length - O3.WIDTH)) /\
  (300 <= bike_x -> bike_x <= 4300 ->
   bike_x - O3.scroll bike_x == 300) /\
  (bike_x <= 300 -> O3.scroll bike_x == 0) /\
  (4300 <= bike_x -> O3.scroll bike_x == 4000).
Proof.
  unfold O3.scroll, O3.terrain_length, O3.WIDTH. cbv zeta.
  change (inject_Z (5000 - 1000)) with 4000.
  change (inject_Z 1000) with 1000.
  destruct (Py.ltb (bike_x - 1000 * 0.3) 0) eqn:E1.
  - apply ltb_true in E1.
    assert (E2 : Py.ltb 4000 0 = false) by reflexivity.
    rewrite E2. repeat split; try lra; intros; lra.
  - apply ltb_false in E1.
    destruct (Py.ltb 4000 (bike_x - 1000 * 0.3)) eqn:E2.
    + apply ltb_true in E2. repeat split; try lra; intros; lra.
    + apply ltb_false in E2. repeat split; try lra; intros; lra.
Qed.

(* ================================================================== *)
(** ** Further properties of o3.py: bonuses and the loop of main *)

(** With indices inside the terrain, [generate_bonus_points] returns one
    point per index, 50 above the sample it was drawn from. *)
Lemma generate_bonus_points_spec (terrain : list O3.sample)
  (indices : list Z) :
  Forall (fun i => (0 <= i < Z.of_nat (length terrain))%Z) indices ->
  exists bonus_points,
    O3.generate_bonus_points terrain indices = Some bonus_points /\
    length bonus_points = length indices /\
    forall bp, In bp bonus_points ->
      exists i s, In i indices /\
                  nth_error terrain (Z.to_nat i) = Some s /\
                  bp = (fst s, snd s - 50).
Proof.
  induction 1 as [| i rest Hi _ IH].
  - exists []. repeat split. intros bp [].
  - destruct IH as (bps & Hb & Hlen & Hall).
    destruct (nth_error_in_range terrain (Z.to_nat i)) as [[sx sy] Hs];
      [lia |].
    cbn [O3.generate_bonus_points].
    rewrite index_nonneg by lia. rewrite Hs. cbn [Py.bind].
    rewrite Hb. cbn [Py.bind].
    eexists. split; [reflexivity |]. split; [simpl; lia |].
    intros bp [<- | Hin].
    + exists i, (sx, sy). simpl. auto.
    + destruct (Hall bp Hin) as (j & s & Hj & Hs' & Hbp).
      exists j, s. simpl. auto.
Qed.

(** X7.  On a generated terrain with at least two samples and for indices
    inside the terrain, [generate_bonus_points] returns one bonus per
    index, each 50 above the ground at its abscissa.  A bike standing at
    a bonus's abscissa at its rest height [ground_y + suspension_offset]
    is 45 below the bonus and [check_bonus]'s test rejects it (the
    vertical tolerance is 30). *)
Theorem X7_bonus_out_of_reach_at_rest_height
  (M : PyMath) (uniform : nat -> Q) (fuel : nat) (len : Z)
  (terrain : list O3.sample) (indices : list Z) :
  O3.generate_terrain uniform fuel len O3.terrain_step = Some terrain ->
  (2 <= length terrain)%nat ->
  Forall (fun i => (0 <= i < Z.of_nat (length terrain))%Z) indices ->
  exists bonus_points,
    O3.generate_bonus_points terrain indices = Some bonus_points /\
    length bonus_points = length indices /\
    forall bp, In bp bonus_points ->
      exists ground_y,
        O3.get_ground_y terrain (inject_Z (fst bp)) = Some ground_y /\
        snd bp == ground_y - 50 /\
        forall b,
          O3.x b == inject_Z (fst bp) ->
          O3.y b == ground_y + O3.suspension_offset ->
          O3.near b bp = false.
Proof.
  intros Hgen Hlen Hidx. apply generate_terrain_spaced in Hgen.
  destruct (generate_bonus_points_spec terrain indices Hidx)
    as (bps & Hb & Hl & Hall).
  exists bps. split; [exact Hb |]. split; [exact Hl |].
  intros bp Hin. destruct (Hall bp Hin) as (i & s & _ & Hs & ->).
  destruct (ground_at_sample terrain _ s Hgen Hlen Hs) as (g & Hg & Hy).
  cbn [fst snd]. exists g. split; [exact Hg |].
  split; [rewrite Hy; reflexivity |].
  intros b Hbx Hby. unfold O3.near.
  assert (E : Py.ltb (Qabs (O3.y b - (snd s - 50))) 30 = false).
  { apply ltb_false.
    setoid_replace (O3.y b - (snd s - 50)) with 45
      by (rewrite Hby, <- Hy; unfold O3.suspension_offset; ring).
    discriminate. }
  rewrite E. apply andb_false_r.
Qed.

Lemma X7_bonus_out_of_reach_at_rest_height_witness :
  O3.generate_terrain (M := series_math) calm 501
    O3.terrain_length O3.terrain_step = Some course /\
  (2 <= length course)%nat /\
  Forall (fun i => (0 <= i < Z.of_nat (length course))%Z) [10%Z; 499%Z] /\
  exists bonus_points,
    O3.generate_bonus_points course [10%Z; 499%Z] = Some bonus_points /\
    length bonus_points = 2%nat.
Proof.
  assert (H : Forall (fun i => (0 <= i < Z.of_nat (length course))%Z)
                [10%Z; 499%Z]).
  { repeat constructor; vm_compute; congruence. }
  split; [exact course_generated |]. split; [exact course_length |].
  split; [exact H |].
  destruct (X7_bonus_out_of_reach_at_rest_height series_math calm 501
              O3.terrain_length course [10%Z; 499%Z] course_generated
              course_length H) as (bps & Hb & Hl & _).
  exists bps. split; [exact Hb | exact Hl].
Defined.

Lemma update_keeps_score {M : PyMath} (terrain : list O3.sample) dt keys
  b b' :
  O3.update terrain dt keys b = Some b' -> O3.score b' = O3.score b.
Proof.
  unfold O3.update. intro H.
  match type of H with
  | Py.bind ?g _ = _ => destruct g; [| discriminate]
  end.
  cbn [Py.bind] in H.
  match type of H with
  | Py.bind ?g _ = _ => destruct g; [| discriminate]
  end.
  cbn [Py.bind] in H. injection H as <-. reflexivity.
Qed.

(** X8.  On a generated terrain, any number of turns of the loop of
    [main] return (neither the physics nor [bonus_points.remove] raises);
    the bonus list only loses points, and the score has grown by exactly
    the number of points it lost. *)
Theorem X8_main_loop_score_counts_removed_bonuses
  (M : PyMath) (uniform : nat -> Q) (fuel : nat) (len : Z)
  (terrain : list O3.sample) (frames : list (Q * Keys))
  (b : O3.Bike) (bonus_points : list O3.sample) :
  O3.generate_terrain uniform fuel len O3.terrain_step = Some terrain ->
  (2 <= length terrain)%nat ->
  exists b' bonus_points',
    O3.play terrain frames (b, bonus_points) = Some (b', bonus_points') /\
    (forall bp, In bp bonus_points' -> In bp bonus_points) /\
    (length bonus_points' <= length bonus_points)%nat /\
    O3.score b'
    = (O3.score b + (Z.of_nat (length bonus_points)
                     - Z.of_nat (length bonus_points')))%Z.
Proof.
  intros Hgen Hlen. apply generate_terrain_spaced in Hgen.
  revert b bonus_points.
  induction frames as [| [dt keys] rest IH]; intros b pts.
  - exists b, pts. split; [reflexivity |]. repeat split; auto; lia.
  - cbn [O3.play]. unfold O3.frame. cbn [fst snd].
    destruct (update_total terrain Hgen Hlen dt keys b) as [b1 Hb1].
    rewrite Hb1. cbn [Py.bind].
    destruct (collect_spec b1 pts) as (b2 & Hc & _ & Hs).
    rewrite Hc. cbn [Py.bind fst].
    destruct (IH b2 (filter (fun p => negb (O3.near b1 p)) pts))
      as (b' & pts' & Hrun & Hsub & Hle & Hsc).
    exists b', pts'. split; [exact Hrun |].
    pose proof (filter_split_length (O3.near b1) pts) as Hsplit.
    split; [| split].
    + intros bp Hbp. apply Hsub in Hbp. apply filter_In in Hbp. tauto.
    + lia.
    + rewrite Hsc, Hs, (update_keeps_score terrain dt keys b b1 Hb1). lia.
Qed.

Lemma X8_main_loop_score_counts_removed_bonuses_witness :
  O3.generate_terrain (M := series_math) calm 501
    O3.terrain_length O3.terrain_step = Some course /\
  (2 <= length course)%nat /\
  exists b' bonus_points',
    O3.play (M := series_math) course
      [(1 # 60, up_keys); (1 # 60, no_keys)]
      (rest_bike, [(100%Z, 500 # 1); (4000%Z, 500 # 1)])
    = Some (b', bonus_points') /\
    (forall bp, In bp bonus_points' ->
                In bp [(100%Z, 500 # 1); (4000%Z, 500 # 1)]) /\
    (length bonus_points' <= 2)%nat /\
    O3.score b'
    = (O3.score rest_bike
       + (Z.of_nat 2 - Z.of_nat (length bonus_points')))%Z.
Proof.
  split; [exact course_generated |]. split; [exact course_length |].
  exact (X8_main_loop_score_counts_removed_bonuses series_math calm 501
           O3.terrain_length course
           [(1 # 60, up_keys); (1 # 60, no_keys)] rest_bike
           [(100%Z, 500 # 1); (4000%Z, 500 # 1)]
           course_generated course_length).
Defined.

(* ================================================================== *)
(** ** Further properties of o3.py: the ground polygon *)

Lemma scroll_bounds (bike_x : Q) :
  0 <= O3.scroll bike_x /\
  O3.scroll bike_x <= inject_Z (O3.terrain_length - O3.WIDTH).
Proof.
  unfold O3.scroll, O3.terrain_length, O3.WIDTH. cbv zeta.
  change (inject_Z (5000 - 1000)) with 4000.
  change (inject_Z 1000) with 1000.
  destruct (Py.ltb (bike_x - 1000 * 0.3) 0) eqn:E1.
  - assert (E2 : Py.ltb 4000 0 = false) by reflexivity.
    rewrite E2. split; lra.
  - apply ltb_false in E1.
    destruct (Py.ltb 4000 (bike_x - 1000 * 0.3)) eqn:E2.
    + split; lra.
    + apply ltb_false in E2. split; lra.
Qed.

Lemma visible_points_In (terrain : list O3.sample) (scroll_x : Q) px py :
  In (px, py) terrain ->
  -50 <= inject_Z px - scroll_x ->
  inject_Z px - scroll_x <= inject_Z O3.WIDTH + 50 ->
  In (inject_Z px - scroll_x, py) (O3.visible_points terrain scroll_x).
Proof.
  intros Hin Hlo Hhi.
  induction terrain as [| [qx qy] rest IH]; [destruct Hin |].
  cbn [O3.visible_points]. cbv zeta.
  destruct Hin as [E | Hin].
  - injection E as -> ->.
    apply leb_true in Hlo, Hhi. rewrite Hlo, Hhi. left. reflexivity.
  - destruct (_ && _); [right |]; apply IH; exact Hin.
Qed.

Lemma visible_points_bounds (terrain : list O3.sample) (scroll_x : Q) :
  Forall (fun p => -50 <= fst p /\ fst p <= inject_Z O3.WIDTH + 50)
    (O3.visible_points terrain scroll_x).
Proof.
  induction terrain as [| [qx qy] rest IH]; [constructor |].
  cbn [O3.visible_points]. cbv zeta.
  destruct (Py.leb (-50) (inject_Z qx - scroll_x)) eqn:E1;
    [| exact IH].
  destruct (Py.leb (inject_Z qx - scroll_x) (inject_Z O3.WIDTH + 50))
    eqn:E2; [| exact IH].
  cbn [andb]. constructor; [| exact IH].
  apply leb_true in E1, E2. simpl. split; assumption.
Qed.

Lemma last_In {A : Type} (l : list A) (d : A) : l <> [] -> In (last l d) l.
Proof.
  induction l as [| a [| b rest] IH]; intro H; [congruence | left; reflexivity |].
  right. apply IH. discriminate.
Qed.

(** X9.  For the course of the game ([generate_terrain(terrain_length,
    terrain_step)]) and the camera of [main] at any bike position,
    [draw_terrain] always has a polygon to draw: it has at least three
    vertices (the visible points, then two vertices on the bottom edge
    [y = HEIGHT]) and every vertex has its screen abscissa within
    [-50, WIDTH + 50]. *)
Theorem X9_ground_polygon_always_drawn
  (M : PyMath) (uniform : nat -> Q) (fuel : nat)
  (terrain : list O3.sample) (bike_x : Q) :
  O3.generate_terrain uniform fuel O3.terrain_length O3.terrain_step
  = Some terrain ->
  exists visible a b,
    O3.draw_terrain terrain (O3.scroll bike_x)
    = Some (visible ++ [(a, inject_Z O3.HEIGHT); (b, inject_Z O3.HEIGHT)])
    /\ visible = O3.visible_points terrain (O3.scroll bike_x)
    /\ visible <> []
    /\ Forall (fun p => -50 <= fst p /\ fst p <= inject_Z O3.WIDTH + 50)
         (visible ++ [(a, inject_Z O3.HEIGHT); (b, inject_Z O3.HEIGHT)]).
Proof.
  intro Hgen.
  pose proof (generate_terrain_spaced uniform fuel _ _ terrain Hgen) as Hs.
  assert (Hlen : length terrain = 500%nat).
  { unfold O3.generate_terrain in Hgen.
    apply generate_terrain_loop_count in Hgen; [| reflexivity].
    destruct Hgen as (tail & -> & Hl & _). cbn [app].
    change (Z.max 0 _) with 500%Z in Hl. lia. }
  destruct (scroll_bounds bike_x) as [Hs0 Hs1].
  set (sc := O3.scroll bike_x) in *.
  change (inject_Z (O3.terrain_length - O3.WIDTH)) with 4000 in Hs1.
  set (j := Qfloor (sc / 10)).
  assert (Hj0 : (0 <= j)%Z).
  { change 0%Z with (Qfloor 0). apply Qfloor_resp_le.
    apply Qle_shift_div_l; [reflexivity | lra]. }
  assert (Hj1 : (j <= 400)%Z).
  { change 400%Z with (Qfloor 400). apply Qfloor_resp_le.
    apply Qle_shift_div_r; [reflexivity | lra]. }
  assert (Hsc : sc == (sc / 10) * 10) by field.
  pose proof (Qfloor_le (sc / 10)) as Hf1.
  pose proof (Qlt_floor (sc / 10)) as Hf2. fold j in Hf1, Hf2.
  rewrite inject_Z_plus in Hf2. change (inject_Z 1) with 1 in Hf2.
  destruct (nth_error_in_range terrain (Z.to_nat j)) as [[px py] Hp];
    [lia |].
  pose proof (Hs _ _ Hp) as Hpx. cbn [fst] in Hpx.
  rewrite Z2Nat.id in Hpx by lia. unfold O3.terrain_step in Hpx.
  assert (Hin : In (inject_Z px - sc, py) (O3.visible_points terrain sc)).
  { apply visible_points_In; [eapply nth_error_In; exact Hp | |];
      rewrite Hpx, inject_Z_mult; change (inject_Z 10) with 10;
      change (inject_Z O3.WIDTH) with 1000; lra. }
  pose proof (visible_points_bounds terrain sc) as Hb.
  unfold O3.draw_terrain. cbv zeta.
  destruct (O3.visible_points terrain sc) as [| first rest] eqn:Ev;
    [destruct Hin |].
  exists (first :: rest), (fst (last (first :: rest) first)), (fst first).
  split; [reflexivity |]. split; [reflexivity |].
  split; [discriminate |].
  apply Forall_app. split; [exact Hb |].
  rewrite Forall_forall in Hb.
  constructor; [| constructor; [| constructor] ]; cbn [fst].
  - apply Hb. apply last_In. discriminate.
  - apply Hb. left. reflexivity.
Qed.

Lemma X9_ground_polygon_always_drawn_witness :
  O3.generate_terrain (M := series_math) calm 501 O3.terrain_length
    O3.terrain_step = Some course /\
  exists visible a b,
    O3.draw_terrain course (O3.scroll 100)
    = Some (visible ++ [(a, inject_Z O3.HEIGHT); (b, inject_Z O3.HEIGHT)])
    /\ visible = O3.visible_points course (O3.scroll 100)
    /\ visible <> []
    /\ Forall (fun p => -50 <= fst p /\ fst p <= inject_Z O3.WIDTH + 50)
         (visible ++ [(a, inject_Z O3.HEIGHT); (b, inject_Z O3.HEIGHT)]).
Proof.
  split; [exact course_generated |].
  exact (X9_ground_polygon_always_drawn series_math calm 501 course 100
           course_generated).
Defined.

(* ================================================================== *)
(** ** Further properties of Deepseek.py: the terrain *)

Lemma zigzag_in_range : in_range zigzag.
Proof.
  intros k a b H. unfold zigzag. destruct (Nat.even k); lia.
Qed.

Lemma in_band_Z (y : Z) :
  in_band (inject_Z y) <-> (200 <= y <= 500)%Z.
Proof.
  unfold in_band. change 200 with (inject_Z 200).
  rewrite <- !Zle_Qle. unfold Deepseek.HEIGHT. lia.
Qed.

(** A clamped step from a height inside the band is no longer than the
    draw. *)
Lemma clamp_step (y d : Z) :
  (200 <= y <= 500)%Z -> (-50 <= d <= 50)%Z ->
  (-50 <= Deepseek.clamp (y + d) - y <= 50)%Z.
Proof. unfold Deepseek.clamp, Deepseek.HEIGHT. lia. Qed.

Lemma gentle_snoc (pts : list Deepseek.point) (p : Deepseek.point) :
  gentle pts ->
  (forall last, nth_error pts (length pts - 1) = Some last ->
                (-50 <= snd p - snd last <= 50)%Z) ->
  gentle (pts ++ [p]).
Proof.
  intros Hg Hl i a b Ha Hb.
  destruct (Nat.lt_ge_cases (S i) (length pts)) as [Hi | Hi].
  - rewrite nth_error_app1 in Ha, Hb by lia. eapply Hg; eauto.
  - assert (Hlt : (S i < length (pts ++ [p]))%nat)
      by (apply nth_error_Some; congruence).
    rewrite length_app in Hlt. simpl in Hlt.
    assert (Ei : i = (length pts - 1)%nat) by lia.
    rewrite nth_error_app1 in Ha by lia.
    rewrite nth_error_app2 in Hb by lia.
    replace (S i - length pts)%nat with 0%nat in Hb by lia.
    injection Hb as <-. apply Hl. rewrite <- Ei. exact Ha.
Qed.

Lemma nth_error_snoc_last {A : Type} (l : list A) (a : A) :
  nth_error (l ++ [a]) (length (l ++ [a]) - 1) = Some a.
Proof.
  rewrite length_app. simpl.
  rewrite nth_error_app2 by lia.
  replace (length l + 1 - 1 - length l)%nat with 0%nat by lia.
  reflexivity.
Qed.

Section Deepseek_walk.
Variable randint : nat -> Z -> Z -> Z.
Hypothesis Hrange : in_range randint.

Lemma draw_small k : (-50 <= randint k (-50) 50 <= 50)%Z.
Proof. apply Hrange. lia. Qed.

Lemma generate_initial_loop_gentle (n : nat) :
  forall t y k,
    gentle (Deepseek.points t) ->
    (200 <= y <= 500)%Z ->
    (forall last,
        nth_error (Deepseek.points t) (length (Deepseek.points t) - 1)
        = Some last ->
        (-50 <= y - snd last <= 50)%Z) ->
    gentle (Deepseek.points
              (fst (Deepseek.generate_initial_loop randint n t y k))).
Proof.
  induction n as [| n IH]; intros t y k Hg Hy Hl; [exact Hg |].
  cbn [Deepseek.generate_initial_loop]. apply IH.
  - cbn [Deepseek.points]. apply gentle_snoc; trivial.
  - unfold Deepseek.clamp, Deepseek.HEIGHT. lia.
  - cbn [Deepseek.points]. intros last Hlast.
    rewrite nth_error_snoc_last in Hlast. injection Hlast as <-.
    cbn [snd]. apply clamp_step; [exact Hy | apply draw_small].
Qed.

Lemma update_terrain_gentle (fuel : nat) :
  forall bike_x t k t' k',
    terrain_inv (Deepseek.points t) ->
    gentle (Deepseek.points t) ->
    Deepseek.update_terrain randint fuel bike_x t k = Some (t', k') ->
    gentle (Deepseek.points t').
Proof.
  induction fuel as [| fuel IH]; intros bike_x t k t' k' Hinv Hg H;
    simpl in H; [discriminate |].
  destruct (Py.index (Deepseek.points t) (-1)) as [[last_x last_y] |] eqn:El;
    [| discriminate].
  cbn [Py.bind fst] in H.
  destruct (Py.ltb _ _).
  - assert (Hne : Deepseek.points t <> []).
    { intro E. rewrite E in El. discriminate. }
    rewrite index_last in El by trivial.
    assert (Hband : (200 <= last_y <= 500)%Z).
    { destruct Hinv as [_ Hb]. rewrite Forall_forall in Hb.
      pose proof (Hb _ (nth_error_In _ _ El)) as Hy.
      cbn [snd] in Hy. apply (proj1 (in_band_Z last_y)). exact Hy. }
    refine (IH _ _ _ _ _ _ _ H); cbn [Deepseek.points].
    + apply terrain_inv_snoc; trivial; [| apply clamp_in_band].
      destruct Hinv as [Hs _]. apply Hs in El. simpl in El. rewrite El.
      assert (1 <= length (Deepseek.points t))%nat
        by (destruct (Deepseek.points t); [congruence | simpl; lia]).
      unfold Deepseek.TERRAIN_SEGMENT_LENGTH. lia.
    + apply gentle_snoc; trivial. intros last Hlast.
      rewrite El in Hlast. injection Hlast as <-. cbn [snd].
      apply clamp_step; [exact Hband | apply draw_small].
  - injection H as <- <-. exact Hg.
Qed.

Lemma generated_gentle t :
  deepseek_generated randint t -> gentle (Deepseek.points t).
Proof.
  induction 1 as [k | fuel bike_x t k t' k' Hgen IH H].
  - unfold Deepseek.Terrain_init, Deepseek.generate_initial_terrain.
    apply generate_initial_loop_gentle.
    + intros [| i] p q Hp; discriminate.
    + change (Deepseek.HEIGHT / 2)%Z with 300%Z. lia.
    + intros last Hl. discriminate.
  - eapply update_terrain_gentle; eauto.
    apply generated_inv in Hgen. tauto.
Qed.

End Deepseek_walk.

(** X10.  When every draw of [random.randint(-50, 50)] is within its
    bounds, neighbouring points of every terrain the game can hold are 50
    apart horizontally and at most 50 apart in height: no segment is
    steeper than 45 degrees. *)
Theorem X10_terrain_segments_at_most_45_degrees
  (randint : nat -> Z -> Z -> Z) (t : Deepseek.Terrain) (i : nat)
  (p q : Deepseek.point) :
  in_range randint ->
  deepseek_generated randint t ->
  nth_error (Deepseek.points t) i = Some p ->
  nth_error (Deepseek.points t) (S i) = Some q ->
  (fst q - fst p = Deepseek.TERRAIN_SEGMENT_LENGTH)%Z /\
  (-50 <= snd q - snd p <= 50)%Z.
Proof.
  intros Hr Hgen Hp Hq. split.
  - destruct (generated_inv randint t Hgen) as ([Hs _] & _).
    rewrite (Hs _ _ Hp), (Hs _ _ Hq). lia.
  - exact (generated_gentle randint Hr t Hgen i p q Hp Hq).
Qed.

Lemma X10_terrain_segments_at_most_45_degrees_witness :
  in_range zigzag /\
  deepseek_generated zigzag (fst (Deepseek.Terrain_init zigzag 0)) /\
  nth_error (Deepseek.points (fst (Deepseek.Terrain_init zigzag 0))) 3
  = Some (150, 250)%Z /\
  nth_error (Deepseek.points (fst (Deepseek.Terrain_init zigzag 0))) 4
  = Some (200, 300)%Z /\
  (fst (200, 300)%Z - fst (150, 250)%Z
   = Deepseek.TERRAIN_SEGMENT_LENGTH)%Z /\
  (-50 <= snd (200, 300)%Z - snd (150, 250)%Z <= 50)%Z.
Proof.
  assert (H3 : nth_error
                 (Deepseek.points (fst (Deepseek.Terrain_init zigzag 0))) 3
               = Some (150, 250)%Z) by (vm_compute; reflexivity).
  assert (H4 : nth_error
                 (Deepseek.points (fst (Deepseek.Terrain_init zigzag 0))) 4
               = Some (200, 300)%Z) by (vm_compute; reflexivity).
  split; [exact zigzag_in_range |].
  split; [exact (generated_init zigzag 0) |].
  split; [exact H3 |]. split; [exact H4 |].
  exact (X10_terrain_segments_at_most_45_degrees zigzag _ 3 _ _
           zigzag_in_range (generated_init zigzag 0) H3 H4).
Defined.

Lemma update_terrain_post (randint : nat -> Z -> Z -> Z) (fuel : nat) :
  forall bike_x t k t' k',
    Deepseek.update_terrain randint fuel bike_x t k = Some (t', k') ->
    exists tail last,
      Deepseek.points t' = Deepseek.points t ++ tail /\
      k' = (k + length tail)%nat /\
      Py.index (Deepseek.points t') (-1) = Some last /\
      bike_x + inject_Z Deepseek.WIDTH <= inject_Z (fst last) /\
      (tail <> [] ->
       inject_Z (fst last)
       < bike_x + inject_Z Deepseek.WIDTH
         + inject_Z Deepseek.TERRAIN_SEGMENT_LENGTH) /\
      Deepseek.current_x t' = Deepseek.current_x t.
Proof.
  induction fuel as [| fuel IH]; intros bike_x t k t' k' H;
    simpl in H; [discriminate |].
  destruct (Py.index (Deepseek.points t) (-1)) as [[last_x last_y] |] eqn:El;
    [| discriminate].
  cbn [Py.bind fst] in H.
  destruct (Py.ltb _ _) eqn:E.
  - apply ltb_true in E. apply IH in H.
    destruct H as (tail & last & Hpts & Hk & Hl & Hcov & Hmin & Hcx).
    cbn [Deepseek.points Deepseek.current_x] in *.
    rewrite <- app_assoc in Hpts. cbn [app] in Hpts.
    eexists (_ :: tail), last.
    split; [exact Hpts |]. split; [simpl; lia |].
    split; [exact Hl |]. split; [exact Hcov |]. split; [| exact Hcx].
    intros _. destruct tail as [| a tail].
    + rewrite Hpts in Hl.
      rewrite index_last in Hl
        by (intro E'; apply app_eq_nil in E'; destruct E'; discriminate).
      rewrite nth_error_snoc_last in Hl. injection Hl as <-. cbn [fst].
      rewrite inject_Z_plus. lra.
    + apply Hmin. discriminate.
  - apply ltb_false in E. injection H as <- <-.
    exists [], (last_x, last_y). rewrite app_nil_r. cbn [fst length].
    split; [reflexivity |]. split; [lia |]. split; [exact El |].
    split; [exact E |]. split; [congruence | reflexivity].
Qed.

(** With enough fuel the extension loop returns on every terrain the
    game can hold. *)
Lemma update_terrain_returns (randint : nat -> Z -> Z -> Z)
  (t : Deepseek.Terrain) (bike_x : Q) (k : nat) :
  deepseek_generated randint t ->
  exists fuel t' k',
    Deepseek.update_terrain randint fuel bike_x t k = Some (t', k').
Proof.
  intro H.
  destruct (generated_inv randint t H) as (Hinv & Hlen & _).
  assert (Hne : Deepseek.points t <> []).
  { intro E. rewrite E in Hlen. simpl in Hlen. lia. }
  destruct (nth_error_in_range (Deepseek.points t)
              (length (Deepseek.points t) - 1)) as [last Hl]; [lia |].
  set (q := bike_x + inject_Z Deepseek.WIDTH - inject_Z (fst last)).
  destruct (update_terrain_stops randint (Z.to_nat (Qceiling q))
              bike_x t k Hinv Hne) as (t' & k' & Hrun).
  { intros last' Hl'. rewrite index_last in Hl' by trivial.
    rewrite Hl in Hl'. injection Hl' as <-. fold q.
    apply Qle_trans with (inject_Z (Qceiling q)); [apply Qle_ceiling |].
    rewrite <- Zle_Qle. lia. }
  eauto.
Qed.

(** X11.  On every terrain the game can hold, [update_terrain(bike_x)]
    returns when given enough fuel.  Whenever it returns, the terrain it
    found is a prefix of the new one, one draw was consumed per point
    added, the last point is at or beyond [bike_x + WIDTH], and no point
    was added beyond need: if any was, the last point is less than one
    segment past [bike_x + WIDTH].  [current_x] is left as it was. *)
Theorem X11_update_terrain_covers_the_view
  (randint : nat -> Z -> Z -> Z) (bike_x : Q) (t : Deepseek.Terrain)
  (k : nat) :
  deepseek_generated randint t ->
  (exists fuel t' k',
      Deepseek.update_terrain randint fuel bike_x t k = Some (t', k')) /\
  (forall fuel t' k',
      Deepseek.update_terrain randint fuel bike_x t k = Some (t', k') ->
      exists tail last,
        Deepseek.points t' = Deepseek.points t ++ tail /\
        k' = (k + length tail)%nat /\
        Py.index (Deepseek.points t') (-1) = Some last /\
        bike_x + inject_Z Deepseek.WIDTH <= inject_Z (fst last) /\
        (tail <> [] ->
         inject_Z (fst last)
         < bike_x + inject_Z Deepseek.WIDTH
           + inject_Z Deepseek.TERRAIN_SEGMENT_LENGTH) /\
        Deepseek.current_x t' = Deepseek.current_x t).
Proof.
  intro Hgen. split.
  - apply update_terrain_returns. exact Hgen.
  - intros fuel t' k'. apply update_terrain_post.
Qed.

Lemma X11_update_terrain_covers_the_view_witness :
  deepseek_generated zigzag (fst (Deepseek.Terrain_init zigzag 0)) /\
  exists t' k' tail last,
    Deepseek.update_terrain zigzag 5 100
      (fst (Deepseek.Terrain_init zigzag 0)) 26 = Some (t', k') /\
    Deepseek.points t'
    = Deepseek.points (fst (Deepseek.Terrain_init zigzag 0)) ++ tail /\
    k' = (26 + length tail)%nat /\
    Py.index (Deepseek.points t') (-1) = Some last /\
    100 + inject_Z Deepseek.WIDTH <= inject_Z (fst last).
Proof.
  split; [exact (generated_init zigzag 0) |].
  assert (Hex : exists r,
             Deepseek.update_terrain zigzag 5 100
               (fst (Deepseek.Terrain_init zigzag 0)) 26 = Some r).
  { eexists. vm_compute. reflexivity. }
  destruct Hex as ([t' k'] & Hr).
  destruct (proj2 (X11_update_terrain_covers_the_view zigzag 100 _ 26
                     (generated_init zigzag 0)) 5%nat t' k' Hr)
    as (tail & last & H1 & H2 & H3 & H4 & _).
  exists t', k', tail, last. auto.
Defined.

(* ================================================================== *)
(** ** Further properties of Deepseek.py: the height under the bike *)

Lemma find_segment_None_right (bx : Q) :
  forall pts a,
    Deepseek.find_segment (a :: pts) bx = None ->
    inject_Z (fst a) <= bx ->
    Forall (fun p => inject_Z (fst p) < bx) pts.
Proof.
  induction pts as [| c rest IH]; intros a H Ha; [constructor |].
  cbn [Deepseek.find_segment] in H.
  destruct (Py.leb (inject_Z (fst a)) bx) eqn:E1;
    [| apply Qle_bool_iff in Ha; unfold Py.leb in E1; congruence].
  destruct (Py.leb bx (inject_Z (fst c))) eqn:E2; [discriminate |].
  cbn [andb] in H.
  assert (Hc : inject_Z (fst c) < bx).
  { apply Qnot_le_lt. intro L. apply leb_true in L. congruence. }
  constructor; [exact Hc |]. apply (IH c H). lra.
Qed.

(** Between the first and the last point the scan finds the segment that
    brackets the bike. *)
Lemma find_segment_inside (pts : list Deepseek.point) first last (bx : Q) :
  (2 <= length pts)%nat ->
  nth_error pts 0 = Some first ->
  nth_error pts (length pts - 1) = Some last ->
  inject_Z (fst first) <= bx -> bx <= inject_Z (fst last) ->
  exists i p q,
    Deepseek.get_current_segment pts bx = Some (p, q) /\
    nth_error pts i = Some p /\ nth_error pts (S i) = Some q /\
    inject_Z (fst p) <= bx /\ bx <= inject_Z (fst q).
Proof.
  intros Hlen Hf Hl Hlo Hhi.
  destruct (Deepseek.find_segment pts bx) as [[p q] |] eqn:E.
  - destruct (find_segment_Some pts bx p q E) as (i & H1 & H2 & H3 & H4).
    exists i, p, q. unfold Deepseek.get_current_segment. rewrite E. auto.
  - exfalso. destruct pts as [| a rest]; [discriminate |].
    injection Hf as ->.
    pose proof (find_segment_None_right bx rest first E Hlo) as Hall.
    rewrite Forall_forall in Hall.
    assert (Hin : In last rest).
    { replace (length (first :: rest) - 1)%nat with (length rest) in Hl
        by (simpl; lia).
      simpl in Hlen.
      destruct (length rest) as [| n] eqn:En; [lia |].
      cbn [nth_error] in Hl. eapply nth_error_In. exact Hl. }
    apply Hall in Hin. lra.
Qed.

(** X13.  On every terrain the game can hold, the height used for a bike
    standing exactly over a terrain point is the height of that point:
    the segment lookup and the interpolation are exact at the points. *)
Theorem X13_deepseek_height_exact_at_points
  (randint : nat -> Z -> Z -> Z) (t : Deepseek.Terrain) (i : nat)
  (p : Deepseek.point) (bike_x : Q) :
  deepseek_generated randint t ->
  nth_error (Deepseek.points t) i = Some p ->
  bike_x == inject_Z (fst p) ->
  exists segment terrain_height,
    Deepseek.get_current_segment (Deepseek.points t) bike_x
      = Some segment /\
    Deepseek.get_terrain_height segment bike_x = Some terrain_height /\
    terrain_height == inject_Z (snd p).
Proof.
  intros Hgen Hp Hx.
  destruct (generated_inv randint t Hgen) as ([Hs _] & Hlen & _).
  set (pts := Deepseek.points t) in *.
  destruct (nth_error_in_range pts 0) as [first Hf]; [lia |].
  destruct (nth_error_in_range pts (length pts - 1)) as [last Hl];
    [lia |].
  pose proof (Hs _ _ Hp) as Epx. pose proof (Hs _ _ Hf) as Efx.
  pose proof (Hs _ _ Hl) as Elx.
  assert (Hil : (i < length pts)%nat)
    by (apply nth_error_Some; congruence).
  unfold Deepseek.TERRAIN_SEGMENT_LENGTH in *.
  destruct (find_segment_inside pts first last bike_x)
    as (j & a & b & Hseg & Ha & Hb & Hlo & Hhi); trivial; try lia.
  { rewrite Hx, <- Zle_Qle. lia. }
  { rewrite Hx, <- Zle_Qle. lia. }
  pose proof (get_terrain_height_neighbours pts j a b bike_x Hs Ha Hb)
    as Hh. cbv zeta in Hh.
  exists (a, b). eexists. split; [exact Hseg |]. split; [exact Hh |].
  pose proof (Hs _ _ Ha) as Eax. pose proof (Hs _ _ Hb) as Ebx.
  rewrite Hx in Hlo, Hhi. rewrite <- Zle_Qle in Hlo, Hhi.
  unfold Deepseek.TERRAIN_SEGMENT_LENGTH in *.
  assert (Hcase : i = j \/ i = S j) by lia.
  destruct Hcase as [-> | ->].
  - rewrite Hp in Ha. injection Ha as <-.
    setoid_replace ((bike_x - inject_Z (fst p)) / inject_Z 50) with 0
      by (rewrite Hx; field).
    ring.
  - rewrite Hp in Hb. injection Hb as <-.
    setoid_replace ((bike_x - inject_Z (fst a)) / inject_Z 50) with 1.
    + ring.
    + rewrite Hx, Epx, Eax, Nat2Z.inj_succ. unfold Z.succ.
      rewrite !inject_Z_mult, inject_Z_plus.
      change (inject_Z 50) with 50. change (inject_Z 1) with 1. field.
Qed.

Lemma X13_deepseek_height_exact_at_points_witness :
  deepseek_generated zigzag (fst (Deepseek.Terrain_init zigzag 0)) /\
  nth_error (Deepseek.points (fst (Deepseek.Terrain_init zigzag 0))) 25
  = Some (1250, 250)%Z /\
  1250 == inject_Z (fst (1250, 250)%Z) /\
  exists segment terrain_height,
    Deepseek.get_current_segment
      (Deepseek.points (fst (Deepseek.Terrain_init zigzag 0))) 1250
      = Some segment /\
    Deepseek.get_terrain_height segment 1250 = Some terrain_height /\
    terrain_height == inject_Z (snd (1250, 250)%Z).
Proof.
  assert (H1 : nth_error
                 (Deepseek.points (fst (Deepseek.Terrain_init zigzag 0))) 25
               = Some (1250, 250)%Z) by (vm_compute; reflexivity).
  assert (H2 : 1250 == inject_Z (fst (1250, 250)%Z)) by reflexivity.
  split; [exact (generated_init zigzag 0) |].
  split; [exact H1 |]. split; [exact H2 |].
  exact (X13_deepseek_height_exact_at_points zigzag _ 25 _ 1250
           (generated_init zigzag 0) H1 H2).
Defined.

(** Inside the terrain the bike is left 20 above a point of the segment
    that brackets it (the bounds are those of exact arithmetic). *)
Lemma deepseek_update_inside
  (randint : nat -> Z -> Z -> Z) (t : Deepseek.Terrain) (dt : Q)
  (b : Deepseek.Bike) (last : Deepseek.point) :
  deepseek_generated randint t ->
  Py.index (Deepseek.points t) (-1) = Some last ->
  0 <= Deepseek.x b + Deepseek.speed b * Deepseek.FRICTION ->
  Deepseek.x b + Deepseek.speed b * Deepseek.FRICTION
  <= inject_Z (fst last) ->
  exists b' p q,
    Deepseek.update (Deepseek.points t) dt b = Some b' /\
    Deepseek.get_current_segment (Deepseek.points t) (Deepseek.x b')
      = Some (p, q) /\
    inject_Z (fst p) <= Deepseek.x b' /\
    Deepseek.x b' <= inject_Z (fst q) /\
    Qmin (inject_Z (snd p)) (inject_Z (snd q)) - 20 <= Deepseek.y b' /\
    Deepseek.y b' <= Qmax (inject_Z (snd p)) (inject_Z (snd q)) - 20 /\
    180 <= Deepseek.y b' /\ Deepseek.y b' <= 480.
Proof.
  intros Hgen Hl Hlo Hhi.
  destruct (generated_inv randint t Hgen) as ([Hs Hband] & Hlen & _).
  set (pts := Deepseek.points t) in *.
  assert (Hne : pts <> []) by (intro E; rewrite E in Hlen; simpl in Hlen; lia).
  rewrite index_last in Hl by trivial.
  destruct (nth_error_in_range pts 0) as [first Hf]; [lia |].
  pose proof (Hs _ _ Hf) as Efx. simpl in Efx.
  set (x' := Deepseek.x b + Deepseek.speed b * Deepseek.FRICTION) in *.
  destruct (find_segment_inside pts first last x')
    as (j & p & q & Hseg & Hp & Hq & Hb1 & Hb2); trivial; try lia.
  { rewrite Efx. exact Hlo. }
  pose proof (get_terrain_height_neighbours pts j p q x' Hs Hp Hq) as Hh.
  cbv zeta in Hh.
  unfold Deepseek.update. fold x'. rewrite Hseg. cbn [Py.bind].
  rewrite Hh. cbn [Py.bind].
  eexists _, p, q. cbn [Deepseek.x Deepseek.y].
  split; [reflexivity |]. split; [exact Hseg |].
  split; [exact Hb1 |]. split; [exact Hb2 |].
  pose proof (Hs _ _ Hp) as Epx. pose proof (Hs _ _ Hq) as Eqx.
  assert (Hw : inject_Z (fst q) == inject_Z (fst p) + 50).
  { rewrite Epx, Eqx, Nat2Z.inj_succ. unfold Z.succ.
    unfold Deepseek.TERRAIN_SEGMENT_LENGTH.
    rewrite !inject_Z_mult, inject_Z_plus.
    change (inject_Z 50) with 50. change (inject_Z 1) with 1. ring. }
  set (tt := (x' - inject_Z (fst p))
             / inject_Z Deepseek.TERRAIN_SEGMENT_LENGTH).
  assert (Ht0 : 0 <= tt)
    by (apply Qle_shift_div_l; [reflexivity | lra]).
  assert (Ht1 : tt <= 1).
  { apply Qle_shift_div_r; [reflexivity |].
    unfold Deepseek.TERRAIN_SEGMENT_LENGTH.
    change (inject_Z 50) with 50. lra. }
  rewrite Forall_forall in Hband.
  pose proof (Hband _ (nth_error_In _ _ Hp)) as [Bp Bp'].
  pose proof (Hband _ (nth_error_In _ _ Hq)) as [Bq Bq'].
  change (inject_Z (Deepseek.HEIGHT - 100)) with 500 in Bp', Bq'.
  destruct (interpolation_between (inject_Z (snd p)) (inject_Z (snd q)) tt
              (Qmin (inject_Z (snd p)) (inject_Z (snd q)))
              (Qmax (inject_Z (snd p)) (inject_Z (snd q))))
    as [I1 I2]; trivial;
    try apply Q.le_min_l; try apply Q.le_min_r;
    try apply Q.le_max_l; try apply Q.le_max_r.
  destruct (interpolation_between (inject_Z (snd p)) (inject_Z (snd q)) tt
              200 500) as [J1 J2]; trivial.
  repeat split; cbn [Deepseek.y]; lra.
Qed.

(** X14.  On every terrain the game can hold, when the bike's new
    abscissa [x + speed * FRICTION] lies between the first and the last
    point, [Bike.update] returns, the segment it used brackets the bike,
    and the bike is left 20 above a height between those of the
    segment's ends, hence between 180 and 480.  The bounds on [y] are
    stated with a margin of [1/1000]: the interpolation
    [y1 * (1 - t) + y2 * t] is exact here, while in [float] arithmetic
    it can leave the interval of its two ends by a rounding error (on a
    flat segment at height 500 it gives [500.00000000000006]). *)
Theorem X14_deepseek_bike_rides_inside_the_band
  (randint : nat -> Z -> Z -> Z) (t : Deepseek.Terrain) (dt : Q)
  (b : Deepseek.Bike) (last : Deepseek.point) :
  deepseek_generated randint t ->
  Py.index (Deepseek.points t) (-1) = Some last ->
  0 <= Deepseek.x b + Deepseek.speed b * Deepseek.FRICTION ->
  Deepseek.x b + Deepseek.speed b * Deepseek.FRICTION
  <= inject_Z (fst last) ->
  exists b' p q,
    Deepseek.update (Deepseek.points t) dt b = Some b' /\
    Deepseek.get_current_segment (Deepseek.points t) (Deepseek.x b')
      = Some (p, q) /\
    inject_Z (fst p) <= Deepseek.x b' /\
    Deepseek.x b' <= inject_Z (fst q) /\
    Qmin (inject_Z (snd p)) (inject_Z (snd q)) - 20 - (1 # 1000)
    <= Deepseek.y b' /\
    Deepseek.y b'
    <= Qmax (inject_Z (snd p)) (inject_Z (snd q)) - 20 + (1 # 1000) /\
    180 - (1 # 1000) <= Deepseek.y b' /\
    Deepseek.y b' <= 480 + (1 # 1000).
Proof.
  intros Hgen Hl Hlo Hhi.
  destruct (deepseek_update_inside randint t dt b last Hgen Hl Hlo Hhi)
    as (b' & p & q & Hu & Hseg & Hp & Hq & Hmin & Hmax & Hy1 & Hy2).
  exists b', p, q.
  split; [exact Hu |]. split; [exact Hseg |].
  split; [exact Hp |]. split; [exact Hq |].
  repeat split; lra.
Qed.

Lemma X14_deepseek_bike_rides_inside_the_band_witness :
  deepseek_generated zigzag (fst (Deepseek.Terrain_init zigzag 0)) /\
  Py.index (Deepseek.points (fst (Deepseek.Terrain_init zigzag 0))) (-1)
  = Some (1250, 250)%Z /\
  0 <= Deepseek.x (Deepseek.Bike_init 100 300)
       + Deepseek.speed (Deepseek.Bike_init 100 300) * Deepseek.FRICTION /\
  Deepseek.x (Deepseek.Bike_init 100 300)
  + Deepseek.speed (Deepseek.Bike_init 100 300) * Deepseek.FRICTION
  <= inject_Z (fst (1250, 250)%Z) /\
  exists b',
    Deepseek.update (Deepseek.points (fst (Deepseek.Terrain_init zigzag 0)))
      (1 # 60) (Deepseek.Bike_init 100 300) = Some b' /\
    180 - (1 # 1000) <= Deepseek.y b' /\
    Deepseek.y b' <= 480 + (1 # 1000).
Proof.
  assert (H1 : Py.index
                 (Deepseek.points (fst (Deepseek.Terrain_init zigzag 0)))
                 (-1) = Some (1250, 250)%Z) by (vm_compute; reflexivity).
  assert (H2 : 0 <= Deepseek.x (Deepseek.Bike_init 100 300)
                    + Deepseek.speed (Deepseek.Bike_init 100 300)
                      * Deepseek.FRICTION) by (vm_compute; discriminate).
  assert (H3 : Deepseek.x (Deepseek.Bike_init 100 300)
               + Deepseek.speed (Deepseek.Bike_init 100 300)
                 * Deepseek.FRICTION
               <= inject_Z (fst (1250, 250)%Z))
    by (vm_compute; discriminate).
  split; [exact (generated_init zigzag 0) |].
  split; [exact H1 |]. split; [exact H2 |]. split; [exact H3 |].
  destruct (X14_deepseek_bike_rides_inside_the_band zigzag _ (1 # 60)
              (Deepseek.Bike_init 100 300) _ (generated_init zigzag 0)
              H1 H2 H3)
    as (b' & p & q & Hu & _ & _ & _ & _ & _ & Hy1 & Hy2).
  exists b'. auto.
Defined.

(* ================================================================== *)
(** ** Further properties of Deepseek.py: the loop of run *)

Lemma handle_input_fields (keys : Keys) (b : Deepseek.Bike) :
  let b1 := Deepseek.handle_input keys b in
  Deepseek.x b1 = Deepseek.x b /\ Deepseek.y b1 = Deepseek.y b /\
  Deepseek.score b1 = Deepseek.score b /\
  Deepseek.speed b - Deepseek.BIKE_ACCEL <= Deepseek.speed b1 /\
  Deepseek.speed b1 <= Deepseek.speed b + Deepseek.BIKE_ACCEL.
Proof.
  cbn zeta. unfold Deepseek.handle_input, Deepseek.BIKE_ACCEL.
  cbn [Deepseek.x Deepseek.y Deepseek.score Deepseek.speed].
  repeat split; destruct (K_UP keys), (K_DOWN keys); lra.
Qed.

(** The three steps of a turn that returns. *)
Lemma frame_Some (randint : nat -> Z -> Z -> Z) fuel dt keys g g' :
  Deepseek.frame randint fuel dt keys g = Some g' ->
  exists t k b2,
    Deepseek.update_terrain randint fuel
      (Deepseek.x (Deepseek.handle_input keys (Deepseek.bike g)))
      (Deepseek.terrain g) (Deepseek.rng g) = Some (t, k) /\
    Deepseek.update (Deepseek.points t) dt
      (Deepseek.handle_input keys (Deepseek.bike g)) = Some b2 /\
    g' = Deepseek.check_bonus_collection
           {| Deepseek.terrain := t; Deepseek.bike := b2;
              Deepseek.camera_x :=
                Deepseek.update_camera (Deepseek.x b2)
                  (Deepseek.camera_x g);
              Deepseek.bonuses := Deepseek.bonuses g;
              Deepseek.rng := k |}.
Proof.
  unfold Deepseek.frame. cbv zeta. intro H.
  destruct (Deepseek.update_terrain randint fuel _ _ _) as [[t k] |] eqn:Et;
    [| discriminate].
  cbn [Py.bind] in H.
  destruct (Deepseek.update (Deepseek.points t) dt _) as [b2 |] eqn:Eu;
    [| discriminate].
  cbn [Py.bind] in H. injection H as <-.
  exists t, k, b2. auto.
Qed.

(** [check_bonus_collection] touches only the flags and the score. *)
Lemma check_bonus_collection_fields (g : Deepseek.Game) :
  let g' := Deepseek.check_bonus_collection g in
  Deepseek.terrain g' = Deepseek.terrain g /\
  Deepseek.camera_x g' = Deepseek.camera_x g /\
  Deepseek.rng g' = Deepseek.rng g /\
  Deepseek.x (Deepseek.bike g') = Deepseek.x (Deepseek.bike g) /\
  Deepseek.y (Deepseek.bike g') = Deepseek.y (Deepseek.bike g) /\
  Deepseek.speed (Deepseek.bike g') = Deepseek.speed (Deepseek.bike g) /\
  Deepseek.bonuses g'
  = map (deepseek_mark (Deepseek.x (Deepseek.bike g))) (Deepseek.bonuses g).
Proof.
  cbn zeta. unfold Deepseek.check_bonus_collection.
  pose proof (check_bonus_loop_marks (Deepseek.x (Deepseek.bike g))
                (Deepseek.bonuses g) (Deepseek.score (Deepseek.bike g)))
    as H.
  destruct (Deepseek.check_bonus_loop _ _ _) as [bs sc].
  cbn [fst] in H. subst bs. repeat split.
Qed.

Lemma generate_bonuses_loop_length (randint : nat -> Z -> Z -> Z) (n : nat) :
  forall acc k,
    length (fst (Deepseek.generate_bonuses_loop randint n acc k))
    = (length acc + n)%nat.
Proof.
  induction n as [| n IH]; intros acc k; [simpl; lia |].
  cbn [Deepseek.generate_bonuses_loop]. rewrite IH, length_app. simpl. lia.
Qed.

Lemma collected_count_bounds (bs : list Deepseek.Bonus) :
  (0 <= collected_count bs <= Z.of_nat (length bs))%Z.
Proof.
  unfold collected_count.
  pose proof (filter_length_le Deepseek.collected bs). lia.
Qed.

Section Deepseek_loop.
Variable randint : nat -> Z -> Z -> Z.

Lemma Game_init_fields :
  Deepseek.terrain (Deepseek.Game_init randint)
  = fst (Deepseek.Terrain_init randint 0) /\
  Deepseek.bike (Deepseek.Game_init randint)
  = Deepseek.Bike_init 100 (inject_Z (Deepseek.HEIGHT / 2)) /\
  length (Deepseek.bonuses (Deepseek.Game_init randint)) = 20%nat.
Proof.
  unfold Deepseek.Game_init.
  destruct (Deepseek.Terrain_init randint 0) as [t k1].
  pose proof (generate_bonuses_loop_length randint 20 [] k1) as Hbl.
  unfold Deepseek.generate_bonuses.
  destruct (Deepseek.generate_bonuses_loop randint 20 [] k1) as [bs k2].
  repeat split. exact Hbl.
Qed.

Lemma Game_init_inv : game_inv randint (Deepseek.Game_init randint).
Proof.
  destruct (Game_init_fresh randint) as [Hsc Hcount].
  destruct Game_init_fields as (Ht & Hb & Hbl).
  destruct (Terrain_init_inv randint 0) as ([Hs _] & Hlen & _).
  cbn zeta in Hs, Hlen.
  unfold game_inv. rewrite Hcount, Ht, Hbl.
  split; [apply generated_init |].
  rewrite Hb in Hsc |- *.
  cbn [Deepseek.Bike_init Deepseek.x Deepseek.y Deepseek.speed
       Deepseek.score].
  split; [split; discriminate |].
  split; [reflexivity |]. split; [reflexivity |].
  generalize dependent (Deepseek.points (fst (Deepseek.Terrain_init randint 0))).
  intros pts Hs Hlen. split.
  - destruct (nth_error_in_range pts 25) as [last Hl]; [lia |].
    assert (Hne : pts <> []) by (intro E; subst pts; discriminate).
    exists last. split.
    + rewrite (index_last pts Hne), Hlen. exact Hl.
    + rewrite (Hs _ _ Hl). discriminate.
  - intros _. split; discriminate.
Qed.

Lemma frame_inv fuel dt keys g g' :
  game_inv randint g ->
  Deepseek.frame randint fuel dt keys g = Some g' ->
  game_inv randint g' /\
  Qabs (Deepseek.x (Deepseek.bike g') - Deepseek.x (Deepseek.bike g))
  <= 36 # 5.
Proof.
  intros (Hgen & [Hs1 Hs2] & Hbl & Hsc & _ & _) H.
  destruct (frame_Some randint fuel dt keys g g' H)
    as (t & k & b2 & Ht & Hu & ->).
  pose proof (handle_input_fields keys (Deepseek.bike g)) as Hh.
  cbn zeta in Hh. destruct Hh as (Hx1 & _ & Hsc1 & Hv1 & Hv2).
  set (b1 := Deepseek.handle_input keys (Deepseek.bike g)) in *.
  unfold Deepseek.BIKE_ACCEL in *.
  assert (Hgen' : deepseek_generated randint t)
    by (eapply generated_extend; eauto).
  destruct (update_terrain_post randint fuel _ _ _ _ _ Ht)
    as (tail & last & _ & _ & Hl & Hcov & _).
  destruct (generated_inv randint t Hgen') as ([Hsp _] & Hlen & _).
  destruct (deepseek_update_total (Deepseek.points t) dt b1 Hsp)
    as (b2' & seg & h & Hu' & Hx2 & Hv & Hsc2 & _); [lia |].
  rewrite Hu in Hu'. injection Hu' as <-.
  unfold Deepseek.FRICTION in *.
  change (inject_Z Deepseek.WIDTH) with 1200 in Hcov.
  pose proof (check_bonus_collection_fields
                {| Deepseek.terrain := t; Deepseek.bike := b2;
                   Deepseek.camera_x :=
                     Deepseek.update_camera (Deepseek.x b2)
                       (Deepseek.camera_x g);
                   Deepseek.bonuses := Deepseek.bonuses g;
                   Deepseek.rng := k |}) as Hc.
  pose proof (check_bonus_collection_score
                {| Deepseek.terrain := t; Deepseek.bike := b2;
                   Deepseek.camera_x :=
                     Deepseek.update_camera (Deepseek.x b2)
                       (Deepseek.camera_x g);
                   Deepseek.bonuses := Deepseek.bonuses g;
                   Deepseek.rng := k |}) as Hcs.
  cbn zeta in Hc, Hcs.
  set (g' := Deepseek.check_bonus_collection _) in *.
  cbn [Deepseek.terrain Deepseek.bike Deepseek.camera_x Deepseek.bonuses
       Deepseek.rng] in Hc, Hcs.
  destruct Hc as (Ht' & _ & _ & Hxg & Hyg & Hvg & Hbg).
  assert (Hstep : - (36 # 5) <= Deepseek.speed b1 * 0.96 /\
                  Deepseek.speed b1 * 0.96 <= 36 # 5) by (split; lra).
  split.
  - unfold game_inv. rewrite Ht', Hxg, Hyg, Hvg.
    split; [exact Hgen' |].
    split; [rewrite Hv; exact Hstep |].
    split; [rewrite Hbg, length_map; exact Hbl |].
    split; [lia |].
    split.
    + exists last. split; [exact Hl |]. rewrite Hx2. lra.
    + intro H0.
      destruct (deepseek_update_inside randint t dt b1 last Hgen' Hl)
        as (b2' & p & q & Hu' & _ & _ & _ & _ & _ & Hy1 & Hy2).
      * unfold Deepseek.FRICTION. rewrite <- Hx2. exact H0.
      * unfold Deepseek.FRICTION. lra.
      * rewrite Hu in Hu'. injection Hu' as <-. split; assumption.
  - rewrite Hxg, Hx2, Hx1. apply Qabs_Qle_condition. split; lra.
Qed.

Lemma frame_returns dt keys g :
  game_inv randint g ->
  exists fuel g', Deepseek.frame randint fuel dt keys g = Some g'.
Proof.
  intros (Hgen & _).
  set (b1 := Deepseek.handle_input keys (Deepseek.bike g)).
  destruct (update_terrain_returns randint (Deepseek.terrain g)
              (Deepseek.x b1) (Deepseek.rng g) Hgen) as (fuel & t & k & Ht).
  assert (Hgen' : deepseek_generated randint t)
    by (eapply generated_extend; eauto).
  destruct (generated_inv randint t Hgen') as ([Hsp _] & Hlen & _).
  destruct (deepseek_update_total (Deepseek.points t) dt b1 Hsp)
    as (b2 & _ & _ & Hu & _); [lia |].
  exists fuel. unfold Deepseek.frame. cbv zeta. fold b1.
  rewrite Ht. cbn [Py.bind]. rewrite Hu. cbn [Py.bind]. eauto.
Qed.

Lemma reachable_inv g : deepseek_reachable randint g -> game_inv randint g.
Proof.
  induction 1 as [| fuel dt keys g g' _ IH H].
  - apply Game_init_inv.
  - exact (proj1 (frame_inv fuel dt keys g g' IH H)).
Qed.

End Deepseek_loop.

(** X15.  In every game [Deepseek.py] can reach, the speed of the bike is
    at most 7.2 in either direction: 7.2 is the fixed point of
    accelerating by 0.3 and then losing 4 percent, and the speed
    approaches it without reaching it. *)
Theorem X15_deepseek_speed_bounded
  (randint : nat -> Z -> Z -> Z) (g : Deepseek.Game) :
  deepseek_reachable randint g ->
  - (36 # 5) <= Deepseek.speed (Deepseek.bike g) /\
  Deepseek.speed (Deepseek.bike g) <= 36 # 5.
Proof.
  intro Hr. destruct (reachable_inv randint g Hr) as (_ & Hs & _).
  exact Hs.
Qed.

Lemma X15_deepseek_speed_bounded_witness :
  exists g,
    Deepseek.frame zigzag 2 (1 # 60) up_keys (Deepseek.Game_init zigzag)
    = Some g /\
    deepseek_reachable zigzag g /\
    (- (36 # 5) <= Deepseek.speed (Deepseek.bike g) /\
     Deepseek.speed (Deepseek.bike g) <= 36 # 5).
Proof.
  assert (Hex : exists g,
             Deepseek.frame zigzag 2 (1 # 60) up_keys
               (Deepseek.Game_init zigzag) = Some g).
  { eexists. vm_compute. reflexivity. }
  destruct Hex as [g Hg].
  assert (Hr : deepseek_reachable zigzag g)
    by exact (reachable_frame zigzag 2 (1 # 60) up_keys _ g
                (reachable_init zigzag) Hg).
  exists g. split; [exact Hg |]. split; [exact Hr |].
  exact (X15_deepseek_speed_bounded zigzag g Hr).
Defined.

(** X16.  In every game [Deepseek.py] can reach, a turn of the loop of
    [run] returns for every key state when [update_terrain] is given
    enough fuel: no list access is out of range and no division is by
    zero.  The game always holds 20 bonuses, and its score is 10 times
    the number of bonuses flagged as collected, hence between 0 and
    200. *)
Theorem X16_deepseek_loop_never_raises
  (randint : nat -> Z -> Z -> Z) (g : Deepseek.Game) (dt : Q)
  (keys : Keys) :
  deepseek_reachable randint g ->
  (exists fuel g', Deepseek.frame randint fuel dt keys g = Some g') /\
  length (Deepseek.bonuses g) = 20%nat /\
  Deepseek.score (Deepseek.bike g)
  = (10 * collected_count (Deepseek.bonuses g))%Z /\
  (0 <= Deepseek.score (Deepseek.bike g) <= 200)%Z.
Proof.
  intro Hr. pose proof (reachable_inv randint g Hr) as Hinv.
  split; [apply frame_returns; exact Hinv |].
  destruct Hinv as (_ & _ & Hbl & Hsc & _).
  split; [exact Hbl |]. split; [exact Hsc |].
  pose proof (collected_count_bounds (Deepseek.bonuses g)) as Hc.
  rewrite Hbl in Hc. lia.
Qed.

Lemma X16_deepseek_loop_never_raises_witness :
  deepseek_reachable zigzag (Deepseek.Game_init zigzag) /\
  (exists fuel g',
      Deepseek.frame zigzag fuel (1 # 60) down_keys
        (Deepseek.Game_init zigzag) = Some g') /\
  length (Deepseek.bonuses (Deepseek.Game_init zigzag)) = 20%nat.
Proof.
  split; [exact (reachable_init zigzag) |].
  destruct (X16_deepseek_loop_never_raises zigzag _ (1 # 60) down_keys
              (reachable_init zigzag)) as (H1 & H2 & _).
  split; [exact H1 | exact H2].
Defined.

(** X17.  In every game [Deepseek.py] can reach, the terrain reaches at
    least 1000 beyond the bike, and a bike at or right of the origin
    rides between 180 and 480, inside the window.  The bounds on [y] are
    stated with a margin of [1/1000], which covers the rounding of the
    interpolation of the terrain height in [float] arithmetic. *)
Theorem X17_deepseek_terrain_ahead_and_bike_on_screen
  (randint : nat -> Z -> Z -> Z) (g : Deepseek.Game) :
  deepseek_reachable randint g ->
  (exists last,
      Py.index (Deepseek.points (Deepseek.terrain g)) (-1) = Some last /\
      Deepseek.x (Deepseek.bike g) + 1000 <= inject_Z (fst last)) /\
  (0 <= Deepseek.x (Deepseek.bike g) ->
   180 - (1 # 1000) <= Deepseek.y (Deepseek.bike g) /\
   Deepseek.y (Deepseek.bike g) <= 480 + (1 # 1000)).
Proof.
  intro Hr.
  destruct (reachable_inv randint g Hr) as (_ & _ & _ & _ & Hahead & Hy).
  split; [exact Hahead |].
  intro Hx. destruct (Hy Hx) as [Hlo Hhi]. split; lra.
Qed.

Lemma X17_deepseek_terrain_ahead_and_bike_on_screen_witness :
  exists g,
    Deepseek.frame zigzag 2 (1 # 60) up_keys (Deepseek.Game_init zigzag)
    = Some g /\
    deepseek_reachable zigzag g /\
    (0 <= Deepseek.x (Deepseek.bike g) ->
     180 - (1 # 1000) <= Deepseek.y (Deepseek.bike g) /\
     Deepseek.y (Deepseek.bike g) <= 480 + (1 # 1000)).
Proof.
  assert (Hex : exists g,
             Deepseek.frame zigzag 2 (1 # 60) up_keys
               (Deepseek.Game_init zigzag) = Some g).
  { eexists. vm_compute. reflexivity. }
  destruct Hex as [g Hg].
  assert (Hr : deepseek_reachable zigzag g)
    by exact (reachable_frame zigzag 2 (1 # 60) up_keys _ g
                (reachable_init zigzag) Hg).
  exists g. split; [exact Hg |]. split; [exact Hr |].
  exact (proj2 (X17_deepseek_terrain_ahead_and_bike_on_screen zigzag g Hr)).
Defined.

(* ================================================================== *)
(** ** Further properties of Deepseek.py: the bonuses *)

Lemma generate_bonuses_loop_range (randint : nat -> Z -> Z -> Z) (n : nat) :
  in_range randint ->
  forall acc k,
    Forall (fun bonus =>
              (500 <= Deepseek.bonus_x bonus <= 5000)%Z /\
              (200 <= Deepseek.bonus_y bonus <= 400)%Z) acc ->
    Forall (fun bonus =>
              (500 <= Deepseek.bonus_x bonus <= 5000)%Z /\
              (200 <= Deepseek.bonus_y bonus <= 400)%Z)
      (fst (Deepseek.generate_bonuses_loop randint n acc k)).
Proof.
  intro Hr. induction n as [| n IH]; intros acc k H; [exact H |].
  cbn [Deepseek.generate_bonuses_loop]. apply IH.
  apply Forall_app. split; [exact H |].
  constructor; [| constructor].
  cbn [Deepseek.bonus_x Deepseek.bonus_y]. split.
  - apply Hr. lia.
  - change (Deepseek.HEIGHT - 200)%Z with 400%Z. apply Hr. lia.
Qed.

Lemma deepseek_mark_position (bx : Q) (bonus : Deepseek.Bonus) :
  Deepseek.bonus_x (deepseek_mark bx bonus) = Deepseek.bonus_x bonus /\
  Deepseek.bonus_y (deepseek_mark bx bonus) = Deepseek.bonus_y bonus /\
  (Deepseek.collected bonus = true ->
   Deepseek.collected (deepseek_mark bx bonus) = true) /\
  (Deepseek.collected (deepseek_mark bx bonus) = false ->
   Deepseek.collected bonus = false /\
   30 <= Qabs (bx - inject_Z (Deepseek.bonus_x bonus))).
Proof.
  unfold deepseek_mark.
  destruct (Deepseek.hit bx bonus) eqn:E.
  - cbn [Deepseek.bonus_x Deepseek.bonus_y Deepseek.collected].
    repeat split; trivial; discriminate.
  - split; [reflexivity |]. split; [reflexivity |]. split; [trivial |].
    intro Hc. split; [exact Hc |].
    unfold Deepseek.hit in E. rewrite Hc in E. cbn [negb andb] in E.
    apply ltb_false in E. exact E.
Qed.

Lemma deepseek_update_score (pts : list Deepseek.point) dt b b' :
  Deepseek.update pts dt b = Some b' ->
  Deepseek.score b' = Deepseek.score b.
Proof.
  unfold Deepseek.update. intro H.
  destruct (Deepseek.get_current_segment _ _) as [seg |]; [| discriminate].
  cbn [Py.bind] in H.
  destruct (Deepseek.get_terrain_height _ _) as [h |]; [| discriminate].
  cbn [Py.bind] in H. injection H as <-. reflexivity.
Qed.

(** The bonuses of a game after a turn of the loop. *)
Lemma frame_bonuses (randint : nat -> Z -> Z -> Z) fuel dt keys g g' :
  Deepseek.frame randint fuel dt keys g = Some g' ->
  Deepseek.bonuses g'
  = map (deepseek_mark (Deepseek.x (Deepseek.bike g')))
      (Deepseek.bonuses g) /\
  (Deepseek.score (Deepseek.bike g')
   - 10 * collected_count (Deepseek.bonuses g')
   = Deepseek.score (Deepseek.bike g)
     - 10 * collected_count (Deepseek.bonuses g))%Z.
Proof.
  intro H. destruct (frame_Some randint fuel dt keys g g' H)
    as (t & k & b2 & Ht & Hu & ->).
  pose proof (check_bonus_collection_fields
                {| Deepseek.terrain := t; Deepseek.bike := b2;
                   Deepseek.camera_x :=
                     Deepseek.update_camera (Deepseek.x b2)
                       (Deepseek.camera_x g);
                   Deepseek.bonuses := Deepseek.bonuses g;
                   Deepseek.rng := k |}) as Hc.
  pose proof (check_bonus_collection_score
                {| Deepseek.terrain := t; Deepseek.bike := b2;
                   Deepseek.camera_x :=
                     Deepseek.update_camera (Deepseek.x b2)
                       (Deepseek.camera_x g);
                   Deepseek.bonuses := Deepseek.bonuses g;
                   Deepseek.rng := k |}) as Hcs.
  cbn zeta in Hc, Hcs.
  set (g' := Deepseek.check_bonus_collection _) in *.
  cbn [Deepseek.terrain Deepseek.bike Deepseek.camera_x Deepseek.bonuses
       Deepseek.rng] in Hc, Hcs.
  destruct Hc as (_ & _ & _ & Hxg & _ & _ & Hbg).
  split.
  - rewrite Hbg, Hxg. reflexivity.
  - pose proof (handle_input_fields keys (Deepseek.bike g)) as Hh.
    cbn zeta in Hh. destruct Hh as (_ & _ & Hsc1 & _).
    rewrite Hcs, (deepseek_update_score _ _ _ _ Hu), Hsc1. reflexivity.
Qed.

(** X18.  When every draw of [random.randint] is within the bounds it was
    asked for, every bonus of every game [Deepseek.py] can reach lies at
    [500 <= x <= 5000] and [200 <= y <= 400]: bonuses are never moved. *)
Theorem X18_deepseek_bonuses_stay_in_place
  (randint : nat -> Z -> Z -> Z) (g : Deepseek.Game) :
  in_range randint ->
  deepseek_reachable randint g ->
  Forall (fun bonus =>
            (500 <= Deepseek.bonus_x bonus <= 5000)%Z /\
            (200 <= Deepseek.bonus_y bonus <= 400)%Z)
    (Deepseek.bonuses g).
Proof.
  intros Hr. induction 1 as [| fuel dt keys g g' _ IH H].
  - unfold Deepseek.Game_init.
    destruct (Deepseek.Terrain_init randint 0) as [t k1].
    pose proof (generate_bonuses_loop_range randint 20 Hr [] k1
                  (Forall_nil _)) as Hb.
    unfold Deepseek.generate_bonuses.
    destruct (Deepseek.generate_bonuses_loop randint 20 [] k1) as [bs k2].
    exact Hb.
  - destruct (frame_bonuses randint fuel dt keys g g' H) as [Hb _].
    rewrite Hb. rewrite Forall_forall in IH |- *.
    intros bonus Hin. apply in_map_iff in Hin.
    destruct Hin as (old & <- & Hold).
    destruct (deepseek_mark_position (Deepseek.x (Deepseek.bike g')) old)
      as (-> & -> & _).
    apply IH. exact Hold.
Qed.

Lemma X18_deepseek_bonuses_stay_in_place_witness :
  in_range zigzag /\
  deepseek_reachable zigzag (Deepseek.Game_init zigzag) /\
  Forall (fun bonus =>
            (500 <= Deepseek.bonus_x bonus <= 5000)%Z /\
            (200 <= Deepseek.bonus_y bonus <= 400)%Z)
    (Deepseek.bonuses (Deepseek.Game_init zigzag)).
Proof.
  split; [exact zigzag_in_range |].
  split; [exact (reachable_init zigzag) |].
  exact (X18_deepseek_bonuses_stay_in_place zigzag _ zigzag_in_range
           (reachable_init zigzag)).
Defined.

(** X20.  Across a turn of the loop of [run] that returns, the bonuses
    keep their number, order and positions, a bonus flagged as collected
    stays flagged, a bonus that gets flagged was less than 30 from the
    bike horizontally, and the score grows by 10 per bonus that got
    flagged, so it never decreases. *)
Theorem X20_deepseek_collected_bonuses_stay_collected
  (randint : nat -> Z -> Z -> Z) (fuel : nat) (dt : Q) (keys : Keys)
  (g g' : Deepseek.Game) :
  Deepseek.frame randint fuel dt keys g = Some g' ->
  length (Deepseek.bonuses g') = length (Deepseek.bonuses g) /\
  (forall i bonus,
      nth_error (Deepseek.bonuses g) i = Some bonus ->
      exists bonus',
        nth_error (Deepseek.bonuses g') i = Some bonus' /\
        Deepseek.bonus_x bonus' = Deepseek.bonus_x bonus /\
        Deepseek.bonus_y bonus' = Deepseek.bonus_y bonus /\
        (Deepseek.collected bonus = true ->
         Deepseek.collected bonus' = true) /\
        (Deepseek.collected bonus = false ->
         Deepseek.collected bonus' = true ->
         Qabs (Deepseek.x (Deepseek.bike g')
               - inject_Z (Deepseek.bonus_x bonus)) < 30)) /\
  (Deepseek.score (Deepseek.bike g') - Deepseek.score (Deepseek.bike g)
   = 10 * (collected_count (Deepseek.bonuses g')
           - collected_count (Deepseek.bonuses g)))%Z /\
  (Deepseek.score (Deepseek.bike g) <= Deepseek.score (Deepseek.bike g'))%Z.
Proof.
  intro H. destruct (frame_bonuses randint fuel dt keys g g' H) as [Hb Hs].
  set (bx := Deepseek.x (Deepseek.bike g')) in *.
  assert (Hmono : forall bs,
             (collected_count bs
              <= collected_count (map (deepseek_mark bx) bs))%Z).
  { unfold collected_count. induction bs as [| bonus rest IH]; [simpl; lia |].
    cbn [map filter].
    destruct (deepseek_mark_position bx bonus) as (_ & _ & Hup & _).
    destruct (Deepseek.collected bonus).
    - rewrite (Hup eq_refl). cbn [length]. lia.
    - destruct (Deepseek.collected (deepseek_mark bx bonus));
        cbn [length]; lia. }
  split; [rewrite Hb; apply length_map |].
  split; [| split].
  - intros i bonus Hi. exists (deepseek_mark bx bonus).
    split; [rewrite Hb; apply map_nth_error; exact Hi |].
    destruct (deepseek_mark_position bx bonus) as (Hx & Hy & Hup & _).
    split; [exact Hx |]. split; [exact Hy |]. split; [exact Hup |].
    intros Hold Hnew. unfold deepseek_mark in Hnew.
    destruct (Deepseek.hit bx bonus) eqn:E; [| congruence].
    unfold Deepseek.hit in E. rewrite Hold in E. cbn [negb andb] in E.
    apply ltb_true in E. exact E.
  - lia.
  - specialize (Hmono (Deepseek.bonuses g)). rewrite <- Hb in Hmono. lia.
Qed.

Lemma X20_deepseek_collected_bonuses_stay_collected_witness :
  exists g',
    Deepseek.frame zigzag 2 (1 # 60) up_keys (Deepseek.Game_init zigzag)
    = Some g' /\
    length (Deepseek.bonuses g')
    = length (Deepseek.bonuses (Deepseek.Game_init zigzag)) /\
    (Deepseek.score (Deepseek.bike (Deepseek.Game_init zigzag))
     <= Deepseek.score (Deepseek.bike g'))%Z.
Proof.
  assert (Hex : exists g,
             Deepseek.frame zigzag 2 (1 # 60) up_keys
               (Deepseek.Game_init zigzag) = Some g).
  { eexists. vm_compute. reflexivity. }
  destruct Hex as [g Hg].
  destruct (X20_deepseek_collected_bonuses_stay_collected zigzag 2
              (1 # 60) up_keys _ g Hg) as (H1 & _ & _ & H2).
  exists g. split; [exact Hg |]. split; [exact H1 | exact H2].
Defined.

(** A circle is drawn for exactly the uncollected bonuses whose screen
    abscissa is strictly inside the window. *)
Lemma draw_bonuses_In (camera : Q) (bs : list Deepseek.Bonus) (c : Q * Z) :
  In c (Deepseek.draw_bonuses camera bs) <->
  exists bonus,
    In bonus bs /\ Deepseek.collected bonus = false /\
    c = (inject_Z (Deepseek.bonus_x bonus) - camera,
         Deepseek.bonus_y bonus) /\
    0 < fst c /\ fst c < inject_Z Deepseek.WIDTH.
Proof.
  induction bs as [| bonus rest IH]; cbn [Deepseek.draw_bonuses].
  - split; [intros [] | intros (b & [] & _)].
  - destruct (Deepseek.collected bonus) eqn:Ec; cbn [negb].
    + rewrite IH. split.
      * intros (b & Hin & H). exists b. split; [right; exact Hin | exact H].
      * intros (b & [<- | Hin] & Hc & H); [congruence |].
        exists b. auto.
    + cbv zeta.
      destruct (Py.ltb 0 (inject_Z (Deepseek.bonus_x bonus) - camera))
        eqn:E1;
        [destruct (Py.ltb (inject_Z (Deepseek.bonus_x bonus) - camera)
                     (inject_Z Deepseek.WIDTH)) eqn:E2 |];
        cbn [andb].
      * split.
        -- intros [<- | Hin].
           ++ exists bonus. apply ltb_true in E1, E2. cbn [fst].
              repeat split; trivial. left. reflexivity.
           ++ apply IH in Hin. destruct Hin as (b & Hin & H).
              exists b. split; [right; exact Hin | exact H].
        -- intros (b & [<- | Hin] & Hc & Hcc & H).
           ++ left. symmetry. exact Hcc.
           ++ right. apply IH. exists b. auto.
      * rewrite IH. split.
        -- intros (b & Hin & H). exists b. split; [right; exact Hin | exact H].
        -- intros (b & [<- | Hin] & Hc & -> & H0 & H1).
           ++ cbn [fst] in H1. apply ltb_true in H1. congruence.
           ++ exists b. auto.
      * rewrite IH. split.
        -- intros (b & Hin & H). exists b. split; [right; exact Hin | exact H].
        -- intros (b & [<- | Hin] & Hc & -> & H0 & H1).
           ++ cbn [fst] in H0. apply ltb_true in H0. congruence.
           ++ exists b. auto.
Qed.

(** X19.  After [check_bonus_collection], every circle that
    [draw_bonuses] draws has its centre strictly inside the window
    horizontally and at least 30 away from the bike's screen abscissa:
    a bonus within reach of the bike is never drawn again. *)
Theorem X19_deepseek_no_bonus_drawn_within_reach
  (g : Deepseek.Game) (c : Q * Z) :
  In c (Deepseek.draw_bonuses
          (Deepseek.camera_x (Deepseek.check_bonus_collection g))
          (Deepseek.bonuses (Deepseek.check_bonus_collection g))) ->
  0 < fst c /\ fst c < inject_Z Deepseek.WIDTH /\
  30 <= Qabs (Deepseek.x (Deepseek.bike g) - Deepseek.camera_x g - fst c).
Proof.
  intro H. apply draw_bonuses_In in H.
  destruct H as (bonus & Hin & Hc & -> & H0 & H1).
  pose proof (check_bonus_collection_fields g) as Hf. cbn zeta in Hf.
  destruct Hf as (_ & Hcam & _ & _ & _ & _ & Hb).
  rewrite Hcam in *. rewrite Hb in Hin.
  apply in_map_iff in Hin. destruct Hin as (old & <- & _).
  destruct (deepseek_mark_position (Deepseek.x (Deepseek.bike g)) old)
    as (Hx & _ & _ & Hfar).
  destruct (Hfar Hc) as [_ Hd]. rewrite Hx in *. cbn [fst] in *.
  split; [exact H0 |]. split; [exact H1 |].
  setoid_replace (Deepseek.x (Deepseek.bike g) - Deepseek.camera_x g
                  - (inject_Z (Deepseek.bonus_x old) - Deepseek.camera_x g))
    with (Deepseek.x (Deepseek.bike g) - inject_Z (Deepseek.bonus_x old))
    by ring.
  exact Hd.
Qed.

Lemma X19_deepseek_no_bonus_drawn_within_reach_witness :
  Deepseek.draw_bonuses
    (Deepseek.camera_x (Deepseek.check_bonus_collection two_bonus_game))
    (Deepseek.bonuses (Deepseek.check_bonus_collection two_bonus_game))
  = [(inject_Z 700 - 0, 300%Z)] /\
  0 < fst (inject_Z 700 - 0, 300%Z) /\
  fst (inject_Z 700 - 0, 300%Z) < inject_Z Deepseek.WIDTH /\
  30 <= Qabs (Deepseek.x (Deepseek.bike two_bonus_game)
              - Deepseek.camera_x two_bonus_game
              - fst (inject_Z 700 - 0, 300%Z)).
Proof.
  assert (Hd : Deepseek.draw_bonuses
                 (Deepseek.camera_x
                    (Deepseek.check_bonus_collection two_bonus_game))
                 (Deepseek.bonuses
                    (Deepseek.check_bonus_collection two_bonus_game))
               = [(inject_Z 700 - 0, 300%Z)]) by reflexivity.
  split; [exact Hd |].
  apply (X19_deepseek_no_bonus_drawn_within_reach two_bonus_game).
  rewrite Hd. left. reflexivity.
Defined.

(** The loop of [generate_initial_terrain] adds one point and makes one
    draw per turn, and keeps [current_x] one segment past the last
    point. *)
Lemma generate_initial_loop_counters (randint : nat -> Z -> Z -> Z)
  (n : nat) :
  forall t y k,
    let r := Deepseek.generate_initial_loop randint n t y k in
    length (Deepseek.points (fst r))
    = (length (Deepseek.points t) + n)%nat /\
    Deepseek.current_x (fst r)
    = (Deepseek.current_x t
       + Z.of_nat n * Deepseek.TERRAIN_SEGMENT_LENGTH)%Z /\
    snd r = (k + n)%nat.
Proof.
  induction n as [| n IH]; intros t y k; cbn zeta.
  - simpl. repeat split; lia.
  - cbn [Deepseek.generate_initial_loop].
    match goal with
    | |- context [Deepseek.generate_initial_loop randint n ?t1 ?y1 ?k1] =>
        specialize (IH t1 y1 k1)
    end.
    cbn zeta in IH. destruct IH as (H1 & H2 & H3).
    rewrite H1, H2, H3. cbn [Deepseek.points Deepseek.current_x].
    rewrite length_app. simpl length. repeat split; lia.
Qed.

(** X12.  Whatever the random source, [Terrain()] builds 26 points at the
    abscissas 0, 50, ..., 1250, leaves [current_x] at 1300, the abscissa
    of the next point, and makes exactly 26 draws (one more than the
    heights it uses). *)
Theorem X12_deepseek_initial_terrain_shape
  (randint : nat -> Z -> Z -> Z) (k : nat) :
  length (Deepseek.points (fst (Deepseek.Terrain_init randint k)))
  = 26%nat /\
  (forall i p,
      nth_error (Deepseek.points (fst (Deepseek.Terrain_init randint k))) i
      = Some p ->
      fst p = (Z.of_nat i * Deepseek.TERRAIN_SEGMENT_LENGTH)%Z /\
      (0 <= fst p <= 1250)%Z) /\
  Deepseek.current_x (fst (Deepseek.Terrain_init randint k)) = 1300%Z /\
  snd (Deepseek.Terrain_init randint k) = (k + 26)%nat.
Proof.
  destruct (Terrain_init_inv randint k) as ([Hs _] & Hlen & _).
  cbn zeta in Hs, Hlen.
  pose proof (generate_initial_loop_counters randint 26
                {| Deepseek.points := []; Deepseek.current_x := 0 |}
                300%Z k) as Hc.
  cbn zeta in Hc. destruct Hc as (_ & Hcx & Hk).
  split; [exact Hlen |]. split; [| split].
  - intros i p Hp. pose proof (Hs _ _ Hp) as Hx.
    assert (i < 26)%nat by (rewrite <- Hlen; apply nth_error_Some; congruence).
    split; [exact Hx |]. rewrite Hx.
    unfold Deepseek.TERRAIN_SEGMENT_LENGTH. lia.
  - exact Hcx.
  - exact Hk.
Qed.

(* ================================================================== *)
(** ** Further properties: bounded velocity, camera and tilt *)

(** With [0 <= dt <= 2] the Euler step and the clamp keep the velocity
    within [0, 200], whatever the keys. *)
Lemma next_vx_below_terminal dt keys v :
  0 <= dt -> dt <= 2 -> 0 <= v -> v <= 200 ->
  o3_next_vx dt keys v <= 200.
Proof.
  intros Hdt Hdt' Hv Hv'. unfold o3_next_vx, o3_acceleration. cbv zeta.
  assert (Hp : 0 <= (200 - v) * (1 - 0.5 * dt))
    by (apply Qmult_le_0_compat; lra).
  destruct (K_UP keys); [| destruct (K_DOWN keys)];
    destruct (Py.ltb _ 0); lra.
Qed.

(** X21.  On a generated terrain, from a bike with [0 <= vx <= 200] and
    through any frames of [Bike.update] with [0 < dt <= 2], whatever the
    keys, every frame returns and the velocity stays within [0, 200],
    the terminal velocity of the pedal against the drag. *)
Theorem X21_velocity_never_exceeds_terminal
  (M : PyMath) (uniform : nat -> Q) (fuel : nat) (len : Z)
  (terrain : list O3.sample) (b0 : O3.Bike) (frames : list (Q * Keys)) :
  O3.generate_terrain uniform fuel len O3.terrain_step = Some terrain ->
  (2 <= length terrain)%nat ->
  0 <= O3.vx b0 -> O3.vx b0 <= 200 ->
  Forall (fun f => 0 < fst f /\ fst f <= 2) frames ->
  exists b,
    O3.run terrain frames b0 = Some b /\
    0 <= O3.vx b /\ O3.vx b <= 200.
Proof.
  intros Hgen Hlen H0 H200 HF. apply generate_terrain_spaced in Hgen.
  destruct (run_total terrain Hgen Hlen frames b0) as [b Hb].
  exists b. split; [exact Hb |].
  refine (run_invariant terrain
            (fun b => 0 <= O3.vx b /\ O3.vx b <= 200)
            (fun f => 0 < fst f /\ fst f <= 2)
            _ frames b0 b HF (conj H0 H200) Hb).
  intros dt keys c c' [Hdt Hdt'] [Hc0 Hc200] Hc. cbn [fst] in Hdt, Hdt'.
  destruct (update_fields terrain dt keys c c' Hc) as (g & _ & Hvx & _).
  rewrite Hvx. split; [apply next_vx_nonneg |].
  apply next_vx_below_terminal; trivial; lra.
Qed.

Lemma X21_velocity_never_exceeds_terminal_witness :
  O3.generate_terrain (M := series_math) calm 501
    O3.terrain_length O3.terrain_step = Some course /\
  (2 <= length course)%nat /\
  0 <= O3.vx rest_bike /\ O3.vx rest_bike <= 200 /\
  Forall (fun f => 0 < fst f /\ fst f <= 2)
    [(1 # 60, up_keys); (1 # 2, down_keys)] /\
  exists b,
    O3.run (M := series_math) course
      [(1 # 60, up_keys); (1 # 2, down_keys)] rest_bike = Some b /\
    0 <= O3.vx b /\ O3.vx b <= 200.
Proof.
  assert (H0 : 0 <= O3.vx rest_bike) by (vm_compute; discriminate).
  assert (H1 : O3.vx rest_bike <= 200) by (vm_compute; discriminate).
  assert (HF : Forall (fun f => 0 < fst f /\ fst f <= 2)
                 [(1 # 60, up_keys); (1 # 2, down_keys)]).
  { repeat constructor; vm_compute; congruence. }
  split; [exact course_generated |]. split; [exact course_length |].
  split; [exact H0 |]. split; [exact H1 |]. split; [exact HF |].
  exact (X21_velocity_never_exceeds_terminal series_math calm 501
           O3.terrain_length course rest_bike _ course_generated
           course_length H0 H1 HF).
Defined.

(** The camera and the bike after a turn of the loop of [run]. *)
Lemma frame_camera (randint : nat -> Z -> Z -> Z) fuel dt keys g g' :
  Deepseek.frame randint fuel dt keys g = Some g' ->
  Deepseek.camera_x g'
  = Deepseek.update_camera (Deepseek.x (Deepseek.bike g'))
      (Deepseek.camera_x g).
Proof.
  intro H. destruct (frame_Some randint fuel dt keys g g' H)
    as (t & k & b2 & _ & _ & ->).
  pose proof (check_bonus_collection_fields
                {| Deepseek.terrain := t; Deepseek.bike := b2;
                   Deepseek.camera_x :=
                     Deepseek.update_camera (Deepseek.x b2)
                       (Deepseek.camera_x g);
                   Deepseek.bonuses := Deepseek.bonuses g;
                   Deepseek.rng := k |}) as Hc.
  cbn zeta in Hc.
  set (g' := Deepseek.check_bonus_collection _) in *.
  cbn [Deepseek.bike Deepseek.camera_x] in Hc.
  destruct Hc as (_ & Hcam & _ & Hx & _).
  rewrite Hcam, Hx. reflexivity.
Qed.

(** In exact arithmetic the screen abscissa [x - camera_x] of the bike
    stays between 100, its first value, and 664.8, the fixed point of
    [d := 0.9 * (d + 7.2) + 60]. *)
Lemma camera_window
  (randint : nat -> Z -> Z -> Z) (g : Deepseek.Game) :
  deepseek_reachable randint g ->
  100 <= Deepseek.x (Deepseek.bike g) - Deepseek.camera_x g /\
  Deepseek.x (Deepseek.bike g) - Deepseek.camera_x g <= 3324 # 5.
Proof.
  induction 1 as [| fuel dt keys g g' Hr IH H].
  - destruct (Game_init_fields randint) as (_ & Hb & _). rewrite Hb.
    assert (Hc : Deepseek.camera_x (Deepseek.Game_init randint) = 0).
    { unfold Deepseek.Game_init.
      destruct (Deepseek.Terrain_init randint 0) as [t k1].
      destruct (Deepseek.generate_bonuses randint k1) as [bs k2].
      reflexivity. }
    rewrite Hc. cbn [Deepseek.Bike_init Deepseek.x]. split; discriminate.
  - pose proof (reachable_inv randint g Hr) as Hinv.
    destruct (frame_inv randint fuel dt keys g g' Hinv H) as [_ Hd].
    apply Qabs_Qle_condition in Hd.
    rewrite (frame_camera randint fuel dt keys g g' H).
    unfold Deepseek.update_camera, Deepseek.CAMERA_SMOOTHNESS. cbv zeta.
    change (inject_Z (Deepseek.WIDTH / 2)) with 600.
    destruct IH as [I1 I2]. destruct Hd as [D1 D2]. split; lra.
Qed.

(** X22.  In every game [Deepseek.py] can reach, the camera keeps the
    bike inside the window horizontally: its screen abscissa
    [x - camera_x] stays between 100 and 665, well inside the width 1200
    of the window.  The upper bound is the fixed point 664.8 of the exact
    recurrence with a margin of 0.2 for the rounding of [float]
    arithmetic, under which the abscissa settles at
    [664.8000000000029]. *)
Theorem X22_deepseek_camera_keeps_bike_in_view
  (randint : nat -> Z -> Z -> Z) (g : Deepseek.Game) :
  deepseek_reachable randint g ->
  100 <= Deepseek.x (Deepseek.bike g) - Deepseek.camera_x g /\
  Deepseek.x (Deepseek.bike g) - Deepseek.camera_x g <= 665 /\
  Deepseek.x (Deepseek.bike g) - Deepseek.camera_x g
  < inject_Z Deepseek.WIDTH.
Proof.
  intro Hr. destruct (camera_window randint g Hr) as [Hlo Hhi].
  change (inject_Z Deepseek.WIDTH) with 1200.
  split; [exact Hlo |]. split; lra.
Qed.

Lemma X22_deepseek_camera_keeps_bike_in_view_witness :
  exists g,
    Deepseek.frame zigzag 2 (1 # 60) up_keys (Deepseek.Game_init zigzag)
    = Some g /\
    deepseek_reachable zigzag g /\
    100 <= Deepseek.x (Deepseek.bike g) - Deepseek.camera_x g /\
    Deepseek.x (Deepseek.bike g) - Deepseek.camera_x g <= 665 /\
    Deepseek.x (Deepseek.bike g) - Deepseek.camera_x g
    < inject_Z Deepseek.WIDTH.
Proof.
  assert (Hex : exists g,
             Deepseek.frame zigzag 2 (1 # 60) up_keys
               (Deepseek.Game_init zigzag) = Some g).
  { eexists. vm_compute. reflexivity. }
  destruct Hex as [g Hg].
  assert (Hr : deepseek_reachable zigzag g)
    by exact (reachable_frame zigzag 2 (1 # 60) up_keys _ g
                (reachable_init zigzag) Hg).
  exists g. split; [exact Hg |]. split; [exact Hr |].
  exact (X22_deepseek_camera_keeps_bike_in_view zigzag g Hr).
Defined.

Lemma handle_input_tilt (keys : Keys) (b : Deepseek.Bike) :
  Deepseek.tilt b - Deepseek.TILT_SPEED
  <= Deepseek.tilt (Deepseek.handle_input keys b) /\
  Deepseek.tilt (Deepseek.handle_input keys b)
  <= Deepseek.tilt b + Deepseek.TILT_SPEED.
Proof.
  unfold Deepseek.handle_input, Deepseek.TILT_SPEED. cbn [Deepseek.tilt].
  destruct (K_LEFT keys), (K_RIGHT keys); split; lra.
Qed.

(** The balance and the tilt written by [Bike.update]. *)
Lemma deepseek_update_tilt (pts : list Deepseek.point) dt b b' :
  (2 <= length pts)%nat ->
  Deepseek.update pts dt b = Some b' ->
  exists i p q,
    nth_error pts i = Some p /\ nth_error pts (S i) = Some q /\
    Deepseek.balance b' = inject_Z (snd q - snd p) /\
    Deepseek.tilt b'
    = Deepseek.tilt b
      + (- Deepseek.balance b' * 0.1 - Deepseek.tilt b) * 0.1.
Proof.
  intros Hlen H. unfold Deepseek.update in H.
  set (x' := Deepseek.x b + Deepseek.speed b * Deepseek.FRICTION) in *.
  destruct (get_current_segment_neighbours pts x' Hlen)
    as (i & p & q & Hseg & Hp & Hq).
  rewrite Hseg in H. cbn [Py.bind] in H.
  destruct (Deepseek.get_terrain_height (p, q) x') as [h |];
    [| discriminate].
  cbn [Py.bind fst snd] in H. injection H as <-.
  exists i, p, q. cbn [Deepseek.balance Deepseek.tilt]. auto.
Qed.

Lemma check_bonus_collection_tilt (g : Deepseek.Game) :
  Deepseek.tilt (Deepseek.bike (Deepseek.check_bonus_collection g))
  = Deepseek.tilt (Deepseek.bike g) /\
  Deepseek.balance (Deepseek.bike (Deepseek.check_bonus_collection g))
  = Deepseek.balance (Deepseek.bike g).
Proof.
  unfold Deepseek.check_bonus_collection.
  destruct (Deepseek.check_bonus_loop _ _ _) as [bs sc].
  split; reflexivity.
Qed.

(** X23.  When every draw of [random.randint(-50, 50)] is within its
    bounds, in every game [Deepseek.py] can reach the balance (the height
    difference of the segment under the bike) is within [-50, 50] and the
    tilt within [-18.5, 18.5], whatever keys were held: the auto-balance
    step outweighs the tilt keys. *)
Theorem X23_deepseek_tilt_bounded
  (randint : nat -> Z -> Z -> Z) (g : Deepseek.Game) :
  in_range randint ->
  deepseek_reachable randint g ->
  (-50 <= Deepseek.balance (Deepseek.bike g) /\
   Deepseek.balance (Deepseek.bike g) <= 50) /\
  (- (37 # 2) <= Deepseek.tilt (Deepseek.bike g) /\
   Deepseek.tilt (Deepseek.bike g) <= 37 # 2).
Proof.
  intro Hrange. induction 1 as [| fuel dt keys g g' Hr IH H].
  - destruct (Game_init_fields randint) as (_ & Hb & _). rewrite Hb.
    cbn [Deepseek.Bike_init Deepseek.balance Deepseek.tilt].
    repeat split; discriminate.
  - destruct (frame_Some randint fuel dt keys g g' H)
      as (t & k & b2 & Ht & Hu & ->).
    pose proof (reachable_inv randint g Hr) as (Hgen & _).
    assert (Hgen' : deepseek_generated randint t)
      by (eapply generated_extend; eauto).
    destruct (generated_inv randint t Hgen') as (_ & Hlen & _).
    destruct (deepseek_update_tilt (Deepseek.points t) dt
                (Deepseek.handle_input keys (Deepseek.bike g)) b2)
      as (i & p & q & Hp & Hq & Hbal & Htilt); [lia | exact Hu |].
    pose proof (generated_gentle randint Hrange t Hgen' i p q Hp Hq) as Hd.
    destruct (handle_input_tilt keys (Deepseek.bike g)) as [T1 T2].
    unfold Deepseek.TILT_SPEED in T1, T2.
    match goal with
    | |- context [Deepseek.check_bonus_collection ?g0] =>
        destruct (check_bonus_collection_tilt g0) as [Et Eb]
    end.
    rewrite Et, Eb. cbn [Deepseek.bike].
    assert (B : -50 <= Deepseek.balance b2 /\ Deepseek.balance b2 <= 50).
    { rewrite Hbal. change (-50) with (inject_Z (-50)).
      change 50 with (inject_Z 50). rewrite <- !Zle_Qle. lia. }
    split; [exact B |].
    rewrite Htilt. destruct IH as [_ [I1 I2]]. destruct B as [B1 B2].
    split; lra.
Qed.

Lemma X23_deepseek_tilt_bounded_witness :
  exists g,
    in_range zigzag /\
    Deepseek.frame zigzag 2 (1 # 60)
      {| K_UP := true; K_DOWN := false; K_LEFT := true; K_RIGHT := false |}
      (Deepseek.Game_init zigzag) = Some g /\
    deepseek_reachable zigzag g /\
    (- (37 # 2) <= Deepseek.tilt (Deepseek.bike g) /\
     Deepseek.tilt (Deepseek.bike g) <= 37 # 2).
Proof.
  assert (Hex : exists g,
             Deepseek.frame zigzag 2 (1 # 60)
               {| K_UP := true; K_DOWN := false; K_LEFT := true;
                  K_RIGHT := false |}
               (Deepseek.Game_init zigzag) = Some g).
  { eexists. vm_compute. reflexivity. }
  destruct Hex as [g Hg].
  assert (Hr : deepseek_reachable zigzag g)
    by exact (reachable_frame zigzag 2 (1 # 60) _ _ g
                (reachable_init zigzag) Hg).
  exists g. split; [exact zigzag_in_range |]. split; [exact Hg |].
  split; [exact Hr |].
  exact (proj2 (X23_deepseek_tilt_bounded zigzag g zigzag_in_range Hr)).
Defined.
